(** * twe-dlp: resolver, page scraper and asset downloader

    A shallow embedding of the pipeline of [twe-dlp.go] (the plain
    command-line program) and of its terminal-UI variant, followed by the
    properties stated for it.

    Go strings are byte sequences; they are modelled by [string], whose
    characters are the bytes.  Every test the program makes on a character
    (digits, the name class, the separators of the patterns) is a test on an
    ASCII byte, and Go's UTF-8 decoder yields an ASCII rune exactly at an
    ASCII byte, so those tests are written on bytes. *)

From Stdlib Require Import Ascii String NArith List Bool.
From stdpp Require Import gmap strings list.

Local Open Scope char_scope.
Local Open Scope string_scope.

(** ** The Go library functions the program calls *)

Module Go.

(** A byte lies in the closed range [lo, hi]. *)
Definition inRange (lo hi c : ascii) : bool :=
  ((N_of_ascii lo <=? N_of_ascii c) && (N_of_ascii c <=? N_of_ascii hi))%N.

Definition byteIs (n : N) (c : ascii) : bool := (N_of_ascii c =? n)%N.

(** [utf8.RuneSelf]: bytes below it are runes of their own. *)
Definition isASCII (c : ascii) : bool := (N_of_ascii c <? 128)%N.

(** *** unicode.IsSpace, on the UTF-8 encoding

    The white space runes are U+0009..U+000D, U+0020, U+0085, U+00A0, U+1680,
    U+2000..U+200A, U+2028, U+2029, U+202F, U+205F and U+3000; the last nine
    lines are their encodings on two and three bytes. *)
Definition isSpace1 (c : ascii) : bool :=
  inRange "009" "013" c || byteIs 32 c.

Definition isSpace2 (c0 c1 : ascii) : bool :=
  byteIs 194 c0 && (byteIs 133 c1 || byteIs 160 c1).

Definition isSpace3 (c0 c1 c2 : ascii) : bool :=
  (byteIs 225 c0 && byteIs 154 c1 && byteIs 128 c2)
  || (byteIs 226 c0 && byteIs 128 c1
      && (inRange "128" "138" c2 || byteIs 168 c2 || byteIs 169 c2 || byteIs 175 c2))
  || (byteIs 226 c0 && byteIs 129 c1 && byteIs 159 c2)
  || (byteIs 227 c0 && byteIs 128 c1 && byteIs 128 c2).

(** Drops the white space runes at the head of [s]; [sp2] and [sp3] receive
    the bytes in the order in which they stand in [s]. *)
Fixpoint dropSpaces (sp2 : ascii -> ascii -> bool)
    (sp3 : ascii -> ascii -> ascii -> bool) (s : string) : string :=
  match s with
  | String c0 s1 =>
      if isSpace1 c0 then dropSpaces sp2 sp3 s1
      else match s1 with
           | String c1 s2 =>
               if sp2 c0 c1 then dropSpaces sp2 sp3 s2
               else match s2 with
                    | String c2 s3 =>
                        if sp3 c0 c1 c2 then dropSpaces sp2 sp3 s3 else s
                    | EmptyString => s
                    end
           | EmptyString => s
           end
  | EmptyString => s
  end.

(** [strings.TrimLeftFunc(s, unicode.IsSpace)] *)
Definition TrimLeftSpace (s : string) : string := dropSpaces isSpace2 isSpace3 s.

(** [strings.TrimRightFunc(s, unicode.IsSpace)]: the same scan from the last
    byte backwards, on the reversed string. *)
Definition TrimRightSpace (s : string) : string :=
  String.rev
    (dropSpaces (fun c1 c0 => isSpace2 c0 c1) (fun c2 c1 c0 => isSpace3 c0 c1 c2)
       (String.rev s)).

(** [strings.TrimSpace] *)
Definition TrimSpace (s : string) : string := TrimRightSpace (TrimLeftSpace s).

(** [strings.HasPrefix] *)
Definition HasPrefix (s pre : string) : bool := String.prefix pre s.

(** [strings.Contains] *)
Fixpoint Contains (s substr : string) : bool :=
  HasPrefix s substr
  || match s with
     | String _ r => Contains r substr
     | EmptyString => false
     end.

(** [strings.Split(s, sep)] for a separator of one byte. *)
Fixpoint splitByte (sep : ascii) (s : string) : list string :=
  match s with
  | EmptyString => [EmptyString]
  | String c r =>
      if Ascii.eqb c sep then EmptyString :: splitByte sep r
      else match splitByte sep r with
           | h :: t => String c h :: t
           | [] => [String c EmptyString]
           end
  end.

(** [strings.Join] *)
Definition Join (elems : list string) (sep : string) : string :=
  String.concat sep elems.

(** *** strings.ToLower

    An all-ASCII string is lowered byte by byte.  A string with a byte of
    128 or more goes through [strings.Map(unicode.ToLower, s)], which reads
    Unicode's case tables; that function is the parameter [mapToLower]. *)
Definition lowerByte (c : ascii) : ascii :=
  if inRange "A" "Z" c then ascii_of_N (N_of_ascii c + 32) else c.

Fixpoint allASCII (s : string) : bool :=
  match s with
  | EmptyString => true
  | String c r => isASCII c && allASCII r
  end.

Fixpoint mapBytes (f : ascii -> ascii) (s : string) : string :=
  match s with
  | EmptyString => EmptyString
  | String c r => String (f c) (mapBytes f r)
  end.

Definition ToLower (mapToLower : string -> string) (s : string) : string :=
  if allASCII s then mapBytes lowerByte s else mapToLower s.

(** *** The three compiled patterns *)

(** The class of [safeNamePattern] is the complement of this one. *)
Definition isNameByte (c : ascii) : bool :=
  inRange "A" "Z" c || inRange "a" "z" c || inRange "0" "9" c || byteIs 95 c.

(** [safeNamePattern.ReplaceAllString(s, "_")] for the pattern
    [[^A-Za-z0-9_]+]: every maximal run of runes outside the class becomes one
    underscore.  A byte of 128 or more always belongs to a rune outside the
    class (an invalid byte reads as U+FFFD), so a run of such runes is a run
    of bytes outside the class.  [inRun] tells that the previous byte was
    part of a run already replaced. *)
Fixpoint replaceRuns (inRun : bool) (s : string) : string :=
  match s with
  | EmptyString => EmptyString
  | String c r =>
      if isNameByte c then String c (replaceRuns false r)
      else if inRun then replaceRuns true r
      else String "_" (replaceRuns true r)
  end.

Definition safeNamePattern_ReplaceAll (s : string) : string := replaceRuns false s.

(** The pattern [<.*?>] at a position just after a [<]: the number of bytes
    up to and including the nearest [>], when no line feed stands before it
    (the dot matches every rune but the line feed). *)
Fixpoint tagRest (s : string) : option nat :=
  match s with
  | EmptyString => None
  | String c r =>
      if Ascii.eqb c ">" then Some 1
      else if byteIs 10 c then None
      else S <$> tagRest r
  end.

(** [htmlTagPattern.ReplaceAllString(s, "")]: leftmost matches, each as short
    as possible, are deleted; [skip] counts the bytes of the current match
    still to delete. *)
Fixpoint deleteTags (skip : nat) (s : string) : string :=
  match s with
  | EmptyString => EmptyString
  | String c r =>
      match skip with
      | S k => deleteTags k r
      | O =>
          if Ascii.eqb c "<" then
            match tagRest r with
            | Some n => deleteTags n r
            | None => String c (deleteTags 0 r)
            end
          else String c (deleteTags 0 r)
      end
  end.

Definition htmlTagPattern_ReplaceAll (s : string) : string := deleteTags 0 s.

Definition isDigit (c : ascii) : bool := inRange "0" "9" c.

(** The longest prefix of digits: what [(\d+)] captures. *)
Fixpoint takeDigits (s : string) : string :=
  match s with
  | String c r => if isDigit c then String c (takeDigits r) else EmptyString
  | EmptyString => EmptyString
  end.

Fixpoint stripPrefix (pre s : string) : option string :=
  match pre, s with
  | EmptyString, _ => Some s
  | String a p, String b r => if Ascii.eqb a b then stripPrefix p r else None
  | String _ _, EmptyString => None
  end.

(** The pattern [/channels/(\d+)] matched at the head of [s]: the digits
    captured, which are the longest run of digits after the slash. *)
Definition channelMatchAt (s : string) : option string :=
  match stripPrefix "/channels/" s with
  | Some rest =>
      match takeDigits rest with
      | EmptyString => None
      | d => Some d
      end
  | None => None
  end.

(** [channelURLPattern.FindStringSubmatch(s)]: [Some d] stands for the
    two-element result whose second element is [d], the digits of the
    leftmost match; [None] for the empty result. *)
Fixpoint channelURLPattern_Find (s : string) : option string :=
  match channelMatchAt s, s with
  | Some d, _ => Some d
  | None, String _ r => channelURLPattern_Find r
  | None, EmptyString => None
  end.

(** *** Errors, formatted text, requests and responses *)

(** A Go [error] value: made by [errors.New], by [fmt.Errorf] (kept as its
    format and operands), or handed back by a library call. *)
Inductive error : Type :=
| errors_New (text : string)
| fmt_Errorf (format : string) (operands : list operand)
| libraryError (text : string)
with operand : Type :=
| opString (s : string)
| opError (e : error)
| opInt (n : nat).

(** A pair [(value, error)] as Go functions return it. *)
Inductive Result (A : Type) : Type :=
| Ok (a : A)
| Err (e : error).
Arguments Ok {A} a.
Arguments Err {A} e.

(** A line of formatted output, kept as its format and operands. *)
Record Line : Type := mkLine { format : string; operands : list operand }.

(** [*http.Request], as far as the program fills it. *)
Record Request : Type := mkRequest {
  Method : string;
  RequestURL : string;
  Header : list (string * string);
  RequestBody : option string
}.

(** [request.Header.Set(key, value)] *)
Definition Header_Set (key value : string) (r : Request) : Request :=
  mkRequest (Method r) (RequestURL r)
    ((key, value) :: filter (fun kv => negb (String.eqb kv.1 key)) (Header r))
    (RequestBody r).

(** [*http.Response], as far as the program reads it: the URL of the final
    request ([response.Request.URL.String()]), the status, the declared
    content type, and a handle on the body, which the world resolves. *)
Record Response : Type := mkResponse {
  finalURL : string;
  StatusCode : nat;
  Status : string;
  ContentType : string;
  Body : nat
}.

Definition StatusOK : nat := 200.

(** The pure library functions whose tables or parsers are not part of the
    program: Unicode case mapping, [net/url] and [path/filepath]. *)
Class Library : Type := {
  mapToLower : string -> string;
  URL : Type;
  url_Parse : string -> Result URL;
  ResolveReference : URL -> URL -> URL;
  URL_String : URL -> string;
  QueryEscape : string -> string;
  filepath_Join : string -> string -> string
}.

(** [http.NewRequest(method, url, body)] with one of the methods GET and
    POST: it fails exactly when the URL does not parse. *)
Definition http_NewRequest `{Library} (method url : string) (body : option string)
  : Result Request :=
  match url_Parse url with
  | Ok _ => Ok (mkRequest method url [] body)
  | Err e => Err e
  end.

(** *** goquery, as far as the program looks at a document

    An image element is seen through its attributes and through the text of
    its parent; a document through its first [div.card-header] (the text of
    the first anchor and of the first heading in it, when there are any) and
    through its image elements in the order in which [Find("img").Each]
    visits them. *)
Record Selection : Type := mkSelection {
  attributes : list (string * string);
  parentText : string
}.

Record CardHeader : Type := mkCardHeader {
  anchorText : option string;
  headingText : option string
}.

Record Document : Type := mkDocument {
  cardHeader : option CardHeader;
  images : list Selection
}.

(** [selection.Attr(name)]: the value and whether the attribute exists; the
    value is empty when it does not. *)
Fixpoint lookupAttr (name : string) (l : list (string * string)) : string * bool :=
  match l with
  | [] => (EmptyString, false)
  | (k, v) :: rest => if String.eqb k name then (v, true) else lookupAttr name rest
  end.

Definition Attr (selection : Selection) (name : string) : string * bool :=
  lookupAttr name (attributes selection).

(** *** The world outside the program

    The network and the file system answer through a state [World]; the
    program's run threads a [State]: the world, the calls made so far and the
    lines written so far, oldest first. *)
Inductive Call : Type :=
| callDo (request : Request)
| callReadAll (body : nat)
| callNewDocument (body : nat)
| callCloseBody (body : nat)
| callMkdirAll (path : string)
| callCreate (path : string)
| callCopy (file body : nat)
| callCloseFile (file : nat).

(** An [*http.Client], through its method [Do]. *)
Definition Client (World : Type) : Type := Request -> World -> Result Response * World.

Class System (World : Type) : Type := {
  io_ReadAll : nat -> World -> Result string * World;
  goquery_NewDocumentFromReader : nat -> World -> Result Document * World;
  os_MkdirAll : string -> World -> option error * World;
  os_Create : string -> World -> Result nat * World;
  io_Copy : nat -> nat -> World -> option error * World;
  (** the order in which a [range] over a map visits its entries *)
  rangeOrder : forall V : Type, World -> gmap string V -> list (string * V);
  rangeOrder_perm : forall V w (m : gmap string V), rangeOrder V w m ≡ₚ map_to_list m
}.

Record State (World : Type) : Type := mkState {
  world : World;
  calls : list Call;
  stdout : list Line
}.
Arguments mkState {World} world calls stdout.
Arguments world {World} s.
Arguments calls {World} s.
Arguments stdout {World} s.

Definition M (World A : Type) : Type := State World -> A * State World.

#[global] Instance M_ret (World : Type) : MRet (M World) :=
  fun A (a : A) s => (a, s).

#[global] Instance M_bind (World : Type) : MBind (M World) :=
  fun A B (f : A -> M World B) (m : M World A) s => let (a, s') := m s in f a s'.

(** A call to the outside: the answer comes from the world, and the call is
    recorded. *)
Definition perform {World A : Type} (c : Call) (f : World -> A * World) : M World A :=
  fun s => let (a, w) := f (world s) in (a, mkState w (calls s ++ [c]) (stdout s)).

(** [fmt.Printf(format, operands...)] *)
Definition Printf {World : Type} (format : string) (operands : list operand)
  : M World unit :=
  fun s => (tt, mkState (world s) (calls s) (stdout s ++ [mkLine format operands])).

Definition Do {World : Type} (httpClient : Client World) (request : Request)
  : M World (Result Response) :=
  perform (callDo request) (httpClient request).

Definition ReadAll `{System World} (body : nat) : M World (Result string) :=
  perform (callReadAll body) (io_ReadAll body).

Definition NewDocumentFromReader `{System World} (body : nat)
  : M World (Result Document) :=
  perform (callNewDocument body) (goquery_NewDocumentFromReader body).

Definition CloseBody {World : Type} (body : nat) : M World unit :=
  perform (callCloseBody body) (fun w => (tt, w)).

Definition MkdirAll `{System World} (path : string) : M World (option error) :=
  perform (callMkdirAll path) (os_MkdirAll path).

Definition Create `{System World} (path : string) : M World (Result nat) :=
  perform (callCreate path) (os_Create path).

Definition Copy `{System World} (file body : nat) : M World (option error) :=
  perform (callCopy file body) (io_Copy file body).

Definition CloseFile {World : Type} (file : nat) : M World unit :=
  perform (callCloseFile file) (fun w => (tt, w)).

(** The entries of a map in the order of a [range] over it. *)
Definition rangeMap `{System World} {V : Type} (m : gmap string V)
  : M World (list (string * V)) :=
  fun s => (rangeOrder V (world s) m, s).

(** A loop over a list whose body only acts on the state. *)
Fixpoint forEach {World A : Type} (l : list A) (body : A -> M World unit)
  : M World unit :=
  match l with
  | [] => mret tt
  | a :: rest => body a ≫= fun _ => forEach rest body
  end.

(** *** Text for a log, and function values that log

    The text that [fmt.Sprintf] makes for a line of a log is kept as a
    function of the format and the operands. *)
Class Fmt : Type := {
  Sprintf : string -> list operand -> string
}.

(** [fmt.Print(text)] with one string, which writes what
    [fmt.Printf("%s", text)] writes. *)
Definition Print {World : Type} (text : string) : M World unit :=
  Printf "%s" [opString text].

(** [fmt.Println(line)] with one string, which writes what
    [fmt.Printf("%s\n", line)] writes. *)
Definition Println {World : Type} (line : string) : M World unit :=
  Printf "%s\n" [opString line].

(** A run beside the variables that a function value has captured: a
    [func(string)] that the program passes around may write to them as well
    as act on the state of the run. *)
Definition L (World Captured A : Type) : Type := Captured -> M World (A * Captured).

#[global] Instance L_ret (World Captured : Type) : MRet (L World Captured) :=
  fun A (a : A) captured s => ((a, captured), s).

#[global] Instance L_bind (World Captured : Type) : MBind (L World Captured) :=
  fun A B (f : A -> L World Captured B) (m : L World Captured A) captured s =>
    let (result, s') := m captured s in
    let (a, captured') := result in
    f a captured' s'.

(** A step of the run that leaves the captured variables alone. *)
Definition lift {World Captured A : Type} (m : M World A) : L World Captured A :=
  fun captured s => let (a, s') := m s in ((a, captured), s').

Fixpoint forEachL {World Captured A : Type} (l : list A)
    (body : A -> L World Captured unit) : L World Captured unit :=
  match l with
  | [] => mret tt
  | a :: rest => body a ≫= fun _ => forEachL rest body
  end.

(** *** The process around a run

    [main] also reads the arguments and a line of the standard input, writes
    to the standard error and ends the process with a status. *)
Class Console (World : Type) : Type := {
  (** [reader.ReadString('\n')] on a new reader of [os.Stdin]: the text up
      to the first line feed and with it, or the error met before one *)
  bufio_ReadString : World -> Result string * World
}.

Definition ReadString `{Console World} : M World (Result string) :=
  fun s => let (read, w) := bufio_ReadString (world s) in
           (read, mkState w (calls s) (stdout s)).

Record Process (World : Type) : Type := mkProcess {
  state : State World;
  stderr : list Line
}.
Arguments mkProcess {World} state stderr.
Arguments state {World} p.
Arguments stderr {World} p.

(** [fmt.Fprintf(os.Stderr, format, operands...)] *)
Definition Fprintf_Stderr {World : Type} (format : string) (operands : list operand)
    (st : State World) (p : Process World) : Process World :=
  mkProcess st (stderr p ++ [mkLine format operands]).

(** *** bubbletea and its text input, as far as the program uses them

    A key message is seen through its type and through its [String()]; the
    text input and the styles are values of the libraries, which the program
    hands back to them. *)
Inductive KeyType : Type :=
| KeyCtrlC
| KeyEsc
| KeyEnter
| KeyRunes
| otherKeyType (code : nat).

Record KeyMsg : Type := mkKeyMsg {
  KeyMsg_Type : KeyType;
  KeyMsg_String : string
}.

Class Terminal : Type := {
  textinput_Model : Type;
  lipgloss_Style : Type;
  (** a message of the runtime or of the libraries *)
  otherMessage : Type;
  (** a command that the text input hands back, which may be nil *)
  textinput_Cmd : Type;
  textinput_Value : textinput_Model -> string;
  textinput_Update :
    textinput_Model -> KeyMsg + otherMessage -> textinput_Model * textinput_Cmd;
  textinput_SetValue : string -> textinput_Model -> textinput_Model;
  textinput_Focus : textinput_Model -> textinput_Model
}.

End Go.

(** ** The program of [twe-dlp.go] *)

Module TweDlp.
Import Go.

Definition twitchemotesBaseURL : string := "https://twitchemotes.com".

Definition emoteSizeList : list string := ["1.0"; "2.0"; "3.0"].
Definition defaultUserAgent : string := "Mozilla/5.0 (X11; Linux x86_64) twe-dlp/1.0".

Record EmoteData : Type := mkEmoteData {
  BaseURL : string;
  FormatType : string;
  EmoteCode : string
}.

Definition makeSafeName (name : string) : string :=
  let name := TrimSpace name in
  if String.eqb name "" then "unknown"
  else
    let safe := safeNamePattern_ReplaceAll name in
    if String.eqb safe "" then "unknown" else safe.

(** The loop that sets [isNumeric]: it stops with [false] at the first
    character below ['0'] or above ['9'].  The loop visits runes; a rune in
    that range is one ASCII byte, and a byte of 128 or more only occurs in a
    rune above ['9'], so the test is made on each byte. *)
Fixpoint isNumeric (channelIdentifier : string) : bool :=
  match channelIdentifier with
  | EmptyString => true
  | String character rest =>
      if Ascii.ltb character "0" || Ascii.ltb "9" character then false
      else isNumeric rest
  end.

(** [formValues.Encode()] for the two fields set, keys in sorted order. *)
Definition encodeForm `{Library} (channelIdentifier : string) : string :=
  "query=" +:+ QueryEscape channelIdentifier +:+ "&source=" +:+ QueryEscape "twe-dlp".

Section Run.
Context `{Library} {World : Type} `{System World}.

Definition resolveChannelIdentifierToID (httpClient : Client World)
    (channelIdentifier : string) : M World (Result string) :=
  if String.eqb channelIdentifier "" then
    mret (Err (errors_New "empty channel identifier"))
  else if isNumeric channelIdentifier then mret (Ok channelIdentifier)
  else
    let requestURL := twitchemotesBaseURL +:+ "/search/channel" in
    match http_NewRequest "POST" requestURL (Some (encodeForm channelIdentifier)) with
    | Err err => mret (Err err)
    | Ok request =>
        let request :=
          Header_Set "Content-Type" "application/x-www-form-urlencoded" request in
        let request := Header_Set "User-Agent" defaultUserAgent request in
        answer ← Do httpClient request;
        match answer with
        | Err err => mret (Err err)
        | Ok response =>
            result ←
              match channelURLPattern_Find (finalURL response) with
              | Some id => mret (Ok id)
              | None =>
                  read ← ReadAll (Body response);
                  match read with
                  | Err err => mret (Err err)
                  | Ok bodyText =>
                      match channelURLPattern_Find bodyText with
                      | Some id => mret (Ok id)
                      | None =>
                          mret (Err (fmt_Errorf
                                       "could not resolve channel name %q to an ID"
                                       [opString channelIdentifier]))
                      end
                  end
              end;
            (* the deferred response.Body.Close() *)
            CloseBody (Body response);;
            mret result
        end
    end.

Definition fetchDocument (httpClient : Client World) (pageURL : string)
  : M World (Result (Document * Response)) :=
  match http_NewRequest "GET" pageURL None with
  | Err err => mret (Err err)
  | Ok request =>
      let request := Header_Set "User-Agent" defaultUserAgent request in
      answer ← Do httpClient request;
      match answer with
      | Err err => mret (Err err)
      | Ok response =>
          parsed ← NewDocumentFromReader (Body response);
          match parsed with
          | Err err => CloseBody (Body response);; mret (Err err)
          | Ok document => mret (Ok (document, response))
          end
      end
  end.

End Run.

Definition getChannelDisplayName (document : Document) : string :=
  match cardHeader document with
  | None => ""
  | Some headerSelection =>
      let fromHeading :=
        match headingText headerSelection with
        | Some t =>
            let text := TrimSpace t in
            if negb (String.eqb text "") then text else ""
        | None => ""
        end in
      match anchorText headerSelection with
      | Some t =>
          let text := TrimSpace t in
          if negb (String.eqb text "") then text else fromHeading
      | None => fromHeading
      end
  end.

Definition resolveRelativeURL `{Library} (base relative : string) : Result string :=
  match url_Parse base with
  | Err err => Err err
  | Ok baseURL =>
      match url_Parse relative with
      | Err err => Err err
      | Ok relativeURL => Ok (URL_String (ResolveReference baseURL relativeURL))
      end
  end.

(** *** The function passed to [Each] in [collectEmoteMetadata], in four steps *)

(** [fullImageSource]: the source itself when it starts with a scheme, else
    the source resolved against the base URL; [None] when that fails. *)
Definition fullSource `{Library} (imageSource : string) : option string :=
  if negb (HasPrefix imageSource "http://") && negb (HasPrefix imageSource "https://") then
    match resolveRelativeURL twitchemotesBaseURL imageSource with
    | Err _ => None
    | Ok resolved => Some resolved
    end
  else Some imageSource.

(** The loop that sets [emoticonsIndex]: the index of the first part equal
    to [emoticons], counted from [index]; [None] where the program keeps -1. *)
Fixpoint findEmoticons (index : nat) (pathParts : list string) : option nat :=
  match pathParts with
  | [] => None
  | part :: rest =>
      if String.eqb part "emoticons" then Some index
      else findEmoticons (S index) rest
  end.

(** The identifier, the format type and the base URL read from the path, or
    [None] where the function returns early.  The two guards keep the three
    indices inside [pathParts]. *)
Definition emotePath (fullImageSource : string) : option (string * string * string) :=
  let pathParts := splitByte "/" fullImageSource in
  match findEmoticons 0 pathParts with
  | None => None
  | Some emoticonsIndex =>
      if (length pathParts <=? emoticonsIndex + 3)%nat then None
      else
        match pathParts !! (emoticonsIndex + 2), pathParts !! (emoticonsIndex + 3) with
        | Some emoteIdentifier, Some formatType =>
            let baseURL := Join (take (emoticonsIndex + 4) pathParts) "/" in
            Some (emoteIdentifier, formatType, baseURL)
        | _, _ => None
        end
  end.

Definition emoteCodeOf (selection : Selection) (emoteIdentifier : string) : string :=
  let (emoteCode, hasRegex) := Attr selection "data-regex" in
  let emoteCode :=
    if negb hasRegex || String.eqb (TrimSpace emoteCode) "" then
      let (tooltipHTML, hasTooltip) := Attr selection "data-tooltip" in
      if hasTooltip && negb (String.eqb (TrimSpace tooltipHTML) "") then
        TrimSpace (htmlTagPattern_ReplaceAll tooltipHTML)
      else emoteCode
    else emoteCode in
  if String.eqb emoteCode "" then
    let parentText := TrimSpace (parentText selection) in
    if negb (String.eqb parentText "") then parentText else emoteIdentifier
  else emoteCode.

(** What one image element yields before the map is consulted: its
    identifier and its record, or [None] where the function returns early. *)
Definition emoteOf `{Library} (selection : Selection) : option (string * EmoteData) :=
  let (imageSource, hasSrc) := Attr selection "src" in
  if negb hasSrc || String.eqb imageSource "" then None
  else if negb (Contains imageSource "static-cdn.jtvnw.net/emoticons/v2/") then None
  else
    match fullSource imageSource with
    | None => None
    | Some fullImageSource =>
        match emotePath fullImageSource with
        | None => None
        | Some (emoteIdentifier, formatType, baseURL) =>
            let emoteCode := emoteCodeOf selection emoteIdentifier in
            Some (emoteIdentifier, mkEmoteData baseURL formatType emoteCode)
        end
    end.

Definition visitImage `{Library} (emoteMap : gmap string EmoteData)
    (selection : Selection) : gmap string EmoteData :=
  match emoteOf selection with
  | None => emoteMap
  | Some (emoteIdentifier, emoteData) =>
      match emoteMap !! emoteIdentifier with
      | Some _ => emoteMap
      | None => <[emoteIdentifier := emoteData]> emoteMap
      end
  end.

Definition collectEmoteMetadata `{Library} (document : Document)
  : gmap string EmoteData :=
  foldl visitImage ∅ (images document).

Definition determineFileExtension `{Library} (contentType : string) : string :=
  let contentType := ToLower mapToLower contentType in
  if Contains contentType "gif" then "gif"
  else if Contains contentType "jpeg" || Contains contentType "jpg" then "jpg"
  else if Contains contentType "png" then "png"
  else "img".

Section Download.
Context `{Library} {World : Type} `{System World}.

(** One turn of the loop over [emoteSizeList] in [downloadEmoteImages]; each
    [continue] ends the turn. *)
Definition downloadSize (httpClient : Client World)
    (emoteBaseURL safeEmoteCode emoteFolder sizeValue : string) : M World unit :=
  let imageURL := emoteBaseURL +:+ "/light/" +:+ sizeValue in
  match http_NewRequest "GET" imageURL None with
  | Err err => Printf "[skip] %s (%v)\n" [opString imageURL; opError err]
  | Ok request =>
      let request := Header_Set "User-Agent" defaultUserAgent request in
      answer ← Do httpClient request;
      match answer with
      | Err err => Printf "[skip] %s (%v)\n" [opString imageURL; opError err]
      | Ok response =>
          if negb (StatusCode response =? StatusOK)%nat then
            Printf "[skip] %s (status %s)\n"
              [opString imageURL; opString (Status response)];;
            CloseBody (Body response)
          else
            let contentType := ContentType response in
            let fileExtension := determineFileExtension contentType in
            let outputFilename :=
              safeEmoteCode +:+ "_" +:+ sizeValue +:+ "." +:+ fileExtension in
            let outputPath := filepath_Join emoteFolder outputFilename in
            created ← Create outputPath;
            match created with
            | Err err =>
                Printf "[skip] %s (cannot create file: %v)\n"
                  [opString outputPath; opError err];;
                CloseBody (Body response)
            | Ok outputFile =>
                copyError ← Copy outputFile (Body response);
                CloseFile outputFile;;
                CloseBody (Body response);;
                match copyError with
                | Some err =>
                    Printf "[skip] %s (copy error: %v)\n"
                      [opString outputPath; opError err]
                | None => Printf "[ok] %s\n" [opString outputFilename]
                end
            end
      end
  end.

Definition downloadEmoteImages (httpClient : Client World)
    (emoteIdentifier : string) (emoteData : EmoteData) (outputRoot : string)
  : M World unit :=
  let emoteCode := EmoteCode emoteData in
  let emoteBaseURL := BaseURL emoteData in
  let safeEmoteCode := makeSafeName emoteCode in
  let emoteFolder := filepath_Join outputRoot safeEmoteCode in
  failed ← MkdirAll emoteFolder;
  match failed with
  | Some err =>
      Printf "[error] cannot create folder %s: %v\n" [opString emoteFolder; opError err]
  | None =>
      forEach emoteSizeList (downloadSize httpClient emoteBaseURL safeEmoteCode emoteFolder)
  end.

Definition downloadChannelEmotes (httpClient : Client World) (channelID : string)
  : M World (option error) :=
  let channelURL := twitchemotesBaseURL +:+ "/channels/" +:+ channelID in
  fetched ← fetchDocument httpClient channelURL;
  match fetched with
  | Err err => mret (Some err)
  | Ok (document, response) =>
      result ←
        (if negb (StatusCode response =? StatusOK)%nat then
           mret (Some (fmt_Errorf "request failed with status %s"
                         [opString (Status response)]))
         else
           let channelDisplayName := getChannelDisplayName document in
           let safeChannelName := makeSafeName channelDisplayName in
           let safeChannelName :=
             if String.eqb safeChannelName "unknown" then makeSafeName channelID
             else safeChannelName in
           let outputRoot := safeChannelName in
           failed ← MkdirAll outputRoot;
           match failed with
           | Some err =>
               mret (Some (fmt_Errorf "cannot create output directory %s: %w"
                             [opString outputRoot; opError err]))
           | None =>
               Printf "Channel ID: %s\n" [opString channelID];;
               (if negb (String.eqb channelDisplayName "") then
                  Printf "Channel Name: %s\n" [opString channelDisplayName]
                else mret tt);;
               Printf "Output Folder: %s\n" [opString outputRoot];;
               Printf "Collecting emote metadata...\n" [];;
               let emoteMap := collectEmoteMetadata document in
               Printf "Found %d emotes\n" [opInt (size emoteMap)];;
               if (size emoteMap =? 0)%nat then mret None
               else
                 entries ← rangeMap emoteMap;
                 forEach entries
                   (fun entry : string * EmoteData =>
                      let (emoteIdentifier, emoteData) := entry in
                      Printf "Downloading sizes for emote: %s (%s)\n"
                        [opString (EmoteCode emoteData); opString emoteIdentifier];;
                      downloadEmoteImages httpClient emoteIdentifier emoteData outputRoot);;
                 mret None
           end);
      (* the deferred response.Body.Close() *)
      CloseBody (Body response);;
      mret result
  end.

End Download.

(** *** The entry point *)

Section Main.
Context `{Library} {World : Type} `{System World} `{Console World}.

Definition readStdinLine (prompt : string) : M World (Result string) :=
  Print prompt;;
  read ← ReadString;
  match read with
  | Err err => mret (Err err)
  | Ok line => mret (Ok (TrimSpace line))
  end.

(** [main], given the client that [createHTTPClient] makes, [os.Args] and
    the state of the process; it returns the exit status: 1 where the
    program calls [os.Exit(1)], 0 where [main] returns. *)
Definition main (httpClient : Client World) (Args : list string) (p : Process World)
  : nat * Process World :=
  let (read, st) :=
    if (2 <=? length Args)%nat then (Ok (TrimSpace (nth 1 Args "")), state p)
    else readStdinLine "Enter Twitch channel name or numeric ID: " (state p) in
  match read with
  | Err err => (1, Fprintf_Stderr "Error reading input: %v\n" [opError err] st p)
  | Ok channelIdentifier =>
      if String.eqb channelIdentifier "" then
        (1, Fprintf_Stderr "No channel identifier provided.\n" [] st p)
      else
        let (resolved, st) :=
          resolveChannelIdentifierToID httpClient channelIdentifier st in
        match resolved with
        | Err err =>
            (1, Fprintf_Stderr "Error resolving channel: %v\n" [opError err] st p)
        | Ok channelID =>
            let (failed, st) := downloadChannelEmotes httpClient channelID st in
            match failed with
            | Some err =>
                (1, Fprintf_Stderr "Error downloading emotes: %v\n" [opError err] st p)
            | None => (0, mkProcess st (stderr p))
            end
        end
  end.

End Main.

End TweDlp.

(** ** The same functions in the terminal-UI program

    The second source file declares the record and the functions of the
    pipeline again; they are translated from that file, which passes a
    logging function to the two download functions only, and adds the model
    of a terminal UI and a text mode. *)

Module TweDlpTui.
Import Go.

Definition twitchemotesBaseURL : string := "https://twitchemotes.com".

Definition defaultUserAgent : string := "Mozilla/5.0 (X11; Linux x86_64) twe-dlp/1.0".

Record EmoteData : Type := mkEmoteData {
  BaseURL : string;
  FormatType : string;
  EmoteCode : string
}.

Definition makeSafeName (name : string) : string :=
  let name := TrimSpace name in
  if String.eqb name "" then "unknown"
  else
    let safe := safeNamePattern_ReplaceAll name in
    if String.eqb safe "" then "unknown" else safe.

(** The loop that sets [isNumeric]: it stops with [false] at the first
    character below ['0'] or above ['9'].  The loop visits runes; a rune in
    that range is one ASCII byte, and a byte of 128 or more only occurs in a
    rune above ['9'], so the test is made on each byte. *)
Fixpoint isNumeric (channelIdentifier : string) : bool :=
  match channelIdentifier with
  | EmptyString => true
  | String character rest =>
      if Ascii.ltb character "0" || Ascii.ltb "9" character then false
      else isNumeric rest
  end.

(** [formValues.Encode()] for the two fields set, keys in sorted order. *)
Definition encodeForm `{Library} (channelIdentifier : string) : string :=
  "query=" +:+ QueryEscape channelIdentifier +:+ "&source=" +:+ QueryEscape "twe-dlp".

Section Resolve.
Context `{Library} {World : Type} `{System World}.

Definition resolveChannelIdentifierToID (httpClient : Client World)
    (channelIdentifier : string) : M World (Result string) :=
  if String.eqb channelIdentifier "" then
    mret (Err (errors_New "empty channel identifier"))
  else if isNumeric channelIdentifier then mret (Ok channelIdentifier)
  else
    let requestURL := twitchemotesBaseURL +:+ "/search/channel" in
    match http_NewRequest "POST" requestURL (Some (encodeForm channelIdentifier)) with
    | Err err => mret (Err err)
    | Ok request =>
        let request :=
          Header_Set "Content-Type" "application/x-www-form-urlencoded" request in
        let request := Header_Set "User-Agent" defaultUserAgent request in
        answer ← Do httpClient request;
        match answer with
        | Err err => mret (Err err)
        | Ok response =>
            result ←
              match channelURLPattern_Find (finalURL response) with
              | Some id => mret (Ok id)
              | None =>
                  read ← ReadAll (Body response);
                  match read with
                  | Err err => mret (Err err)
                  | Ok bodyText =>
                      match channelURLPattern_Find bodyText with
                      | Some id => mret (Ok id)
                      | None =>
                          mret (Err (fmt_Errorf
                                       "could not resolve channel name %q to an ID"
                                       [opString channelIdentifier]))
                      end
                  end
              end;
            (* the deferred response.Body.Close() *)
            CloseBody (Body response);;
            mret result
        end
    end.

End Resolve.

Definition resolveRelativeURL `{Library} (base relative : string) : Result string :=
  match url_Parse base with
  | Err err => Err err
  | Ok baseURL =>
      match url_Parse relative with
      | Err err => Err err
      | Ok relativeURL => Ok (URL_String (ResolveReference baseURL relativeURL))
      end
  end.

(** *** The function passed to [Each] in [collectEmoteMetadata], in four steps *)

(** [fullImageSource]: the source itself when it starts with a scheme, else
    the source resolved against the base URL; [None] when that fails. *)
Definition fullSource `{Library} (imageSource : string) : option string :=
  if negb (HasPrefix imageSource "http://") && negb (HasPrefix imageSource "https://") then
    match resolveRelativeURL twitchemotesBaseURL imageSource with
    | Err _ => None
    | Ok resolved => Some resolved
    end
  else Some imageSource.

(** The loop that sets [emoticonsIndex]: the index of the first part equal
    to [emoticons], counted from [index]; [None] where the program keeps -1. *)
Fixpoint findEmoticons (index : nat) (pathParts : list string) : option nat :=
  match pathParts with
  | [] => None
  | part :: rest =>
      if String.eqb part "emoticons" then Some index
      else findEmoticons (S index) rest
  end.

(** The identifier, the format type and the base URL read from the path, or
    [None] where the function returns early.  The two guards keep the three
    indices inside [pathParts]. *)
Definition emotePath (fullImageSource : string) : option (string * string * string) :=
  let pathParts := splitByte "/" fullImageSource in
  match findEmoticons 0 pathParts with
  | None => None
  | Some emoticonsIndex =>
      if (length pathParts <=? emoticonsIndex + 3)%nat then None
      else
        match pathParts !! (emoticonsIndex + 2), pathParts !! (emoticonsIndex + 3) with
        | Some emoteIdentifier, Some formatType =>
            let baseURL := Join (take (emoticonsIndex + 4) pathParts) "/" in
            Some (emoteIdentifier, formatType, baseURL)
        | _, _ => None
        end
  end.

Definition emoteCodeOf (selection : Selection) (emoteIdentifier : string) : string :=
  let (emoteCode, hasRegex) := Attr selection "data-regex" in
  let emoteCode :=
    if negb hasRegex || String.eqb (TrimSpace emoteCode) "" then
      let (tooltipHTML, hasTooltip) := Attr selection "data-tooltip" in
      if hasTooltip && negb (String.eqb (TrimSpace tooltipHTML) "") then
        TrimSpace (htmlTagPattern_ReplaceAll tooltipHTML)
      else emoteCode
    else emoteCode in
  if String.eqb emoteCode "" then
    let parentText := TrimSpace (parentText selection) in
    if negb (String.eqb parentText "") then parentText else emoteIdentifier
  else emoteCode.

(** What one image element yields before the map is consulted: its
    identifier and its record, or [None] where the function returns early. *)
Definition emoteOf `{Library} (selection : Selection) : option (string * EmoteData) :=
  let (imageSource, hasSrc) := Attr selection "src" in
  if negb hasSrc || String.eqb imageSource "" then None
  else if negb (Contains imageSource "static-cdn.jtvnw.net/emoticons/v2/") then None
  else
    match fullSource imageSource with
    | None => None
    | Some fullImageSource =>
        match emotePath fullImageSource with
        | None => None
        | Some (emoteIdentifier, formatType, baseURL) =>
            let emoteCode := emoteCodeOf selection emoteIdentifier in
            Some (emoteIdentifier, mkEmoteData baseURL formatType emoteCode)
        end
    end.

Definition visitImage `{Library} (emoteMap : gmap string EmoteData)
    (selection : Selection) : gmap string EmoteData :=
  match emoteOf selection with
  | None => emoteMap
  | Some (emoteIdentifier, emoteData) =>
      match emoteMap !! emoteIdentifier with
      | Some _ => emoteMap
      | None => <[emoteIdentifier := emoteData]> emoteMap
      end
  end.

Definition collectEmoteMetadata `{Library} (document : Document)
  : gmap string EmoteData :=
  foldl visitImage ∅ (images document).

Definition determineFileExtension `{Library} (contentType : string) : string :=
  let contentType := ToLower mapToLower contentType in
  if Contains contentType "gif" then "gif"
  else if Contains contentType "jpeg" || Contains contentType "jpg" then "jpg"
  else if Contains contentType "png" then "png"
  else "img".

Definition emoteSizeList : list string := ["1.0"; "2.0"; "3.0"].

Definition logBufferMaxMessages : nat := 200.

Section Fetch.
Context `{Library} {World : Type} `{System World}.

Definition fetchDocument (httpClient : Client World) (pageURL : string)
  : M World (Result (Document * Response)) :=
  match http_NewRequest "GET" pageURL None with
  | Err err => mret (Err err)
  | Ok request =>
      let request := Header_Set "User-Agent" defaultUserAgent request in
      answer ← Do httpClient request;
      match answer with
      | Err err => mret (Err err)
      | Ok response =>
          parsed ← NewDocumentFromReader (Body response);
          match parsed with
          | Err err => CloseBody (Body response);; mret (Err err)
          | Ok document => mret (Ok (document, response))
          end
      end
  end.

End Fetch.

Definition getChannelDisplayName (document : Document) : string :=
  match cardHeader document with
  | None => ""
  | Some headerSelection =>
      let fromHeading :=
        match headingText headerSelection with
        | Some t =>
            let text := TrimSpace t in
            if negb (String.eqb text "") then text else ""
        | None => ""
        end in
      match anchorText headerSelection with
      | Some t =>
          let text := TrimSpace t in
          if negb (String.eqb text "") then text else fromHeading
      | None => fromHeading
      end
  end.

(** *** The two download functions, which log through [logFunc] *)

Section Download.
Context `{Library} `{Fmt} {World : Type} `{System World} {Captured : Type}.

(** One turn of the loop over [emoteSizeList] in [downloadEmoteImages]; each
    [continue] ends the turn. *)
Definition downloadSize (httpClient : Client World)
    (emoteBaseURL safeEmoteCode emoteFolder : string)
    (logFunc : string -> L World Captured unit) (sizeValue : string)
  : L World Captured unit :=
  let imageURL := emoteBaseURL +:+ "/light/" +:+ sizeValue in
  match http_NewRequest "GET" imageURL None with
  | Err err => logFunc (Sprintf "[skip] %s (%v)" [opString imageURL; opError err])
  | Ok request =>
      let request := Header_Set "User-Agent" defaultUserAgent request in
      answer ← lift (Do httpClient request);
      match answer with
      | Err err => logFunc (Sprintf "[skip] %s (%v)" [opString imageURL; opError err])
      | Ok response =>
          if negb (StatusCode response =? StatusOK)%nat then
            logFunc (Sprintf "[skip] %s (status %s)"
                       [opString imageURL; opString (Status response)]);;
            lift (CloseBody (Body response))
          else
            let contentType := ContentType response in
            let fileExtension := determineFileExtension contentType in
            let outputFilename :=
              safeEmoteCode +:+ "_" +:+ sizeValue +:+ "." +:+ fileExtension in
            let outputPath := filepath_Join emoteFolder outputFilename in
            created ← lift (Create outputPath);
            match created with
            | Err err =>
                logFunc (Sprintf "[skip] %s (cannot create file: %v)"
                           [opString outputPath; opError err]);;
                lift (CloseBody (Body response))
            | Ok outputFile =>
                copyError ← lift (Copy outputFile (Body response));
                lift (CloseFile outputFile);;
                lift (CloseBody (Body response));;
                match copyError with
                | Some err =>
                    logFunc (Sprintf "[skip] %s (copy error: %v)"
                               [opString outputPath; opError err])
                | None => logFunc (Sprintf "[ok] %s" [opString outputFilename])
                end
            end
      end
  end.

Definition downloadEmoteImages (httpClient : Client World)
    (emoteIdentifier : string) (emoteData : EmoteData) (outputRoot : string)
    (logFunc : string -> L World Captured unit) : L World Captured unit :=
  let emoteCode := EmoteCode emoteData in
  let emoteBaseURL := BaseURL emoteData in
  let safeEmoteCode := makeSafeName emoteCode in
  let emoteFolder := filepath_Join outputRoot safeEmoteCode in
  failed ← lift (MkdirAll emoteFolder);
  match failed with
  | Some err =>
      logFunc (Sprintf "[error] cannot create folder %s: %v"
                 [opString emoteFolder; opError err])
  | None =>
      forEachL emoteSizeList
        (downloadSize httpClient emoteBaseURL safeEmoteCode emoteFolder logFunc)
  end.

Definition downloadChannelEmotes (httpClient : Client World) (channelID : string)
    (logFunc : string -> L World Captured unit) : L World Captured (option error) :=
  let channelURL := twitchemotesBaseURL +:+ "/channels/" +:+ channelID in
  fetched ← lift (fetchDocument httpClient channelURL);
  match fetched with
  | Err err => mret (Some err)
  | Ok (document, response) =>
      result ←
        (if negb (StatusCode response =? StatusOK)%nat then
           mret (Some (fmt_Errorf "request failed with status %s"
                         [opString (Status response)]))
         else
           let channelDisplayName := getChannelDisplayName document in
           let safeChannelName := makeSafeName channelDisplayName in
           let safeChannelName :=
             if String.eqb safeChannelName "unknown" then makeSafeName channelID
             else safeChannelName in
           let outputRoot := safeChannelName in
           failed ← lift (MkdirAll outputRoot);
           match failed with
           | Some err =>
               mret (Some (fmt_Errorf "cannot create output directory %s: %w"
                             [opString outputRoot; opError err]))
           | None =>
               logFunc (Sprintf "Channel ID: %s" [opString channelID]);;
               (if negb (String.eqb channelDisplayName "") then
                  logFunc (Sprintf "Channel Name: %s" [opString channelDisplayName])
                else mret tt);;
               logFunc (Sprintf "Output Folder: %s" [opString outputRoot]);;
               logFunc "Collecting emote metadata...";;
               let emoteMap := collectEmoteMetadata document in
               logFunc (Sprintf "Found %d emotes" [opInt (size emoteMap)]);;
               if (size emoteMap =? 0)%nat then mret None
               else
                 entries ← lift (rangeMap emoteMap);
                 forEachL entries
                   (fun entry : string * EmoteData =>
                      let (emoteIdentifier, emoteData) := entry in
                      logFunc (Sprintf "Downloading sizes for emote: %s (%s)"
                                 [opString (EmoteCode emoteData);
                                  opString emoteIdentifier]);;
                      downloadEmoteImages httpClient emoteIdentifier emoteData
                        outputRoot logFunc);;
                 mret None
           end);
      (* the deferred response.Body.Close() *)
      lift (CloseBody (Body response));;
      mret result
  end.

End Download.

(** *** The model of the terminal UI *)

Record downloadResultMessage : Type := mkDownloadResultMessage {
  Error : option error;
  LogLines : list string
}.

Section Model.
Context `{Library} `{Fmt} `{Terminal} {World : Type} `{System World}.

Record model : Type := mkModel {
  textInput : textinput_Model;
  logLines : list string;
  downloading : bool;
  downloadError : option error;
  httpClient : Client World;
  showHelp : bool;
  styleTitle : lipgloss_Style;
  styleLogPlain : lipgloss_Style;
  styleLogOK : lipgloss_Style;
  styleLogSkip : lipgloss_Style;
  styleLogError : lipgloss_Style;
  styleHelpBoxTitle : lipgloss_Style;
  styleHelpBoxBody : lipgloss_Style;
  styleFooter : lipgloss_Style
}.

(** Assignments to a field of the model. *)
Definition withTextInput (input : textinput_Model) (m : model) : model :=
  mkModel input (logLines m) (downloading m) (downloadError m) (httpClient m)
    (showHelp m) (styleTitle m) (styleLogPlain m) (styleLogOK m) (styleLogSkip m)
    (styleLogError m) (styleHelpBoxTitle m) (styleHelpBoxBody m) (styleFooter m).

Definition withLogLines (lines : list string) (m : model) : model :=
  mkModel (textInput m) lines (downloading m) (downloadError m) (httpClient m)
    (showHelp m) (styleTitle m) (styleLogPlain m) (styleLogOK m) (styleLogSkip m)
    (styleLogError m) (styleHelpBoxTitle m) (styleHelpBoxBody m) (styleFooter m).

Definition withDownloading (flag : bool) (m : model) : model :=
  mkModel (textInput m) (logLines m) flag (downloadError m) (httpClient m)
    (showHelp m) (styleTitle m) (styleLogPlain m) (styleLogOK m) (styleLogSkip m)
    (styleLogError m) (styleHelpBoxTitle m) (styleHelpBoxBody m) (styleFooter m).

Definition withDownloadError (err : option error) (m : model) : model :=
  mkModel (textInput m) (logLines m) (downloading m) err (httpClient m)
    (showHelp m) (styleTitle m) (styleLogPlain m) (styleLogOK m) (styleLogSkip m)
    (styleLogError m) (styleHelpBoxTitle m) (styleHelpBoxBody m) (styleFooter m).

Definition withShowHelp (flag : bool) (m : model) : model :=
  mkModel (textInput m) (logLines m) (downloading m) (downloadError m) (httpClient m)
    flag (styleTitle m) (styleLogPlain m) (styleLogOK m) (styleLogSkip m)
    (styleLogError m) (styleHelpBoxTitle m) (styleHelpBoxBody m) (styleFooter m).

(** A message to [Update]: a key, the result of a download, or any other
    message. *)
Inductive Msg : Type :=
| keyMsg (msg : KeyMsg)
| resultMsg (msg : downloadResultMessage)
| otherMsg (msg : otherMessage).

(** A command that [Update] returns: nil, [tea.Quit], what the text input
    handed back, or the function that runs a download. *)
Inductive Cmd : Type :=
| cmdNil
| tea_Quit
| cmdInput (cmd : textinput_Cmd)
| cmdFunc (run : M World downloadResultMessage).

Definition hasExactLogLine (m : model) (line : string) : bool :=
  (fix loop (lines : list string) : bool :=
     match lines with
     | [] => false
     | existing :: rest => if String.eqb existing line then true else loop rest
     end) (logLines m).

(** [appendLogLine], which changes the model it is called on: the model
    after the call. *)
Definition appendLogLine (m : model) (line : string) : model :=
  if String.eqb line "" then m
  else
    let m := withLogLines (logLines m ++ [line])%list m in
    if (logBufferMaxMessages <? length (logLines m))%nat then
      withLogLines (drop (length (logLines m) - logBufferMaxMessages) (logLines m)) m
    else m.

(** The function that [Update] returns when a download starts: it collects
    the lines in [collectedLogs], which [logFunc] captures. *)
Definition downloadCommand (httpClient : Client World) (channelIdentifier : string)
  : M World downloadResultMessage :=
  let collectedLogs : list string := [] in
  let logFunc : string -> L World (list string) unit :=
    fun line collectedLogs => mret (tt, (collectedLogs ++ [line])%list) in
  let body : L World (list string) (option error) :=
    resolved ← lift (resolveChannelIdentifierToID httpClient channelIdentifier);
    match resolved with
    | Err err =>
        logFunc (Sprintf "Error resolving channel: %v" [opError err]);;
        mret (Some err)
    | Ok channelID => downloadChannelEmotes httpClient channelID logFunc
    end in
  fun s =>
    let (result, s') := body collectedLogs s in
    let (err, collectedLogs) := result in
    (mkDownloadResultMessage err collectedLogs, s').

Definition Update (m : model) (message : Msg) : model * Cmd :=
  match message with
  | keyMsg msg =>
      match KeyMsg_Type msg with
      | KeyCtrlC | KeyEsc => (m, tea_Quit)
      | _ =>
          if String.eqb (KeyMsg_String msg) "q" then (m, tea_Quit)
          else if String.eqb (KeyMsg_String msg) "?" then
            (withShowHelp (negb (showHelp m)) m, cmdNil)
          else
            match KeyMsg_Type msg with
            | KeyEnter =>
                if downloading m then (m, cmdNil)
                else
                  let channelIdentifier := TrimSpace (textinput_Value (textInput m)) in
                  if String.eqb channelIdentifier "" then
                    let warningText := "Please enter a Twitch channel name or ID." in
                    let m :=
                      if negb (hasExactLogLine m warningText) then
                        appendLogLine m warningText
                      else m in
                    (m, cmdNil)
                  else
                    let m := withDownloading true m in
                    let m := withDownloadError None m in
                    let m :=
                      appendLogLine m
                        (Sprintf "Resolving channel %q..."
                           [opString channelIdentifier]) in
                    (m, cmdFunc (downloadCommand (httpClient m) channelIdentifier))
            | _ =>
                if negb (downloading m) then
                  let (input, cmd) := textinput_Update (textInput m) (inl msg) in
                  (withTextInput input m, cmdInput cmd)
                else (m, cmdNil)
            end
      end
  | resultMsg msg =>
      let m := foldl appendLogLine m (LogLines msg) in
      let m :=
        match Error msg with
        | Some err =>
            let m := appendLogLine m (Sprintf "Error: %v" [opError err]) in
            withDownloadError (Some err) m
        | None => appendLogLine m "Download completed."
        end in
      let m := withDownloading false m in
      let m :=
        withTextInput (textinput_Focus (textinput_SetValue "" (textInput m))) m in
      (m, cmdNil)
  | otherMsg msg =>
      if negb (downloading m) then
        let (input, cmd) := textinput_Update (textInput m) (inr msg) in
        (withTextInput input m, cmdInput cmd)
      else (m, cmdNil)
  end.

End Model.

(** *** The text mode *)

Section TextMode.
Context `{Library} `{Fmt} {World : Type} `{System World}.

(** [runTextMode]: its [logFunc] prints each line. *)
Definition runTextMode (httpClient : Client World) (channelIdentifier : string)
    (p : Process World) : nat * Process World :=
  let (resolved, st) :=
    resolveChannelIdentifierToID httpClient channelIdentifier (state p) in
  match resolved with
  | Err err => (1, Fprintf_Stderr "Error resolving channel: %v\n" [opError err] st p)
  | Ok channelID =>
      let logFunc : string -> L World unit unit := fun line => lift (Println line) in
      let (result, st) := downloadChannelEmotes httpClient channelID logFunc tt st in
      match result.1 with
      | Some err =>
          (1, Fprintf_Stderr "Error downloading emotes: %v\n" [opError err] st p)
      | None => (0, mkProcess st (stderr p))
      end
  end.

End TextMode.

End TweDlpTui.

(** ** Vocabulary of the statements *)

(** Every byte of [s] satisfies [P]. *)
Fixpoint allBytes (P : ascii -> bool) (s : string) : bool :=
  match s with
  | EmptyString => true
  | String c r => P c && allBytes P r
  end.

(** A byte outside the class [A-Za-z0-9_]. *)
Definition disallowed (c : ascii) : bool := negb (Go.isNameByte c).

(** A byte that can be part of white space: an ASCII white space or a byte
    of a longer encoding. *)
Definition spaceByte (c : ascii) : bool := Go.isSpace1 c || negb (Go.isASCII c).

(** [i] is the place of the first part equal to [emoticons]. *)
Definition firstEmoticons (pathParts : list string) (i : nat) : Prop :=
  pathParts !! i = Some "emoticons"
  /\ forall j, j < i -> pathParts !! j <> Some "emoticons".

(** [pat] occurs in [s]. *)
Definition occursIn (pat s : string) : Prop :=
  exists before after, s = before +:+ pat +:+ after.

(** [pat] occurs in [s] when the case of the ASCII letters of [s] is ignored:
    a part of [s] is [pat] once its capitals are lowered. *)
Definition occursFolded (pat s : string) : Prop :=
  exists before part after,
    s = before +:+ part +:+ after /\ Go.mapBytes Go.lowerByte part = pat.

(** A library for closed examples: no case mapping outside ASCII, URLs kept
    as their text, a reference resolved to itself, nothing escaped, paths
    joined by a slash. *)
Definition plainLibrary : Go.Library := {|
  Go.mapToLower := fun s => s;
  Go.URL := string;
  Go.url_Parse := fun s => Go.Ok s;
  Go.ResolveReference := fun _ relative => relative;
  Go.URL_String := fun u => u;
  Go.QueryEscape := fun s => s;
  Go.filepath_Join := fun dir name => dir +:+ "/" +:+ name
|}.

(** The emote code as the specification words it: the value of
    [data-regex] if it is not blank; else the value of [data-tooltip] with
    its tags deleted, trimmed, if that is not blank; else the trimmed text of
    the parent if it is not blank; else the identifier. *)
Definition emoteCodeClaimed (selection : Go.Selection) (emoteIdentifier : string)
  : string :=
  let (regex, _) := Go.Attr selection "data-regex" in
  let (tooltipHTML, _) := Go.Attr selection "data-tooltip" in
  let tooltip := Go.TrimSpace (Go.htmlTagPattern_ReplaceAll tooltipHTML) in
  let parent := Go.TrimSpace (Go.parentText selection) in
  if negb (String.eqb (Go.TrimSpace regex) "") then regex
  else if negb (String.eqb tooltip "") then tooltip
  else if negb (String.eqb parent "") then parent
  else emoteIdentifier.

(** The record of the first image element of [l] that yields
    [emoteIdentifier]. *)
Fixpoint firstRecord `{Go.Library} (emoteIdentifier : string) (l : list Go.Selection)
  : option TweDlp.EmoteData :=
  match l with
  | [] => None
  | selection :: rest =>
      match TweDlp.emoteOf selection with
      | Some (i, emoteData) =>
          if String.eqb i emoteIdentifier then Some emoteData
          else firstRecord emoteIdentifier rest
      | None => firstRecord emoteIdentifier rest
      end
  end.

(** A document for closed examples: two image elements that share the
    identifier 999 and carry different codes, then one with identifier 25
    whose [data-regex] is a single space, inside a parent whose text is
    [Kappa]. *)
Definition sampleDocument : Go.Document :=
  Go.mkDocument None
    [ Go.mkSelection
        [("src", "https://static-cdn.jtvnw.net/emoticons/v2/999/default/1.0");
         ("data-regex", "PogChamp")] "";
      Go.mkSelection
        [("src", "https://static-cdn.jtvnw.net/emoticons/v2/999/default/1.0");
         ("data-regex", "Other")] "";
      Go.mkSelection
        [("src", "https://static-cdn.jtvnw.net/emoticons/v2/25/default/1.0");
         ("data-regex", " ")] "Kappa" ].

(** The channel path pattern matches somewhere in [s]: [/channels/] stands
    there with a digit after it. *)
Definition channelPathIn (s : string) : Prop :=
  exists c, Go.isDigit c = true /\ occursIn ("/channels/" +:+ String c "") s.

(** [d] is what the first match of the pattern in [s] captures: digits after
    [/channels/], as many as there are, at the leftmost place where the
    pattern matches. *)
Definition firstChannelMatch (s d : string) : Prop :=
  exists before after,
    s = before +:+ "/channels/" +:+ d +:+ after
    /\ d <> ""
    /\ allBytes Go.isDigit d = true
    /\ (forall c r, after = String c r -> Go.isDigit c = false)
    /\ (forall b c a, s = b +:+ "/channels/" +:+ String c a -> Go.isDigit c = true ->
        String.length before <= String.length b).

(** The request the resolver sends for a channel name. *)
Definition searchRequest `{Go.Library} (channelIdentifier : string) : Go.Request :=
  Go.mkRequest "POST" "https://twitchemotes.com/search/channel"
    [("User-Agent", "Mozilla/5.0 (X11; Linux x86_64) twe-dlp/1.0");
     ("Content-Type", "application/x-www-form-urlencoded")]
    (Some ("query=" +:+ Go.QueryEscape channelIdentifier +:+ "&source="
           +:+ Go.QueryEscape "twe-dlp")).

(** A world for closed examples, without a state of its own: the search
    answers with a page that links to channel 12345, the asset of size 2.0
    is missing, every other request is answered with a PNG image, and the
    file system accepts everything. *)
Definition sampleClient : Go.Client unit := fun request w =>
  if String.eqb (Go.RequestURL request) "https://twitchemotes.com/search/channel" then
    (Go.Ok (Go.mkResponse "https://twitchemotes.com/search" 200 "200 OK" "text/html" 0), w)
  else if Go.Contains (Go.RequestURL request) "/light/2.0" then
    (Go.Ok (Go.mkResponse (Go.RequestURL request) 404 "404 Not Found" "text/html" 1), w)
  else
    (Go.Ok (Go.mkResponse (Go.RequestURL request) 200 "200 OK" "image/png" 2), w).

Definition sampleSystem : Go.System unit := {|
  Go.io_ReadAll := fun body w =>
    (Go.Ok "<a href=https://twitchemotes.com/channels/12345>channel</a>", w);
  Go.goquery_NewDocumentFromReader := fun body w => (Go.Ok sampleDocument, w);
  Go.os_MkdirAll := fun path w => (None, w);
  Go.os_Create := fun path w => (Go.Ok 7, w);
  Go.io_Copy := fun file body w => (None, w);
  Go.rangeOrder := fun V w m => map_to_list m;
  Go.rangeOrder_perm := fun V w m => Permutation_refl (map_to_list m)
|}.

Definition startState : Go.State unit := Go.mkState tt [] [].

(** The request sent for an asset. *)
Definition assetRequest (imageURL : string) : Go.Request :=
  Go.mkRequest "GET" imageURL
    [("User-Agent", "Mozilla/5.0 (X11; Linux x86_64) twe-dlp/1.0")] None.

(** [line] reports the attempt at one size of an emote: the file written, or
    one of the five failures (the request not built or not answered, a
    status other than 200, the file not created, the copy broken off). *)
Definition sizeReport `{Go.Library}
    (emoteBaseURL safeEmoteCode emoteFolder sizeValue : string) (line : Go.Line) : Prop :=
  let imageURL := emoteBaseURL +:+ "/light/" +:+ sizeValue in
  let fileName := fun extension : string =>
    safeEmoteCode +:+ "_" +:+ sizeValue +:+ "." +:+ extension in
  (exists extension, line = Go.mkLine "[ok] %s\n" [Go.opString (fileName extension)])
  \/ (exists err,
        line = Go.mkLine "[skip] %s (%v)\n" [Go.opString imageURL; Go.opError err])
  \/ (exists status,
        line = Go.mkLine "[skip] %s (status %s)\n"
                 [Go.opString imageURL; Go.opString status])
  \/ (exists extension err,
        line = Go.mkLine "[skip] %s (cannot create file: %v)\n"
                 [Go.opString (Go.filepath_Join emoteFolder (fileName extension));
                  Go.opError err])
  \/ (exists extension err,
        line = Go.mkLine "[skip] %s (copy error: %v)\n"
                 [Go.opString (Go.filepath_Join emoteFolder (fileName extension));
                  Go.opError err]).

(** [lines] report one emote: its folder could not be made, or each of the
    three sizes is reported, in the order of the size list. *)
Definition emoteReport `{Go.Library} (outputRoot : string) (emoteData : TweDlp.EmoteData)
    (lines : list Go.Line) : Prop :=
  let safeEmoteCode := TweDlp.makeSafeName (TweDlp.EmoteCode emoteData) in
  let emoteFolder := Go.filepath_Join outputRoot safeEmoteCode in
  let report := sizeReport (TweDlp.BaseURL emoteData) safeEmoteCode emoteFolder in
  (exists err,
     lines = [Go.mkLine "[error] cannot create folder %s: %v\n"
                [Go.opString emoteFolder; Go.opError err]])
  \/ (exists l1 l2 l3,
        lines = [l1; l2; l3] /\ report "1.0" l1 /\ report "2.0" l2 /\ report "3.0" l3).

(** The line that announces an emote. *)
Definition announcement (entry : string * TweDlp.EmoteData) : Go.Line :=
  Go.mkLine "Downloading sizes for emote: %s (%s)\n"
    [Go.opString (TweDlp.EmoteCode entry.2); Go.opString entry.1].

(** [st'] continues [st]: the lines and the calls of [st], then [lines] and
    [newCalls]. *)
Definition continues {World : Type} (st st' : Go.State World)
    (lines : list Go.Line) (newCalls : list Go.Call) : Prop :=
  Go.stdout st' = (Go.stdout st ++ lines)%list
  /\ Go.calls st' = (Go.calls st ++ newCalls)%list.

(** The folder of a channel: the sanitized display name, or the sanitized
    channel ID when the display name gives the fallback name. *)
Definition channelFolder (document : Go.Document) (channelID : string) : string :=
  let safeChannelName := TweDlp.makeSafeName (TweDlp.getChannelDisplayName document) in
  if String.eqb safeChannelName "unknown" then TweDlp.makeSafeName channelID
  else safeChannelName.

(** The record of the command-line program read as the record of the
    terminal-UI program: the two declarations have the same three fields. *)
Definition sameRecord (emoteData : TweDlp.EmoteData) : TweDlpTui.EmoteData :=
  TweDlpTui.mkEmoteData (TweDlp.BaseURL emoteData) (TweDlp.FormatType emoteData)
    (TweDlp.EmoteCode emoteData).

(** The bytes of [s] that satisfy [P], in their order. *)
Fixpoint keepBytes (P : ascii -> bool) (s : string) : string :=
  match s with
  | EmptyString => EmptyString
  | String c r => if P c then String c (keepBytes P r) else keepBytes P r
  end.

(** An ASCII letter or digit. *)
Definition isAlnum (c : ascii) : bool :=
  Go.inRange "A" "Z" c || Go.inRange "a" "z" c || Go.inRange "0" "9" c.

(** A byte other than the slash. *)
Definition notSlash (c : ascii) : bool := negb (Ascii.eqb c "/").

(** The request sent for the page of a channel. *)
Definition pageRequest (channelID : string) : Go.Request :=
  Go.mkRequest "GET" ("https://twitchemotes.com" +:+ "/channels/" +:+ channelID)
    [("User-Agent", "Mozilla/5.0 (X11; Linux x86_64) twe-dlp/1.0")] None.

(** A call that a run makes before it holds the document of the page: the
    request for the page of the channel, the parsing of an answer, the
    closing of its body. *)
Definition fetchCall (channelID : string) (c : Go.Call) : Prop :=
  match c with
  | Go.callDo request => request = pageRequest channelID
  | Go.callNewDocument _ | Go.callCloseBody _ => True
  | _ => False
  end.

(** The name of the file of a size, for an extension. *)
Definition assetFileName (safeEmoteCode sizeValue extension : string) : string :=
  safeEmoteCode +:+ "_" +:+ sizeValue +:+ "." +:+ extension.

(** A call that the download of one emote may make: the making of its
    folder, a request for one of its three sizes, the creation of the file
    of a size inside the folder, with one of the four extensions, and the
    copying and closing of what was opened. *)
Definition emoteCall `{Go.Library} (emoteBaseURL safeEmoteCode emoteFolder : string)
    (c : Go.Call) : Prop :=
  match c with
  | Go.callMkdirAll path => path = emoteFolder
  | Go.callDo request =>
      exists sizeValue,
        sizeValue ∈ TweDlp.emoteSizeList
        /\ request = assetRequest (emoteBaseURL +:+ "/light/" +:+ sizeValue)
  | Go.callCreate path =>
      exists sizeValue extension,
        sizeValue ∈ TweDlp.emoteSizeList
        /\ extension ∈ ["gif"; "jpg"; "png"; "img"]
        /\ path = Go.filepath_Join emoteFolder
                    (assetFileName safeEmoteCode sizeValue extension)
  | Go.callCopy _ _ | Go.callCloseFile _ | Go.callCloseBody _ => True
  | _ => False
  end.

(** A call that comes before any download: the search for a channel or the
    request for a page, the reading, parsing and closing of an answer, the
    making of a folder; never the creation of a file or a copy into one. *)
Definition preparation `{Go.Library} (c : Go.Call) : Prop :=
  match c with
  | Go.callDo request =>
      (exists channelIdentifier, request = searchRequest channelIdentifier)
      \/ (exists channelID, request = pageRequest channelID)
  | Go.callCreate _ | Go.callCopy _ _ | Go.callCloseFile _ => False
  | _ => True
  end.

(** The prompt, as [readStdinLine] prints it. *)
Definition promptLine : Go.Line :=
  Go.mkLine "%s" [Go.opString "Enter Twitch channel name or numeric ID: "].

(** A standard input for closed examples: one line with a channel name. *)
Definition sampleConsole : Go.Console unit := {|
  Go.bufio_ReadString := fun w => (Go.Ok (String.append "shroud" (String "010" "")), w)
|}.

(** The last [n] lines of a log. *)
Definition lastLines (n : nat) (lines : list string) : list string :=
  drop (length lines - n) lines.

Definition nonEmpty (line : string) : bool := negb (String.eqb line "").

(** The line that ends the report of a download in the log. *)
Definition closingLine `{Go.Fmt} (result : TweDlpTui.downloadResultMessage) : string :=
  match TweDlpTui.Error result with
  | Some err => Go.Sprintf "Error: %v" [Go.opError err]
  | None => "Download completed."
  end.

(** A key that quits: Ctrl+C, Esc, or a key whose text is [q]. *)
Definition quitKey (msg : Go.KeyMsg) : Prop :=
  Go.KeyMsg_Type msg = Go.KeyCtrlC \/ Go.KeyMsg_Type msg = Go.KeyEsc
  \/ Go.KeyMsg_String msg = "q".

(** A key that toggles the help: its text is [?], and it is neither Ctrl+C
    nor Esc. *)
Definition helpKey (msg : Go.KeyMsg) : Prop :=
  Go.KeyMsg_Type msg <> Go.KeyCtrlC /\ Go.KeyMsg_Type msg <> Go.KeyEsc
  /\ Go.KeyMsg_String msg = "?".

(** A key that neither quits nor toggles the help. *)
Definition plainKey (msg : Go.KeyMsg) : Prop :=
  Go.KeyMsg_Type msg <> Go.KeyCtrlC /\ Go.KeyMsg_Type msg <> Go.KeyEsc
  /\ Go.KeyMsg_String msg <> "q" /\ Go.KeyMsg_String msg <> "?".

(** A format function and a terminal for closed examples: the text of a
    line is its format, the text input is its value, and a key replaces the
    value by the text of the key. *)
Definition sampleFmt : Go.Fmt := {| Go.Sprintf := fun format _ => format |}.

Definition sampleTerminal : Go.Terminal := {|
  Go.textinput_Model := string;
  Go.lipgloss_Style := unit;
  Go.otherMessage := unit;
  Go.textinput_Cmd := unit;
  Go.textinput_Value := fun input => input;
  Go.textinput_Update := fun input message =>
    match message with
    | inl key => (Go.KeyMsg_String key, tt)
    | inr _ => (input, tt)
    end;
  Go.textinput_SetValue := fun value _ => value;
  Go.textinput_Focus := fun input => input
|}.

(** A model for closed examples, with [input] typed in and [lines] logged. *)
Definition sampleModel (input : string) (lines : list string) (busy : bool)
  : @TweDlpTui.model sampleTerminal unit :=
  TweDlpTui.mkModel (H1 := sampleTerminal) input lines busy None sampleClient false
    tt tt tt tt tt tt tt tt.

(** The warning that [Update] logs when Enter finds the input blank. *)
Definition warningText : string := "Please enter a Twitch channel name or ID.".

(** A line that the command-line program prints and the text that the
    terminal-UI program logs in its place: the text is formatted with the
    format of the line less its line feed, from the same operands; or the
    line is the text itself and a line feed. *)
Definition logged `{Go.Fmt} (line : Go.Line) (text : string) : Prop :=
  (exists format,
     Go.format line = format +:+ "\n" /\ text = Go.Sprintf format (Go.operands line))
  \/ (Go.operands line = [] /\ Go.format line = text +:+ "\n").

(** The line that [fmt.Println] writes for a text. *)
Definition printed (text : string) : Go.Line := Go.mkLine "%s\n" [Go.opString text].

(** The function that collects the lines of a download for the terminal UI. *)
Definition collectLine {World : Type} (line : string) : Go.L World (list string) unit :=
  fun collectedLogs => mret (tt, (collectedLogs ++ [line])%list).

(** The function that prints the lines of a download in the text mode. *)
Definition printLine {World : Type} (line : string) : Go.L World unit unit :=
  Go.lift (Go.Println line).

(** A [range] visits the keys of a map in an order that does not depend on
    the type of the record that the map holds. *)
Definition rangeNatural (World : Type) `{Go.System World} : Prop :=
  forall (w : World) (m : gmap string TweDlp.EmoteData),
    Go.rangeOrder TweDlpTui.EmoteData w (sameRecord <$> m)
    = prod_map id sameRecord <$> Go.rangeOrder TweDlp.EmoteData w m.

(** *** A run that prints and a run that logs

    What a function [logFunc] has received is read off the variables it
    captured and the standard output, through [frame]; [push] is what
    receiving one text does to it. *)
Section Sink.
Context `{Go.Fmt} {World Captured F : Type}.
Variable frame : Captured -> list Go.Line -> F.
Variable push : string -> F -> F.

(** The printing run has printed [lines] since the output was [out0], and
    the logging run has received a text for each of them since its frame was
    [f0]. *)
Definition sunk (f0 : F) (out0 outA : list Go.Line) (captured : Captured)
    (outB : list Go.Line) : Prop :=
  exists lines texts,
    outA = (out0 ++ lines)%list
    /\ Forall2 logged lines texts
    /\ frame captured outB = foldl (fun f text => push text f) f0 texts.

(** From states that agree on the world and on the calls, the two runs give
    related results and end in states that agree again. *)
Definition simulates {A B : Type} (R : A -> B -> Prop) (f0 : F) (out0 : list Go.Line)
    (m : Go.M World A) (l : Go.L World Captured B) : Prop :=
  forall w cs outA captured outB,
    sunk f0 out0 outA captured outB ->
    exists a b w' cs' outA' captured' outB',
      m (Go.mkState w cs outA) = (a, Go.mkState w' cs' outA')
      /\ l captured (Go.mkState w cs outB) = ((b, captured'), Go.mkState w' cs' outB')
      /\ R a b
      /\ sunk f0 out0 outA' captured' outB'.

End Sink.

(** A white space rune stands at the head of [s], for the scan that
    [dropSpaces] makes. *)
Definition spaceAhead (sp2 : ascii -> ascii -> bool)
    (sp3 : ascii -> ascii -> ascii -> bool) (s : string) : bool :=
  match s with
  | String c0 s1 =>
      Go.isSpace1 c0
      || match s1 with
         | String c1 s2 =>
             sp2 c0 c1
             || match s2 with
                | String c2 _ => sp3 c0 c1 c2
                | EmptyString => false
                end
         | EmptyString => false
         end
  | EmptyString => false
  end.

(** A call that a run for a channel may make once it holds the document of
    the page: the making of the folder of the channel, the closing of the
    body of the page, or a call of the download of an emote that the mapping
    of the document holds, into its folder inside the folder of the channel. *)
Definition documentCall `{Go.Library} (channelID : string) (document : Go.Document)
    (response : Go.Response) (c : Go.Call) : Prop :=
  c = Go.callMkdirAll (channelFolder document channelID)
  \/ c = Go.callCloseBody (Go.Body response)
  \/ exists emoteIdentifier emoteData,
       TweDlp.collectEmoteMetadata document !! emoteIdentifier = Some emoteData
       /\ emoteCall (TweDlp.BaseURL emoteData)
            (TweDlp.makeSafeName (TweDlp.EmoteCode emoteData))
            (Go.filepath_Join (channelFolder document channelID)
               (TweDlp.makeSafeName (TweDlp.EmoteCode emoteData))) c.

(** Every call that [m] makes, from any state, satisfies [P]. *)
Definition traces {World A : Type} (P : Go.Call -> Prop) (m : Go.M World A) : Prop :=
  forall st,
    exists newCalls,
      Go.calls (m st).2 = (Go.calls st ++ newCalls)%list /\ Forall P newCalls.

(** *** The attempt at one size

    A notice about one size: the format of the line that reports it, less
    its line feed, and the operands.  The command-line program prints the
    notice as a line; the terminal-UI program formats it into a text and
    passes the text to [logFunc]. *)
Definition Notice : Type := (string * list Go.operand)%type.

Definition noticeLine (notice : Notice) : Go.Line :=
  Go.mkLine (notice.1 +:+ "\n") notice.2.

Definition noticeText `{Go.Fmt} (notice : Notice) : string :=
  Go.Sprintf notice.1 notice.2.

(** The attempt at the size [sizeValue] of an emote, from the world [w]: what
    happened, the notice that reports it, the calls made and the world left.
    There are five failures, each reported by a skip notice that names the
    URL or the file and the cause, and one success; what happened is read
    off the answers of the world, step by step, so that from a given world
    one case holds. *)
Inductive sizeAttempt `{Go.Library} {World : Type} `{Go.System World}
    (httpClient : Go.Client World)
    (emoteBaseURL safeEmoteCode emoteFolder sizeValue : string)
  : World -> Notice -> list Go.Call -> World -> Prop :=
| requestNotBuilt (w : World) (err : Go.error) :
    Go.http_NewRequest "GET" (emoteBaseURL +:+ "/light/" +:+ sizeValue) None = Go.Err err ->
    sizeAttempt httpClient emoteBaseURL safeEmoteCode emoteFolder sizeValue w
      ("[skip] %s (%v)",
       [Go.opString (emoteBaseURL +:+ "/light/" +:+ sizeValue); Go.opError err])
      [] w
| requestNotAnswered (w : World) (request : Go.Request) (err : Go.error) (w1 : World) :
    Go.http_NewRequest "GET" (emoteBaseURL +:+ "/light/" +:+ sizeValue) None
    = Go.Ok request ->
    httpClient (assetRequest (emoteBaseURL +:+ "/light/" +:+ sizeValue)) w
    = (Go.Err err, w1) ->
    sizeAttempt httpClient emoteBaseURL safeEmoteCode emoteFolder sizeValue w
      ("[skip] %s (%v)",
       [Go.opString (emoteBaseURL +:+ "/light/" +:+ sizeValue); Go.opError err])
      [Go.callDo (assetRequest (emoteBaseURL +:+ "/light/" +:+ sizeValue))] w1
| statusNotOK (w : World) (request : Go.Request) (response : Go.Response) (w1 : World) :
    Go.http_NewRequest "GET" (emoteBaseURL +:+ "/light/" +:+ sizeValue) None
    = Go.Ok request ->
    httpClient (assetRequest (emoteBaseURL +:+ "/light/" +:+ sizeValue)) w
    = (Go.Ok response, w1) ->
    Go.StatusCode response <> Go.StatusOK ->
    sizeAttempt httpClient emoteBaseURL safeEmoteCode emoteFolder sizeValue w
      ("[skip] %s (status %s)",
       [Go.opString (emoteBaseURL +:+ "/light/" +:+ sizeValue);
        Go.opString (Go.Status response)])
      [Go.callDo (assetRequest (emoteBaseURL +:+ "/light/" +:+ sizeValue));
       Go.callCloseBody (Go.Body response)] w1
| fileNotCreated (w : World) (request : Go.Request) (response : Go.Response)
    (w1 : World) (err : Go.error) (w2 : World) :
    let outputPath :=
      Go.filepath_Join emoteFolder
        (assetFileName safeEmoteCode sizeValue
           (TweDlp.determineFileExtension (Go.ContentType response))) in
    Go.http_NewRequest "GET" (emoteBaseURL +:+ "/light/" +:+ sizeValue) None
    = Go.Ok request ->
    httpClient (assetRequest (emoteBaseURL +:+ "/light/" +:+ sizeValue)) w
    = (Go.Ok response, w1) ->
    Go.StatusCode response = Go.StatusOK ->
    Go.os_Create outputPath w1 = (Go.Err err, w2) ->
    sizeAttempt httpClient emoteBaseURL safeEmoteCode emoteFolder sizeValue w
      ("[skip] %s (cannot create file: %v)", [Go.opString outputPath; Go.opError err])
      [Go.callDo (assetRequest (emoteBaseURL +:+ "/light/" +:+ sizeValue));
       Go.callCreate outputPath; Go.callCloseBody (Go.Body response)] w2
| copyBroken (w : World) (request : Go.Request) (response : Go.Response)
    (w1 : World) (outputFile : nat) (w2 : World) (err : Go.error) (w3 : World) :
    let outputPath :=
      Go.filepath_Join emoteFolder
        (assetFileName safeEmoteCode sizeValue
           (TweDlp.determineFileExtension (Go.ContentType response))) in
    Go.http_NewRequest "GET" (emoteBaseURL +:+ "/light/" +:+ sizeValue) None
    = Go.Ok request ->
    httpClient (assetRequest (emoteBaseURL +:+ "/light/" +:+ sizeValue)) w
    = (Go.Ok response, w1) ->
    Go.StatusCode response = Go.StatusOK ->
    Go.os_Create outputPath w1 = (Go.Ok outputFile, w2) ->
    Go.io_Copy outputFile (Go.Body response) w2 = (Some err, w3) ->
    sizeAttempt httpClient emoteBaseURL safeEmoteCode emoteFolder sizeValue w
      ("[skip] %s (copy error: %v)", [Go.opString outputPath; Go.opError err])
      [Go.callDo (assetRequest (emoteBaseURL +:+ "/light/" +:+ sizeValue));
       Go.callCreate outputPath; Go.callCopy outputFile (Go.Body response);
       Go.callCloseFile outputFile; Go.callCloseBody (Go.Body response)] w3
| fileWritten (w : World) (request : Go.Request) (response : Go.Response)
    (w1 : World) (outputFile : nat) (w2 w3 : World) :
    let outputFilename :=
      assetFileName safeEmoteCode sizeValue
        (TweDlp.determineFileExtension (Go.ContentType response)) in
    let outputPath := Go.filepath_Join emoteFolder outputFilename in
    Go.http_NewRequest "GET" (emoteBaseURL +:+ "/light/" +:+ sizeValue) None
    = Go.Ok request ->
    httpClient (assetRequest (emoteBaseURL +:+ "/light/" +:+ sizeValue)) w
    = (Go.Ok response, w1) ->
    Go.StatusCode response = Go.StatusOK ->
    Go.os_Create outputPath w1 = (Go.Ok outputFile, w2) ->
    Go.io_Copy outputFile (Go.Body response) w2 = (None, w3) ->
    sizeAttempt httpClient emoteBaseURL safeEmoteCode emoteFolder sizeValue w
      ("[ok] %s", [Go.opString outputFilename])
      [Go.callDo (assetRequest (emoteBaseURL +:+ "/light/" +:+ sizeValue));
       Go.callCreate outputPath; Go.callCopy outputFile (Go.Body response);
       Go.callCloseFile outputFile; Go.callCloseBody (Go.Body response)] w3.

(** *** An emote that a run has downloaded

    A state of the command-line run and its continuation are compared
    through [continues]; for the terminal-UI run that collects its lines,
    the collected lines take the place of the standard output. *)

(** Every run of [m] continues the state it starts from. *)
Definition appends {World A : Type} (m : Go.M World A) : Prop :=
  forall st, exists lines newCalls, continues st (m st).2 lines newCalls.

(** Between [st] and [st'] the command-line program has announced the emote
    and downloaded its images: the run reached a state whose last line
    announces the emote, [downloadEmoteImages] ran from that state, and [st']
    continues the state that it left. *)
Definition emoteDownloaded `{Go.Library} {World : Type} `{Go.System World}
    (httpClient : Go.Client World) (outputRoot : string)
    (entry : string * TweDlp.EmoteData) (st st' : Go.State World) : Prop :=
  exists (s : Go.State World) before callsBefore after callsAfter,
    continues st s (before ++ [announcement entry])%list callsBefore
    /\ continues (TweDlp.downloadEmoteImages httpClient entry.1 entry.2 outputRoot s).2
         st' after callsAfter.

(** The text that announces an emote in the terminal-UI program. *)
Definition announcementText `{Go.Fmt} (entry : string * TweDlpTui.EmoteData) : string :=
  Go.Sprintf "Downloading sizes for emote: %s (%s)"
    [Go.opString (TweDlpTui.EmoteCode entry.2); Go.opString entry.1].

(** [finish] continues [start]: the collected lines and the calls of
    [start], then [texts] and [newCalls]. *)
Definition continuesL {World : Type} (start finish : list string * Go.State World)
    (texts : list string) (newCalls : list Go.Call) : Prop :=
  finish.1 = (start.1 ++ texts)%list
  /\ Go.calls finish.2 = (Go.calls start.2 ++ newCalls)%list.

Definition appendsL {World A : Type} (m : Go.L World (list string) A) : Prop :=
  forall collected st,
    exists texts newCalls,
      continuesL (collected, st) ((m collected st).1.2, (m collected st).2)
        texts newCalls.

(** The same for the terminal-UI program, with the function that collects
    the lines. *)
Definition emoteCollected `{Go.Library} `{Go.Fmt} {World : Type} `{Go.System World}
    (httpClient : Go.Client World) (outputRoot : string)
    (entry : string * TweDlpTui.EmoteData)
    (start finish : list string * Go.State World) : Prop :=
  exists (s : list string * Go.State World) before callsBefore after callsAfter,
    continuesL start s (before ++ [announcementText entry])%list callsBefore
    /\ let run :=
         TweDlpTui.downloadEmoteImages httpClient entry.1 entry.2 outputRoot
           collectLine s.1 s.2 in
       continuesL (run.1.2, run.2) finish after callsAfter.

(** * Facts about the library model *)

Section StringFacts.
Import Go.

Lemma append_cons (a : ascii) (s t : string) :
  String a s +:+ t = String a (s +:+ t).
Proof. reflexivity. Qed.

Lemma append_empty_r (s : string) : s +:+ "" = s.
Proof. induction s as [|a s IH]; [reflexivity|]. rewrite append_cons, IH. reflexivity. Qed.

Lemma append_assoc (s t u : string) : (s +:+ t) +:+ u = s +:+ (t +:+ u).
Proof.
  induction s as [|a s IH]; [reflexivity|].
  rewrite !append_cons, IH. reflexivity.
Qed.

Lemma rev_app_rev_app (s t u : string) :
  String.rev_app (String.rev_app s t) u = String.rev_app t (s +:+ u).
Proof.
  revert t u. induction s as [|a s IH]; intros t u; [reflexivity|].
  cbn [String.rev_app]. rewrite IH. reflexivity.
Qed.

Lemma rev_involutive (s : string) : String.rev (String.rev s) = s.
Proof.
  unfold String.rev. rewrite rev_app_rev_app. cbn [String.rev_app].
  apply append_empty_r.
Qed.

Lemma allBytes_app (P : ascii -> bool) (s t : string) :
  allBytes P (s +:+ t) = allBytes P s && allBytes P t.
Proof.
  induction s as [|a s IH]; [reflexivity|].
  rewrite append_cons. cbn [allBytes]. rewrite IH. apply andb_assoc.
Qed.

Lemma allBytes_rev_app (P : ascii -> bool) (s t : string) :
  allBytes P (String.rev_app s t) = allBytes P s && allBytes P t.
Proof.
  revert t. induction s as [|a s IH]; intros t; [reflexivity|].
  cbn [String.rev_app allBytes]. rewrite IH. cbn [allBytes].
  destruct (P a), (allBytes P s), (allBytes P t); reflexivity.
Qed.

Lemma allBytes_rev (P : ascii -> bool) (s : string) :
  allBytes P (String.rev s) = allBytes P s.
Proof. unfold String.rev. rewrite allBytes_rev_app. cbn. apply andb_true_r. Qed.

(** The white space runes of more than one byte have no ASCII byte. *)
Lemma isSpace2_not_ascii (c0 c1 : ascii) :
  isSpace2 c0 c1 = true -> isASCII c0 = false /\ isASCII c1 = false.
Proof.
  unfold isSpace2, byteIs, isASCII.
  rewrite andb_true_iff, orb_true_iff, !N.eqb_eq, !N.ltb_ge. lia.
Qed.

Lemma isSpace3_not_ascii (c0 c1 c2 : ascii) :
  isSpace3 c0 c1 c2 = true ->
  isASCII c0 = false /\ isASCII c1 = false /\ isASCII c2 = false.
Proof.
  unfold isSpace3, byteIs, isASCII, inRange.
  change (N_of_ascii "128") with 128%N. change (N_of_ascii "138") with 138%N.
  rewrite !orb_true_iff, !andb_true_iff, !orb_true_iff, !N.eqb_eq, !N.ltb_ge,
    !andb_true_iff, !N.leb_le.
  lia.
Qed.

Lemma name_byte_ascii (c : ascii) : isNameByte c = true -> isASCII c = true.
Proof.
  destruct c as [[] [] [] [] [] [] [] []]; intros Hc;
    vm_compute in Hc; try discriminate Hc; reflexivity.
Qed.

Lemma name_byte_not_space (c : ascii) : isNameByte c = true -> isSpace1 c = false.
Proof.
  destruct c as [[] [] [] [] [] [] [] []]; intros Hc;
    vm_compute in Hc; try discriminate Hc; reflexivity.
Qed.

(** A string that starts with an ASCII byte that is no white space loses
    nothing at its head, whichever way the encodings are read. *)
Lemma dropSpaces_head (c : ascii) (r : string) :
  isASCII c = true -> isSpace1 c = false ->
  dropSpaces isSpace2 isSpace3 (String c r) = String c r
  /\ dropSpaces (fun c1 c0 => isSpace2 c0 c1) (fun c2 c1 c0 => isSpace3 c0 c1 c2)
       (String c r) = String c r.
Proof.
  intros Ha Hs. split; cbn [dropSpaces]; rewrite Hs.
  - destruct r as [|c1 [|c2 r]]; [reflexivity| |].
    + destruct (isSpace2 c c1) eqn:E; [|reflexivity].
      apply isSpace2_not_ascii in E. destruct E; congruence.
    + destruct (isSpace2 c c1) eqn:E.
      { apply isSpace2_not_ascii in E. destruct E; congruence. }
      destruct (isSpace3 c c1 c2) eqn:E3; [|reflexivity].
      apply isSpace3_not_ascii in E3. destruct E3; congruence.
  - destruct r as [|c1 [|c2 r]]; [reflexivity| |].
    + destruct (isSpace2 c1 c) eqn:E; [|reflexivity].
      apply isSpace2_not_ascii in E. destruct E; congruence.
    + destruct (isSpace2 c1 c) eqn:E.
      { apply isSpace2_not_ascii in E. destruct E; congruence. }
      destruct (isSpace3 c2 c1 c) eqn:E3; [|reflexivity].
      apply isSpace3_not_ascii in E3. destruct E3 as (? & ? & ?); congruence.
Qed.

(** Trimming only removes bytes. *)
Lemma dropSpaces_suffix sp2 sp3 (s : string) :
  exists dropped, s = dropped +:+ dropSpaces sp2 sp3 s.
Proof.
  remember (String.length s) as n eqn:Hn.
  revert s Hn. induction (lt_wf n) as [n _ IH]. intros s ->.
  destruct s as [|c0 s1]; [exists ""; reflexivity|].
  cbn [dropSpaces]. destruct (isSpace1 c0).
  { destruct (IH (String.length s1)) with (s := s1) as [d Hd]; [cbn; lia|reflexivity|].
    exists (String c0 d). rewrite append_cons, <- Hd. reflexivity. }
  destruct s1 as [|c1 s2]; [exists ""; reflexivity|].
  destruct (sp2 c0 c1).
  { destruct (IH (String.length s2)) with (s := s2) as [d Hd]; [cbn; lia|reflexivity|].
    exists (String c0 (String c1 d)). rewrite !append_cons, <- Hd. reflexivity. }
  destruct s2 as [|c2 s3]; [exists ""; reflexivity|].
  destruct (sp3 c0 c1 c2); [|exists ""; reflexivity].
  destruct (IH (String.length s3)) with (s := s3) as [d Hd]; [cbn; lia|reflexivity|].
  exists (String c0 (String c1 (String c2 d))). rewrite !append_cons, <- Hd. reflexivity.
Qed.

Lemma allBytes_dropSpaces P sp2 sp3 (s : string) :
  allBytes P s = true -> allBytes P (dropSpaces sp2 sp3 s) = true.
Proof.
  intros Hs. destruct (dropSpaces_suffix sp2 sp3 s) as [d Hd].
  rewrite Hd, allBytes_app in Hs. apply andb_true_iff in Hs. apply Hs.
Qed.

Lemma allBytes_TrimSpace P (s : string) :
  allBytes P s = true -> allBytes P (TrimSpace s) = true.
Proof.
  intros Hs. unfold TrimSpace, TrimRightSpace, TrimLeftSpace.
  rewrite allBytes_rev. apply allBytes_dropSpaces.
  rewrite allBytes_rev. apply allBytes_dropSpaces, Hs.
Qed.

(** A name made of bytes of the class has no white space to trim. *)
Lemma TrimSpace_name (s : string) :
  allBytes isNameByte s = true -> TrimSpace s = s.
Proof.
  intros Hs. destruct s as [|c r]; [reflexivity|].
  unfold TrimSpace, TrimLeftSpace.
  assert (Hc : isNameByte c = true) by (cbn in Hs; apply andb_true_iff in Hs; apply Hs).
  destruct (dropSpaces_head c r (name_byte_ascii c Hc) (name_byte_not_space c Hc))
    as [-> _].
  unfold TrimRightSpace.
  destruct (String.rev (String c r)) as [|c' r'] eqn:Hrev.
  { apply (f_equal String.rev) in Hrev. rewrite rev_involutive in Hrev. discriminate. }
  assert (Hc' : isNameByte c' = true).
  { rewrite <- allBytes_rev, Hrev in Hs. cbn in Hs. apply andb_true_iff in Hs. apply Hs. }
  destruct (dropSpaces_head c' r' (name_byte_ascii c' Hc') (name_byte_not_space c' Hc'))
    as [_ ->].
  rewrite <- Hrev. apply rev_involutive.
Qed.

(** The replacement leaves only bytes of the class. *)
Lemma replaceRuns_name (inRun : bool) (s : string) :
  allBytes isNameByte (replaceRuns inRun s) = true.
Proof.
  revert inRun. induction s as [|c r IH]; intros inRun; [reflexivity|].
  cbn [replaceRuns]. destruct (isNameByte c) eqn:Hc.
  - cbn [allBytes]. rewrite Hc, IH. reflexivity.
  - destruct inRun; [apply IH|]. cbn [allBytes]. rewrite IH. reflexivity.
Qed.

(** It changes nothing in a string of bytes of the class. *)
Lemma replaceRuns_id (inRun : bool) (s : string) :
  allBytes isNameByte s = true -> replaceRuns inRun s = s.
Proof.
  revert inRun. induction s as [|c r IH]; intros inRun Hs; [reflexivity|].
  cbn in Hs. apply andb_true_iff in Hs. destruct Hs as [Hc Hr].
  cbn [replaceRuns]. rewrite Hc, (IH false Hr). reflexivity.
Qed.

(** A run of bytes outside the class is one match: inside a run nothing is
    written, and a string that is such a run becomes one underscore. *)
Lemma replaceRuns_run (s : string) :
  allBytes disallowed s = true -> replaceRuns true s = "".
Proof.
  induction s as [|c r IH]; intros Hs; [reflexivity|].
  cbn in Hs. apply andb_true_iff in Hs. destruct Hs as [Hc Hr].
  unfold disallowed in Hc. apply negb_true_iff in Hc.
  cbn [replaceRuns]. rewrite Hc. apply IH, Hr.
Qed.

Lemma replaceAll_run (s : string) :
  s <> "" -> allBytes disallowed s = true -> safeNamePattern_ReplaceAll s = "_".
Proof.
  intros Hne Hs. destruct s as [|c r]; [congruence|].
  cbn in Hs. apply andb_true_iff in Hs. destruct Hs as [Hc Hr].
  unfold disallowed in Hc. apply negb_true_iff in Hc.
  unfold safeNamePattern_ReplaceAll. cbn [replaceRuns]. rewrite Hc.
  rewrite (replaceRuns_run r Hr). reflexivity.
Qed.

(** The replacement of a string that is not empty is not empty. *)
Lemma replaceAll_not_empty (s : string) :
  s <> "" -> safeNamePattern_ReplaceAll s <> "".
Proof.
  intros Hne. destruct s as [|c r]; [congruence|].
  unfold safeNamePattern_ReplaceAll. cbn [replaceRuns].
  destruct (isNameByte c); discriminate.
Qed.

Lemma prefix_occurs (pat s : string) :
  String.prefix pat s = true <-> exists after, s = pat +:+ after.
Proof.
  revert s. induction pat as [|a pat IH]; intros s.
  - split; [intros _; exists s; reflexivity|]. intros _. destruct s; reflexivity.
  - destruct s as [|b s]; cbn [String.prefix].
    + split; [discriminate|]. intros [after Ha]. discriminate.
    + destruct (ascii_dec a b) as [->|Hab].
      * rewrite IH. split; intros [after Ha]; exists after.
        -- rewrite append_cons, <- Ha. reflexivity.
        -- rewrite append_cons in Ha. congruence.
      * split; [discriminate|]. intros [after Ha].
        rewrite append_cons in Ha. congruence.
Qed.

(** [strings.Contains] finds exactly the occurrences. *)
Lemma Contains_occursIn (s pat : string) :
  Contains s pat = true <-> occursIn pat s.
Proof.
  induction s as [|c r IH].
  - cbn [Contains]. rewrite orb_false_r. unfold HasPrefix. rewrite prefix_occurs.
    split.
    + intros [after Ha]. exists "", after. exact Ha.
    + intros (before & after & Ha). destruct before; [exists after; exact Ha|].
      discriminate.
  - cbn [Contains]. rewrite orb_true_iff, IH. unfold HasPrefix. rewrite prefix_occurs.
    split.
    + intros [[after Ha] | (before & after & Ha)].
      * exists "", after. exact Ha.
      * exists (String c before), after. rewrite append_cons, <- Ha. reflexivity.
    + intros (before & after & Ha). destruct before as [|b before].
      * left. exists after. exact Ha.
      * right. rewrite append_cons in Ha. exists before, after. congruence.
Qed.

Lemma mapBytes_app (f : ascii -> ascii) (s t : string) :
  mapBytes f (s +:+ t) = mapBytes f s +:+ mapBytes f t.
Proof.
  induction s as [|a s IH]; [reflexivity|].
  rewrite append_cons. cbn [mapBytes]. rewrite IH. reflexivity.
Qed.

Lemma mapBytes_split (f : ascii -> ascii) (s x y : string) :
  mapBytes f s = x +:+ y ->
  exists s1 s2, s = s1 +:+ s2 /\ mapBytes f s1 = x /\ mapBytes f s2 = y.
Proof.
  revert s. induction x as [|a x IH]; intros s Hs.
  - exists "", s. repeat split. exact Hs.
  - destruct s as [|b s]; [discriminate|].
    rewrite append_cons in Hs. cbn [mapBytes] in Hs. injection Hs as Hb Hs.
    destruct (IH s Hs) as (s1 & s2 & -> & H1 & H2).
    exists (String b s1), s2. repeat split; [|exact H2].
    cbn [mapBytes]. rewrite Hb, H1. reflexivity.
Qed.

(** Lowering an all-ASCII string and looking for [pat] is looking for [pat]
    with the case of the letters ignored. *)
Lemma occursIn_lowered (pat s : string) :
  occursIn pat (mapBytes lowerByte s) <-> occursFolded pat s.
Proof.
  split.
  - intros (before & after & Hs).
    apply mapBytes_split in Hs. destruct Hs as (s1 & s23 & -> & H1 & H23).
    apply mapBytes_split in H23. destruct H23 as (s2 & s3 & -> & H2 & H3).
    exists s1, s2, s3. split; [reflexivity|exact H2].
  - intros (before & part & after & -> & Hp).
    exists (mapBytes lowerByte before), (mapBytes lowerByte after).
    rewrite !mapBytes_app, Hp. reflexivity.
Qed.

(** What trimming removes is made of such bytes. *)
Lemma dropSpaces_dropped sp2 sp3 (s : string) :
  (forall a b, sp2 a b = true -> isASCII a = false /\ isASCII b = false) ->
  (forall a b c, sp3 a b c = true ->
     isASCII a = false /\ isASCII b = false /\ isASCII c = false) ->
  exists dropped,
    s = dropped +:+ dropSpaces sp2 sp3 s /\ allBytes spaceByte dropped = true.
Proof.
  intros H2 H3. remember (String.length s) as n eqn:Hn.
  revert s Hn. induction (lt_wf n) as [n _ IH]. intros s ->.
  destruct s as [|c0 s1]; [exists ""; split; reflexivity|].
  cbn [dropSpaces]. destruct (isSpace1 c0) eqn:E1.
  { destruct (IH (String.length s1)) with (s := s1) as (d & Hd & Hsp);
      [cbn; lia|reflexivity|].
    exists (String c0 d). rewrite append_cons, <- Hd. split; [reflexivity|].
    cbn [allBytes]. unfold spaceByte at 1. rewrite E1, Hsp. reflexivity. }
  destruct s1 as [|c1 s2]; [exists ""; split; reflexivity|].
  destruct (sp2 c0 c1) eqn:E2.
  { destruct (IH (String.length s2)) with (s := s2) as (d & Hd & Hsp);
      [cbn; lia|reflexivity|].
    exists (String c0 (String c1 d)). rewrite !append_cons, <- Hd.
    split; [reflexivity|]. destruct (H2 _ _ E2) as [Ha Hb].
    cbn [allBytes]. unfold spaceByte at 1 2. rewrite Ha, Hb, Hsp, !orb_true_r.
    reflexivity. }
  destruct s2 as [|c2 s3]; [exists ""; split; reflexivity|].
  destruct (sp3 c0 c1 c2) eqn:E3; [|exists ""; split; reflexivity].
  destruct (IH (String.length s3)) with (s := s3) as (d & Hd & Hsp);
    [cbn; lia|reflexivity|].
  exists (String c0 (String c1 (String c2 d))). rewrite !append_cons, <- Hd.
  split; [reflexivity|]. destruct (H3 _ _ _ E3) as (Ha & Hb & Hc).
  cbn [allBytes]. unfold spaceByte at 1 2 3. rewrite Ha, Hb, Hc, Hsp, !orb_true_r.
  reflexivity.
Qed.

(** A string of which trimming leaves nothing is made of such bytes. *)
Lemma TrimSpace_empty_bytes (s : string) :
  TrimSpace s = "" -> allBytes spaceByte s = true.
Proof.
  unfold TrimSpace, TrimRightSpace, TrimLeftSpace. intros Hs.
  apply (f_equal String.rev) in Hs. rewrite rev_involutive in Hs.
  change (String.rev "") with "" in Hs.
  destruct (dropSpaces_dropped isSpace2 isSpace3 s isSpace2_not_ascii isSpace3_not_ascii)
    as (d1 & Hd1 & Hsp1).
  set (t := dropSpaces isSpace2 isSpace3 s) in *.
  destruct (dropSpaces_dropped (fun c1 c0 => isSpace2 c0 c1)
              (fun c2 c1 c0 => isSpace3 c0 c1 c2) (String.rev t)) as (d2 & Hd2 & Hsp2).
  { intros a b E. apply isSpace2_not_ascii in E. tauto. }
  { intros a b c E. apply isSpace3_not_ascii in E. tauto. }
  rewrite Hs, append_empty_r in Hd2.
  rewrite Hd1, allBytes_app, Hsp1, <- allBytes_rev, Hd2. exact Hsp2.
Qed.

Lemma spaceByte_not_tag_open (c : ascii) :
  spaceByte c = true -> Ascii.eqb c "<" = false.
Proof.
  destruct c as [[] [] [] [] [] [] [] []]; intros Hc;
    vm_compute in Hc; try discriminate Hc; reflexivity.
Qed.

(** Without a [<] there is no tag to delete. *)
Lemma deleteTags_none (s : string) :
  allBytes (fun c => negb (Ascii.eqb c "<")) s = true -> deleteTags 0 s = s.
Proof.
  induction s as [|c r IH]; intros Hs; [reflexivity|].
  cbn in Hs. apply andb_true_iff in Hs. destruct Hs as [Hc Hr].
  apply negb_true_iff in Hc. cbn [deleteTags]. rewrite Hc, (IH Hr). reflexivity.
Qed.

Lemma allBytes_impl (P Q : ascii -> bool) (s : string) :
  (forall c, P c = true -> Q c = true) -> allBytes P s = true -> allBytes Q s = true.
Proof.
  intros HPQ. induction s as [|c r IH]; intros Hs; [reflexivity|].
  cbn in *. apply andb_true_iff in Hs. destruct Hs as [Hc Hr].
  rewrite (HPQ c Hc), (IH Hr). reflexivity.
Qed.

(** A blank string is still blank once its tags are deleted. *)
Lemma blank_without_tags (s : string) :
  TrimSpace s = "" -> TrimSpace (htmlTagPattern_ReplaceAll s) = "".
Proof.
  intros Hs. unfold htmlTagPattern_ReplaceAll. rewrite deleteTags_none; [exact Hs|].
  apply (allBytes_impl spaceByte); [|apply TrimSpace_empty_bytes, Hs].
  intros c Hc. rewrite (spaceByte_not_tag_open c Hc). reflexivity.
Qed.

End StringFacts.

(** * Sanitization of names *)

Section SafeName.
Import Go TweDlp.

(** What [makeSafeName] returns is the fallback name or a name of the class
    that is not empty. *)
Lemma makeSafeName_shape (s : string) :
  makeSafeName s = "unknown"
  \/ (makeSafeName s <> "" /\ allBytes isNameByte (makeSafeName s) = true).
Proof.
  unfold makeSafeName.
  destruct (String.eqb (TrimSpace s) "") eqn:Ht; [left; reflexivity|].
  destruct (String.eqb (safeNamePattern_ReplaceAll (TrimSpace s)) "") eqn:Hr;
    [left; reflexivity|].
  right. split.
  - apply String.eqb_neq, Hr.
  - apply replaceRuns_name.
Qed.

(** C9: sanitization is idempotent: sanitizing the result of a sanitization
    gives that result again, for every string. *)
Theorem makeSafeName_idempotent (s : string) :
  makeSafeName (makeSafeName s) = makeSafeName s.
Proof.
  destruct (makeSafeName_shape s) as [-> | [Hne Hname]]; [reflexivity|].
  generalize dependent (makeSafeName s). intros t Hne Hname.
  unfold makeSafeName. rewrite (TrimSpace_name t Hname).
  apply String.eqb_neq in Hne. rewrite Hne.
  unfold safeNamePattern_ReplaceAll. rewrite (replaceRuns_id false t Hname), Hne.
  reflexivity.
Qed.

(** C1 (amended): a string made only of characters outside [A-Za-z0-9_], the
    empty string among them, is sanitized to the fallback name when nothing
    is left of it once its white space is trimmed, and to a single underscore
    otherwise. *)
Theorem makeSafeName_disallowed (s : string) :
  allBytes disallowed s = true ->
  makeSafeName s = if String.eqb (TrimSpace s) "" then "unknown" else "_".
Proof.
  intros Hs. unfold makeSafeName.
  destruct (String.eqb (TrimSpace s) "") eqn:Ht; [reflexivity|].
  apply String.eqb_neq in Ht.
  rewrite (replaceAll_run _ Ht (allBytes_TrimSpace _ _ Hs)). reflexivity.
Qed.

Lemma makeSafeName_disallowed_witness :
  allBytes disallowed " !?! " = true /\ makeSafeName " !?! " = "_".
Proof.
  split; [reflexivity|].
  exact (makeSafeName_disallowed " !?! " eq_refl).
Defined.

(** The empty string is sanitized to the fallback name. *)
Example makeSafeName_empty : makeSafeName "" = "unknown".
Proof. reflexivity. Qed.

(** White space alone, also outside ASCII, is sanitized to the fallback name. *)
Example makeSafeName_blank : makeSafeName "  　 " = "unknown".
Proof. reflexivity. Qed.

(** C1 as stated fails: three exclamation marks are characters outside the
    class, and their sanitization is an underscore, not the fallback name. *)
Lemma makeSafeName_disallowed_not_unknown :
  allBytes disallowed "!!!" = true /\ makeSafeName "!!!" <> "unknown".
Proof. split; [reflexivity|]. vm_compute. discriminate. Qed.

End SafeName.

(** * Classification of content types *)

Section FileExtension.
Import Go TweDlp.
Context `{Library}.

(** C6: the extension is found by looking for [gif], then [jpeg] or [jpg],
    then [png] in the lowered content type, the first that occurs deciding,
    and is [img] when none occurs; on an ASCII content type, occurring in the
    lowered text is occurring with the case of the letters ignored; and the
    five content types of the specification get the extensions it gives. *)
Theorem determineFileExtension_classifies :
  (forall contentType : string,
     let lowered := ToLower mapToLower contentType in
     let extension := determineFileExtension contentType in
     (occursIn "gif" lowered -> extension = "gif")
     /\ (~ occursIn "gif" lowered ->
         occursIn "jpeg" lowered \/ occursIn "jpg" lowered -> extension = "jpg")
     /\ (~ occursIn "gif" lowered -> ~ occursIn "jpeg" lowered ->
         ~ occursIn "jpg" lowered -> occursIn "png" lowered -> extension = "png")
     /\ (~ occursIn "gif" lowered -> ~ occursIn "jpeg" lowered ->
         ~ occursIn "jpg" lowered -> ~ occursIn "png" lowered -> extension = "img"))
  /\ (forall contentType pat : string,
        allASCII contentType = true ->
        occursIn pat (ToLower mapToLower contentType) <-> occursFolded pat contentType)
  /\ determineFileExtension "image/gif" = "gif"
  /\ determineFileExtension "image/jpeg" = "jpg"
  /\ determineFileExtension "image/png" = "png"
  /\ determineFileExtension "application/octet-stream" = "img"
  /\ determineFileExtension "IMAGE/GIF" = "gif".
Proof.
  split; [|split; [|repeat split]].
  - intros contentType. cbv zeta. unfold determineFileExtension.
    set (lowered := ToLower mapToLower contentType).
    pose proof (Contains_occursIn lowered "gif") as Hgif.
    pose proof (Contains_occursIn lowered "jpeg") as Hjpeg.
    pose proof (Contains_occursIn lowered "jpg") as Hjpg.
    pose proof (Contains_occursIn lowered "png") as Hpng.
    destruct (Contains lowered "gif"), (Contains lowered "jpeg"),
      (Contains lowered "jpg"), (Contains lowered "png");
      cbn [orb]; repeat split; intros; try reflexivity; exfalso;
      intuition congruence.
  - intros contentType pat Hascii. unfold ToLower. rewrite Hascii.
    apply occursIn_lowered.
Qed.

End FileExtension.

(** A content type in mixed case with a part that, lowered, is [gif]. *)
Lemma determineFileExtension_classifies_witness :
  occursFolded "gif" "Image/X-GIF" /\
  @TweDlp.determineFileExtension plainLibrary "Image/X-GIF" = "gif".
Proof.
  assert (Hfold : occursFolded "gif" "Image/X-GIF").
  { exists "Image/X-", "GIF", "". split; reflexivity. }
  split; [exact Hfold|].
  destruct (determineFileExtension_classifies (H := plainLibrary)) as (Horder & Hcase & _).
  apply (Horder "Image/X-GIF"), Hcase; [reflexivity|exact Hfold].
Defined.

(** * The path of an image URL *)

Section EmotePath.
Import Go TweDlp.

Lemma splitByte_not_nil (sep : ascii) (s : string) : splitByte sep s <> [].
Proof.
  induction s as [|c r IH]; cbn [splitByte]; [discriminate|].
  destruct (Ascii.eqb c sep); [discriminate|].
  destruct (splitByte sep r); discriminate.
Qed.

(** Joining the parts with the separator gives the string back. *)
Lemma Join_splitByte (s : string) : Join (splitByte "/" s) "/" = s.
Proof.
  unfold Join. induction s as [|c r IH]; [reflexivity|].
  cbn [splitByte]. pose proof (splitByte_not_nil "/" r) as Hne.
  destruct (Ascii.eqb_spec c "/") as [->|Hc].
  - destruct (splitByte "/" r) as [|h t]; [congruence|].
    cbn [String.concat] in *. rewrite IH. reflexivity.
  - destruct (splitByte "/" r) as [|h t]; [congruence|].
    cbn [String.concat] in *. destruct t; rewrite <- IH; reflexivity.
Qed.

(** The join of the first parts is the beginning of the join of all. *)
Lemma concat_take_prefix (sep : string) (n : nat) (l : list string) :
  exists rest, String.concat sep l = String.concat sep (take n l) +:+ rest.
Proof.
  revert n. induction l as [|x l IH]; intros n.
  - exists "". destruct n; reflexivity.
  - destruct n as [|n]; [exists (String.concat sep (x :: l)); reflexivity|].
    cbn [take]. destruct (IH n) as [rest Hrest].
    destruct l as [|y l].
    + exists "". destruct n; cbn; rewrite append_empty_r; reflexivity.
    + destruct n as [|n].
      * exists (sep +:+ String.concat sep (y :: l)). reflexivity.
      * cbn [take] in *. exists rest.
        change (String.concat sep (x :: y :: l))
          with (x +:+ sep +:+ String.concat sep (y :: l)).
        change (String.concat sep (x :: y :: take n l))
          with (x +:+ sep +:+ String.concat sep (y :: take n l)).
        rewrite Hrest, !append_assoc. reflexivity.
Qed.

Lemma findEmoticons_first (index i : nat) (pathParts : list string) :
  firstEmoticons pathParts i -> findEmoticons index pathParts = Some (index + i).
Proof.
  revert index i. induction pathParts as [|part rest IH]; intros index i [Hi Hbefore].
  - rewrite lookup_nil in Hi. discriminate.
  - cbn [findEmoticons]. destruct i as [|i].
    + cbn in Hi. injection Hi as ->. cbn. f_equal. lia.
    + destruct (String.eqb_spec part "emoticons") as [->|_].
      { exfalso. apply (Hbefore 0); [lia|reflexivity]. }
      rewrite (IH (S index) i); [f_equal; lia|].
      split; [exact Hi|]. intros j Hj. apply (Hbefore (S j)). lia.
Qed.

Lemma findEmoticons_none (index : nat) (pathParts : list string) :
  (forall j, pathParts !! j <> Some "emoticons") ->
  findEmoticons index pathParts = None.
Proof.
  revert index. induction pathParts as [|part rest IH]; intros index Hno; [reflexivity|].
  cbn [findEmoticons]. destruct (String.eqb_spec part "emoticons") as [->|_].
  { exfalso. apply (Hno 0). reflexivity. }
  apply IH. intros j. apply (Hno (S j)).
Qed.

(** C5: with the absolute URL split at its slashes, the image is skipped
    when no part is [emoticons] or when fewer than three parts follow the
    first such part; otherwise the identifier is the part two places after
    it, the format type the part three places after it, and the base URL the
    parts up to that one joined again, which is the beginning of the URL. *)
Theorem emotePath_segments (fullImageSource : string) :
  let pathParts := splitByte "/" fullImageSource in
  ((forall j, pathParts !! j <> Some "emoticons") -> emotePath fullImageSource = None)
  /\ (forall i, firstEmoticons pathParts i ->
        (length pathParts <= i + 3 -> emotePath fullImageSource = None)
        /\ (i + 3 < length pathParts ->
            exists emoteIdentifier formatType baseURL rest,
              emotePath fullImageSource = Some (emoteIdentifier, formatType, baseURL)
              /\ pathParts !! (i + 2) = Some emoteIdentifier
              /\ pathParts !! (i + 3) = Some formatType
              /\ baseURL = Join (take (i + 4) pathParts) "/"
              /\ fullImageSource = baseURL +:+ rest)).
Proof.
  cbv zeta. split.
  - intros Hno. unfold emotePath. rewrite (findEmoticons_none 0 _ Hno). reflexivity.
  - intros i Hfirst. unfold emotePath.
    rewrite (findEmoticons_first 0 i _ Hfirst). cbn [Nat.add]. split.
    + intros Hshort. apply Nat.leb_le in Hshort. rewrite Hshort. reflexivity.
    + intros Hlong.
      destruct (Nat.leb_spec (length (splitByte "/" fullImageSource)) (i + 3)) as [?|_];
        [lia|].
      destruct (lookup_lt_is_Some_2 (splitByte "/" fullImageSource) (i + 2))
        as [emoteIdentifier Hid]; [lia|].
      destruct (lookup_lt_is_Some_2 (splitByte "/" fullImageSource) (i + 3))
        as [formatType Hformat]; [lia|].
      rewrite Hid, Hformat.
      destruct (concat_take_prefix "/" (i + 4) (splitByte "/" fullImageSource))
        as [rest Hrest].
      exists emoteIdentifier, formatType,
        (Join (take (i + 4) (splitByte "/" fullImageSource)) "/"), rest.
      repeat split. rewrite <- (Join_splitByte fullImageSource) at 1. exact Hrest.
Qed.

Lemma emotePath_segments_witness :
  emotePath "https://static-cdn.jtvnw.net/emoticons/v2/999/default/1.0"
  = Some ("999", "default", "https://static-cdn.jtvnw.net/emoticons/v2/999/default").
Proof.
  destruct (emotePath_segments "https://static-cdn.jtvnw.net/emoticons/v2/999/default/1.0")
    as [_ Hfound].
  destruct (Hfound 3) as [_ Hlong].
  { split; [reflexivity|]. intros [|[|[|j]]] Hj; try discriminate. lia. }
  destruct Hlong as (emoteIdentifier & formatType & baseURL & rest & -> & Hid & Hformat & -> & _).
  { vm_compute. lia. }
  vm_compute in Hid, Hformat. injection Hid as <-. injection Hformat as <-.
  reflexivity.
Defined.

End EmotePath.

(** * The emote code of an image element *)

Section EmoteCode.
Import Go TweDlp.

Lemma lookupAttr_absent (name : string) (l : list (string * string)) (v : string) :
  lookupAttr name l = (v, false) -> v = "".
Proof.
  induction l as [|[k w] l IH]; cbn [lookupAttr]; [congruence|].
  destruct (String.eqb k name); [congruence|exact IH].
Qed.

(** Where the program and the wording of the specification part: only at a
    [data-regex] that is blank without being empty, met with a
    [data-tooltip] that is absent or blank; there the program keeps the
    blank value. *)
Lemma emoteCodeOf_claimed (selection : Selection) (emoteIdentifier : string) :
  let regex := (Attr selection "data-regex").1 in
  let tooltipHTML := (Attr selection "data-tooltip").1 in
  (TrimSpace regex = "" -> regex <> "" -> TrimSpace tooltipHTML = "" ->
   emoteCodeOf selection emoteIdentifier = regex)
  /\ (~ (TrimSpace regex = "" /\ regex <> "" /\ TrimSpace tooltipHTML = "") ->
      emoteCodeOf selection emoteIdentifier = emoteCodeClaimed selection emoteIdentifier).
Proof.
  unfold emoteCodeOf, emoteCodeClaimed, Attr.
  destruct (lookupAttr "data-regex" (attributes selection)) as [regex hasRegex] eqn:Hr.
  destruct (lookupAttr "data-tooltip" (attributes selection))
    as [tooltipHTML hasTooltip] eqn:Ht.
  cbn [fst].
  assert (Hregex : hasRegex = false -> regex = "").
  { intros ->. exact (lookupAttr_absent _ _ _ Hr). }
  assert (Htool : hasTooltip = false -> tooltipHTML = "").
  { intros ->. exact (lookupAttr_absent _ _ _ Ht). }
  clear Hr Ht.
  set (parent := if negb (String.eqb (TrimSpace (parentText selection)) "")
                 then TrimSpace (parentText selection) else emoteIdentifier).
  destruct (String.eqb_spec (TrimSpace regex) "") as [Hblank|Hfull].
  - rewrite orb_true_r. cbn [negb].
    destruct (String.eqb_spec (TrimSpace tooltipHTML) "") as [Hb|Hf].
    + rewrite andb_false_r, (blank_without_tags _ Hb). cbn [String.eqb negb].
      split.
      * intros _ Hne _. apply String.eqb_neq in Hne. rewrite Hne. reflexivity.
      * intros Hnot. destruct (String.eqb_spec regex "") as [->|Hne]; [reflexivity|].
        exfalso. apply Hnot. repeat split; assumption.
    + destruct hasTooltip; [|rewrite (Htool eq_refl) in Hf; exfalso; apply Hf; reflexivity].
      cbn [andb negb]. split; [intros _ _ Hb; congruence|]. intros _.
      destruct (String.eqb (TrimSpace (htmlTagPattern_ReplaceAll tooltipHTML)) "");
        reflexivity.
  - destruct hasRegex; [|rewrite (Hregex eq_refl) in Hfull; exfalso; apply Hfull; reflexivity].
    cbn [negb orb]. split; [intros Hb; congruence|]. intros _.
    destruct (String.eqb_spec regex "") as [->|Hne]; [|reflexivity].
    exfalso. apply Hfull. reflexivity.
Qed.

End EmoteCode.

(** C2: at an image element whose [data-regex] is a single space, without
    [data-tooltip], in a parent whose text is [Kappa], the program keeps the
    space as the emote code, where the order of the specification (a blank
    [data-regex] passed over, then the tooltip, then the text of the parent)
    gives [Kappa]. *)
Theorem emoteCode_blank_regex_kept :
  let selection :=
    Go.mkSelection
      [("src", "https://static-cdn.jtvnw.net/emoticons/v2/25/default/1.0");
       ("data-regex", " ")] "Kappa" in
  TweDlp.emoteCodeOf selection "25" = " "
  /\ emoteCodeClaimed selection "25" = "Kappa"
  /\ @TweDlp.collectEmoteMetadata plainLibrary sampleDocument !! "25"
     = Some (TweDlp.mkEmoteData
               "https://static-cdn.jtvnw.net/emoticons/v2/25/default" "default" " ").
Proof. cbv zeta. repeat split; vm_compute; reflexivity. Qed.

(** * The mapping built from a page *)

Section Collect.
Import Go TweDlp.
Context `{Library}.

(** An image element that yields nothing leaves the mapping as it is. *)
Lemma visitImage_skip (emoteMap : gmap string EmoteData) (selection : Selection) :
  emoteOf selection = None -> visitImage emoteMap selection = emoteMap.
Proof. intros Hnone. unfold visitImage. rewrite Hnone. reflexivity. Qed.

(** The loop keeps what the mapping holds and adds, for an identifier it does
    not hold, the record of the first element that yields it. *)
Lemma foldl_visitImage_lookup (l : list Selection) (emoteMap : gmap string EmoteData)
    (emoteIdentifier : string) :
  foldl visitImage emoteMap l !! emoteIdentifier
  = match emoteMap !! emoteIdentifier with
    | Some emoteData => Some emoteData
    | None => firstRecord emoteIdentifier l
    end.
Proof.
  revert emoteMap. induction l as [|selection l IH]; intros emoteMap;
    cbn [foldl firstRecord].
  - destruct (emoteMap !! emoteIdentifier); reflexivity.
  - rewrite IH. unfold visitImage.
    destruct (emoteOf selection) as [[i emoteData]|]; [|reflexivity].
    destruct (emoteMap !! i) eqn:Hi.
    + destruct (String.eqb_spec i emoteIdentifier) as [->|Hne]; [|reflexivity].
      rewrite Hi. reflexivity.
    + destruct (String.eqb_spec i emoteIdentifier) as [->|Hne].
      * rewrite lookup_insert_eq, Hi. reflexivity.
      * rewrite lookup_insert_ne by exact Hne. reflexivity.
Qed.

Lemma firstRecord_first (emoteIdentifier : string) (before after : list Selection)
    (selection : Selection) (emoteData : EmoteData) :
  emoteOf selection = Some (emoteIdentifier, emoteData) ->
  (forall earlier d, earlier ∈ before -> emoteOf earlier <> Some (emoteIdentifier, d)) ->
  firstRecord emoteIdentifier (before ++ selection :: after)%list = Some emoteData.
Proof.
  intros Hsel. induction before as [|earlier before IH]; intros Hbefore.
  - cbn [app firstRecord]. rewrite Hsel, String.eqb_refl. reflexivity.
  - cbn [app firstRecord].
    assert (IH' : firstRecord emoteIdentifier (before ++ selection :: after)%list
                  = Some emoteData).
    { apply IH. intros e d He. apply Hbefore. right. exact He. }
    destruct (emoteOf earlier) as [[i d]|] eqn:He; [|exact IH'].
    destruct (String.eqb_spec i emoteIdentifier) as [->|_]; [|exact IH'].
    exfalso. apply (Hbefore earlier d); [left|exact He].
Qed.

Lemma firstRecord_none (emoteIdentifier : string) (l : list Selection) :
  (forall selection d, selection ∈ l -> emoteOf selection <> Some (emoteIdentifier, d)) ->
  firstRecord emoteIdentifier l = None.
Proof.
  induction l as [|selection l IH]; intros Hno; [reflexivity|].
  cbn [firstRecord].
  assert (IH' : firstRecord emoteIdentifier l = None).
  { apply IH. intros s d Hs. apply Hno. right. exact Hs. }
  destruct (emoteOf selection) as [[i d]|] eqn:He; [|exact IH'].
  destruct (String.eqb_spec i emoteIdentifier) as [->|_]; [|exact IH'].
  exfalso. apply (Hno selection d); [left|exact He].
Qed.

(** C4: in the mapping built from a page an identifier has the record of the
    first image element, in the order of the traversal, that yields it,
    whatever the later elements yield; it has none when no element yields
    it; and no identifier is listed twice. *)
Theorem collectEmoteMetadata_first_wins (document : Document) (emoteIdentifier : string) :
  (forall before selection after emoteData,
     images document = (before ++ selection :: after)%list ->
     emoteOf selection = Some (emoteIdentifier, emoteData) ->
     (forall earlier d, earlier ∈ before -> emoteOf earlier <> Some (emoteIdentifier, d)) ->
     collectEmoteMetadata document !! emoteIdentifier = Some emoteData)
  /\ ((forall selection d,
         selection ∈ images document -> emoteOf selection <> Some (emoteIdentifier, d)) ->
      collectEmoteMetadata document !! emoteIdentifier = None)
  /\ NoDup (map_to_list (collectEmoteMetadata document)).*1.
Proof.
  unfold collectEmoteMetadata. repeat split.
  - intros before selection after emoteData Himages Hsel Hbefore.
    rewrite foldl_visitImage_lookup, lookup_empty, Himages.
    apply firstRecord_first; assumption.
  - intros Hno. rewrite foldl_visitImage_lookup, lookup_empty.
    apply firstRecord_none, Hno.
  - apply NoDup_fst_map_to_list.
Qed.

End Collect.

(** Two image elements share the identifier 999: the code of the first is
    kept. *)
Lemma collectEmoteMetadata_first_wins_witness :
  @TweDlp.collectEmoteMetadata plainLibrary sampleDocument !! "999"
  = Some (TweDlp.mkEmoteData
            "https://static-cdn.jtvnw.net/emoticons/v2/999/default" "default" "PogChamp").
Proof.
  destruct (collectEmoteMetadata_first_wins (H := plainLibrary) sampleDocument "999")
    as [Hfirst _].
  apply (Hfirst [] _ _ _ eq_refl); [reflexivity|].
  intros earlier d Hin. inversion Hin.
Defined.

(** * The channel path pattern *)

Section ChannelPattern.
Import Go.

Lemma stripPrefix_Some (pre s rest : string) :
  stripPrefix pre s = Some rest <-> s = pre +:+ rest.
Proof.
  revert s. induction pre as [|a pre IH]; intros s.
  - cbn [stripPrefix]. change ("" +:+ rest) with rest. split; congruence.
  - destruct s as [|b s]; cbn [stripPrefix].
    + split; discriminate.
    + rewrite append_cons. destruct (Ascii.eqb_spec a b) as [->|Hab].
      * rewrite IH. split; congruence.
      * split; [discriminate|congruence].
Qed.

Lemma takeDigits_spec (s : string) :
  exists after,
    s = takeDigits s +:+ after
    /\ allBytes isDigit (takeDigits s) = true
    /\ (forall c r, after = String c r -> isDigit c = false).
Proof.
  induction s as [|c r (after & Hs & Hd & Hstop)].
  - exists "". repeat split. discriminate.
  - cbn [takeDigits]. destruct (isDigit c) eqn:Hc.
    + exists after. rewrite append_cons, <- Hs. repeat split; [|exact Hstop].
      cbn [allBytes]. rewrite Hc, Hd. reflexivity.
    + exists (String c r). repeat split. intros c' r' E. congruence.
Qed.

(** The pattern matches at the head of [s] exactly when [s] starts with
    [/channels/] and a digit. *)
Lemma channelMatchAt_None (s : string) :
  channelMatchAt s = None <->
  ~ exists c a, isDigit c = true /\ s = "/channels/" +:+ String c a.
Proof.
  unfold channelMatchAt. destruct (stripPrefix "/channels/" s) as [rest|] eqn:Hp.
  - apply stripPrefix_Some in Hp. subst s.
    destruct rest as [|c r]; cbn [takeDigits].
    + split; [|reflexivity]. intros _ (c & a & _ & E).
      apply String.app_inj in E. discriminate.
    + destruct (isDigit c) eqn:Hc.
      * split; [discriminate|]. intros Hno. exfalso. apply Hno. exists c, r. auto.
      * split; [|reflexivity]. intros _ (c' & a & Hc' & E).
        apply String.app_inj in E. congruence.
  - split; [|reflexivity]. intros _ (c & a & _ & E).
    apply stripPrefix_Some in E. congruence.
Qed.

Lemma channelMatchAt_Some (s d : string) :
  channelMatchAt s = Some d ->
  exists after,
    s = "/channels/" +:+ d +:+ after /\ d <> "" /\ allBytes isDigit d = true
    /\ (forall c r, after = String c r -> isDigit c = false).
Proof.
  unfold channelMatchAt. destruct (stripPrefix "/channels/" s) as [rest|] eqn:Hp;
    [|discriminate].
  apply stripPrefix_Some in Hp. subst s.
  destruct (takeDigits_spec rest) as (after & Hrest & Hd & Hstop).
  destruct (takeDigits rest) as [|c r] eqn:Ht; [discriminate|].
  intros [= <-]. exists after. rewrite <- Hrest. repeat split; [discriminate|exact Hd|exact Hstop].
Qed.

(** The search returns what the first match captures. *)
Lemma channelURLPattern_Find_Some (s d : string) :
  channelURLPattern_Find s = Some d -> firstChannelMatch s d.
Proof.
  revert d. induction s as [|c0 r IH]; intros d; cbn [channelURLPattern_Find].
  - destruct (channelMatchAt "") eqn:Hm; [|discriminate]. vm_compute in Hm. discriminate.
  - destruct (channelMatchAt (String c0 r)) as [d'|] eqn:Hm.
    + intros [= <-]. destruct (channelMatchAt_Some _ _ Hm) as (after & Hs & Hne & Hd & Hstop).
      exists "", after. repeat split; try assumption. intros; cbn; lia.
    + intros Hfind. destruct (IH d Hfind) as (before & after & Hs & Hne & Hd & Hstop & Hleft).
      exists (String c0 before), after. rewrite append_cons, <- Hs.
      repeat split; try assumption.
      intros b c a Hb Hc. destruct b as [|b0 b].
      * exfalso. apply channelMatchAt_None in Hm. apply Hm. exists c, a. auto.
      * rewrite append_cons in Hb. injection Hb as _ Hb. cbn [String.length].
        apply le_n_S. apply (Hleft b c a Hb Hc).
Qed.

(** The search finds nothing exactly when the pattern matches nowhere. *)
Lemma channelURLPattern_Find_None (s : string) :
  channelURLPattern_Find s = None <-> ~ channelPathIn s.
Proof.
  induction s as [|c0 r IH]; cbn [channelURLPattern_Find].
  - split; [|reflexivity]. intros _ (c & _ & before & after & E).
    destruct before; discriminate.
  - destruct (channelMatchAt (String c0 r)) as [d|] eqn:Hm.
    + split; [discriminate|]. intros Hno. exfalso. apply Hno.
      destruct (channelMatchAt_Some _ _ Hm) as (after & Hs & Hne & Hd & _).
      destruct d as [|c d]; [congruence|]. exists c. split.
      { cbn in Hd. apply andb_true_iff in Hd. apply Hd. }
      exists "", (d +:+ after). rewrite Hs. reflexivity.
    + rewrite IH. apply channelMatchAt_None in Hm. split.
      * intros Hno (c & Hc & before & after & E). destruct before as [|b0 before].
        -- apply Hm. exists c, after. split; [exact Hc|]. rewrite E. reflexivity.
        -- apply Hno. exists c. split; [exact Hc|]. exists before, after.
           rewrite append_cons in E. congruence.
      * intros Hno (c & Hc & before & after & E). apply Hno. exists c.
        split; [exact Hc|]. exists (String c0 before), after.
        rewrite append_cons, <- E. reflexivity.
Qed.

Lemma channelURLPattern_Find_match (s : string) :
  channelPathIn s -> exists d, channelURLPattern_Find s = Some d /\ firstChannelMatch s d.
Proof.
  intros Hin. destruct (channelURLPattern_Find s) as [d|] eqn:Hf.
  - exists d. split; [reflexivity|]. apply channelURLPattern_Find_Some, Hf.
  - apply channelURLPattern_Find_None in Hf. contradiction.
Qed.

End ChannelPattern.

(** * The identifier resolver *)

(** Runs the steps of the state monad that stand in the goal. *)
Ltac run :=
  unfold mbind, Go.M_bind, mret, Go.M_ret, Go.Printf, Go.CloseBody, Go.CloseFile,
    Go.perform;
  cbn [fst snd Go.world Go.calls Go.stdout].


Section Resolver.
Import Go TweDlp.
Context `{Library} {World : Type} `{System World}.

Lemma bind_run {A B : Type} (m : M World A) (f : A -> M World B) (st : State World) :
  (m ≫= f) st = let (a, st') := m st in f a st'.
Proof. reflexivity. Qed.

Lemma digit_in_bounds (c : ascii) :
  Ascii.ltb c "0" || Ascii.ltb "9" c = negb (isDigit c).
Proof. destruct c as [[] [] [] [] [] [] [] []]; reflexivity. Qed.

(** The flag of the loop is set for the strings of digits, the empty one
    among them. *)
Lemma isNumeric_digits (s : string) : isNumeric s = allBytes isDigit s.
Proof.
  induction s as [|c r IH]; [reflexivity|].
  cbn [isNumeric allBytes]. rewrite digit_in_bounds, IH.
  destruct (isDigit c); reflexivity.
Qed.

(** C3: an identifier that is not empty and is made of decimal digits is
    returned as it is, and the state comes back as it was: no call was made,
    to the network or elsewhere. *)
Theorem resolve_numeric_unchanged (httpClient : Client World)
    (channelIdentifier : string) (st : State World) :
  channelIdentifier <> "" ->
  allBytes isDigit channelIdentifier = true ->
  resolveChannelIdentifierToID httpClient channelIdentifier st
  = (Ok channelIdentifier, st).
Proof.
  intros Hne Hdigits. unfold resolveChannelIdentifierToID.
  apply String.eqb_neq in Hne. rewrite Hne, isNumeric_digits, Hdigits. reflexivity.
Qed.

Lemma searchRequest_built (channelIdentifier : string) (request : Request) :
  http_NewRequest "POST" (twitchemotesBaseURL +:+ "/search/channel")
    (Some (encodeForm channelIdentifier)) = Ok request ->
  Header_Set "User-Agent" defaultUserAgent
    (Header_Set "Content-Type" "application/x-www-form-urlencoded" request)
  = searchRequest channelIdentifier.
Proof.
  unfold http_NewRequest.
  destruct (url_Parse (twitchemotesBaseURL +:+ "/search/channel")); [|discriminate].
  intros [= <-]. reflexivity.
Qed.

(** C7: for an identifier with a character that is no digit, once the search
    request is answered: if the channel path pattern matches in the final
    URL, the digits of its first match there are returned and the body is
    not read; if it does not and the body is read, the digits of the first
    match in the body are returned when the pattern matches there, and
    otherwise the resolution fails with the error that names the
    identifier. *)
Theorem resolve_by_pattern (httpClient : Client World) (channelIdentifier : string)
    (st : State World) (parsed : URL) (response : Response) (w1 : World) :
  isNumeric channelIdentifier = false ->
  url_Parse "https://twitchemotes.com/search/channel" = Ok parsed ->
  httpClient (searchRequest channelIdentifier) (world st) = (Ok response, w1) ->
  let result := (resolveChannelIdentifierToID httpClient channelIdentifier st).1 in
  (channelPathIn (finalURL response) ->
   (exists d, result = Ok d /\ firstChannelMatch (finalURL response) d)
   /\ calls (resolveChannelIdentifierToID httpClient channelIdentifier st).2
      = (calls st ++ [callDo (searchRequest channelIdentifier);
                      callCloseBody (Body response)])%list)
  /\ (~ channelPathIn (finalURL response) ->
      forall bodyText w2,
        io_ReadAll (Body response) w1 = (Ok bodyText, w2) ->
        (channelPathIn bodyText ->
         exists d, result = Ok d /\ firstChannelMatch bodyText d)
        /\ (~ channelPathIn bodyText ->
            result = Err (fmt_Errorf "could not resolve channel name %q to an ID"
                            [opString channelIdentifier]))).
Proof.
  intros Hnum Hparse Hdo. cbv zeta. unfold resolveChannelIdentifierToID.
  assert (Hne : String.eqb channelIdentifier "" = false).
  { destruct channelIdentifier; [discriminate Hnum|reflexivity]. }
  rewrite Hne, Hnum.
  destruct (http_NewRequest "POST" (twitchemotesBaseURL +:+ "/search/channel")
              (Some (encodeForm channelIdentifier))) as [request|err] eqn:Hreq.
  2:{ unfold http_NewRequest in Hreq.
      change (twitchemotesBaseURL +:+ "/search/channel")
        with "https://twitchemotes.com/search/channel" in Hreq.
      rewrite Hparse in Hreq. discriminate. }
  rewrite (searchRequest_built _ _ Hreq).
  rewrite !bind_run. unfold Do, perform. rewrite Hdo. cbv beta iota.
  split.
  - intros Hurl. destruct (channelURLPattern_Find_match _ Hurl) as (d & Hfind & Hfirst).
    rewrite Hfind. split.
    + exists d. split; [reflexivity|exact Hfirst].
    + run. rewrite <- app_assoc. reflexivity.
  - intros Hurl bodyText w2 Hread.
    apply channelURLPattern_Find_None in Hurl. rewrite Hurl.
    rewrite !bind_run. unfold ReadAll, perform. cbn [world].
    rewrite Hread. split.
    + intros Hbody. destruct (channelURLPattern_Find_match _ Hbody) as (d & Hfind & Hfirst).
      exists d. split; [|exact Hfirst]. rewrite Hfind. reflexivity.
    + intros Hbody. apply channelURLPattern_Find_None in Hbody. rewrite Hbody.
      reflexivity.
Qed.

End Resolver.

Lemma resolve_numeric_unchanged_witness :
  @TweDlp.resolveChannelIdentifierToID plainLibrary unit sampleSystem sampleClient
    "12345" startState
  = (Go.Ok "12345", startState).
Proof.
  apply (resolve_numeric_unchanged (H := plainLibrary) (H0 := sampleSystem));
    [discriminate|reflexivity].
Defined.

(** The name [shroud] is resolved through the body of the answer, which
    links to channel 12345. *)
Lemma resolve_by_pattern_witness :
  exists d,
    (@TweDlp.resolveChannelIdentifierToID plainLibrary unit sampleSystem sampleClient
       "shroud" startState).1 = Go.Ok d
    /\ firstChannelMatch "<a href=https://twitchemotes.com/channels/12345>channel</a>" d.
Proof.
  destruct (resolve_by_pattern (H := plainLibrary) (H0 := sampleSystem) sampleClient
              "shroud" startState "https://twitchemotes.com/search/channel"
              (Go.mkResponse "https://twitchemotes.com/search" 200 "200 OK" "text/html" 0)
              tt eq_refl eq_refl eq_refl) as [_ Hbody].
  assert (Hurl : ~ channelPathIn "https://twitchemotes.com/search").
  { apply channelURLPattern_Find_None. reflexivity. }
  destruct (Hbody Hurl _ tt eq_refl) as [Hfound _].
  apply Hfound. exists "1"%char. split; [reflexivity|].
  exists "<a href=https://twitchemotes.com", "2345>channel</a>". reflexivity.
Defined.

Example resolve_shroud :
  @TweDlp.resolveChannelIdentifierToID plainLibrary unit sampleSystem sampleClient
    "shroud" startState
  = (Go.Ok "12345",
     Go.mkState tt
       [Go.callDo (searchRequest (H := plainLibrary) "shroud");
        Go.callReadAll 0; Go.callCloseBody 0] []).
Proof. reflexivity. Qed.

(** The empty identifier is refused before anything else. *)
Example resolve_empty :
  @TweDlp.resolveChannelIdentifierToID plainLibrary unit sampleSystem sampleClient
    "" startState
  = (Go.Err (Go.errors_New "empty channel identifier"), startState).
Proof. reflexivity. Qed.

(** * The asset downloader *)

Section Downloader.
Import Go TweDlp.
Context `{Library} {World : Type} `{System World}.

Lemma continues_refl (st : State World) : continues st st [] [].
Proof. split; rewrite app_nil_r; reflexivity. Qed.

Lemma continues_trans (st1 st2 st3 : State World) (l1 l2 : list Line) (c1 c2 : list Call) :
  continues st1 st2 l1 c1 -> continues st2 st3 l2 c2 ->
  continues st1 st3 (l1 ++ l2)%list (c1 ++ c2)%list.
Proof.
  intros [Hl1 Hc1] [Hl2 Hc2]. split.
  - rewrite Hl2, Hl1, app_assoc. reflexivity.
  - rewrite Hc2, Hc1, app_assoc. reflexivity.
Qed.

(** One turn of the loop always ends, with one line that reports the size;
    when the request could be built it was sent. *)
Lemma downloadSize_run (httpClient : Client World)
    (emoteBaseURL safeEmoteCode emoteFolder sizeValue : string) (st : State World) :
  exists line newCalls,
    continues st (downloadSize httpClient emoteBaseURL safeEmoteCode emoteFolder sizeValue st).2
      [line] newCalls
    /\ sizeReport emoteBaseURL safeEmoteCode emoteFolder sizeValue line
    /\ (forall parsed, url_Parse (emoteBaseURL +:+ "/light/" +:+ sizeValue) = Ok parsed ->
        callDo (assetRequest (emoteBaseURL +:+ "/light/" +:+ sizeValue)) ∈ newCalls).
Proof.
  unfold downloadSize, http_NewRequest, sizeReport.
  destruct (url_Parse (emoteBaseURL +:+ "/light/" +:+ sizeValue)) as [parsed|err].
  2:{ eexists _, []. split; [split; [reflexivity|symmetry; apply app_nil_r]|].
      split; [right; left; eexists; reflexivity|]. intros parsed [=]. }
  rewrite bind_run. unfold Do, perform.
  change (Header_Set "User-Agent" defaultUserAgent
            (mkRequest "GET" (emoteBaseURL +:+ "/light/" +:+ sizeValue) [] None))
    with (assetRequest (emoteBaseURL +:+ "/light/" +:+ sizeValue)).
  destruct (httpClient _ (world st)) as [[response|err] w1].
  2:{ eexists _, [_]. split; [split; reflexivity|].
      split; [right; left; eexists; reflexivity|]. intros _ _. left. }
  destruct (Nat.eqb_spec (StatusCode response) StatusOK) as [Hok|Hbad]; cbn [negb].
  2:{ eexists _, [_; _]. split; [split; [reflexivity|]|].
      { run. rewrite <- !app_assoc. reflexivity. }
      split; [right; right; left; eexists; reflexivity|]. intros _ _. left. }
  rewrite bind_run. unfold Create, perform. cbn [world].
  destruct (os_Create _ w1) as [[outputFile|err] w2].
  2:{ eexists _, [_; _; _]. split; [split; [reflexivity|]|].
      { run. rewrite <- !app_assoc. reflexivity. }
      split; [right; right; right; left; eexists _, _; reflexivity|].
      intros _ _. left. }
  rewrite bind_run. unfold Copy, perform. cbn [world].
  destruct (io_Copy outputFile (Body response) w2) as [[err|] w3].
  - eexists _, [_; _; _; _; _]. split; [split; [reflexivity|]|].
    { run. rewrite <- !app_assoc. reflexivity. }
    split; [right; right; right; right; eexists _, _; reflexivity|].
    intros _ _. left.
  - eexists _, [_; _; _; _; _]. split; [split; [reflexivity|]|].
    { run. rewrite <- !app_assoc. reflexivity. }
    split; [left; eexists; reflexivity|].
    intros _ _. left.
Qed.

(** Which line a turn writes: the skip notice of the first step that
    fails (the request not built, not answered, a status other than 200,
    the file not created, the copy broken off), or the name of the file. *)
Lemma downloadSize_line (httpClient : Client World)
    (emoteBaseURL safeEmoteCode emoteFolder sizeValue : string) (st : State World) :
  let imageURL := emoteBaseURL +:+ "/light/" +:+ sizeValue in
  let outputFilename := fun response : Response =>
    safeEmoteCode +:+ "_" +:+ sizeValue +:+ "."
    +:+ determineFileExtension (ContentType response) in
  let outputPath := fun response => filepath_Join emoteFolder (outputFilename response) in
  let written := fun line : Line =>
    stdout (downloadSize httpClient emoteBaseURL safeEmoteCode emoteFolder sizeValue st).2
    = (stdout st ++ [line])%list in
  (forall err, url_Parse imageURL = Err err ->
     written (mkLine "[skip] %s (%v)\n" [opString imageURL; opError err]))
  /\ (forall parsed, url_Parse imageURL = Ok parsed ->
      (forall err w1, httpClient (assetRequest imageURL) (world st) = (Err err, w1) ->
         written (mkLine "[skip] %s (%v)\n" [opString imageURL; opError err]))
      /\ (forall response w1,
            httpClient (assetRequest imageURL) (world st) = (Ok response, w1) ->
            (StatusCode response <> StatusOK ->
             written (mkLine "[skip] %s (status %s)\n"
                        [opString imageURL; opString (Status response)]))
            /\ (StatusCode response = StatusOK ->
                (forall err w2, os_Create (outputPath response) w1 = (Err err, w2) ->
                   written (mkLine "[skip] %s (cannot create file: %v)\n"
                              [opString (outputPath response); opError err]))
                /\ (forall outputFile w2,
                      os_Create (outputPath response) w1 = (Ok outputFile, w2) ->
                      (forall err w3,
                         io_Copy outputFile (Body response) w2 = (Some err, w3) ->
                         written (mkLine "[skip] %s (copy error: %v)\n"
                                    [opString (outputPath response); opError err]))
                      /\ (forall w3,
                            io_Copy outputFile (Body response) w2 = (None, w3) ->
                            written (mkLine "[ok] %s\n"
                                       [opString (outputFilename response)])))))).
Proof.
  cbv zeta. unfold downloadSize, http_NewRequest. split.
  - intros err ->. reflexivity.
  - intros parsed ->. rewrite !bind_run. unfold Do, perform.
    change (Header_Set "User-Agent" defaultUserAgent
              (mkRequest "GET" (emoteBaseURL +:+ "/light/" +:+ sizeValue) [] None))
      with (assetRequest (emoteBaseURL +:+ "/light/" +:+ sizeValue)).
    split; [intros err w1 ->; reflexivity|].
    intros response w1 ->. split.
    + intros Hbad. apply Nat.eqb_neq in Hbad. rewrite Hbad. reflexivity.
    + intros Hok. apply Nat.eqb_eq in Hok. rewrite Hok. cbn [negb].
      rewrite !bind_run. unfold Create, perform. cbn [world].
      split; [intros err w2 ->; reflexivity|].
      intros outputFile w2 ->. rewrite !bind_run. unfold Copy, perform. cbn [world].
      split; [intros err w3 ->; reflexivity|intros w3 ->; reflexivity].
Qed.

(** A loop whose turns each continue the state continues it by the turns'
    lines and calls, one block for each element, in order. *)
Lemma forEach_run {A : Type} (l : list A) (body : A -> M World unit)
    (P : A -> list Line -> list Call -> Prop) :
  (forall a st, exists lines newCalls,
      continues st (body a st).2 lines newCalls /\ P a lines newCalls) ->
  forall st, exists blocks : list (list Line * list Call),
    continues st (forEach l body st).2 (concat blocks.*1) (concat blocks.*2)
    /\ Forall2 (fun a block => P a block.1 block.2) l blocks.
Proof.
  intros Hbody. induction l as [|a l IH]; intros st.
  - exists []. split; [apply continues_refl|constructor].
  - cbn [forEach]. rewrite bind_run.
    destruct (Hbody a st) as (lines & newCalls & Hcont & HP).
    destruct (body a st) as [[] st1]. cbn [snd] in Hcont.
    destruct (IH st1) as (blocks & Hrest & Hall).
    exists ((lines, newCalls) :: blocks). split.
    + cbn [fmap list_fmap concat fst snd]. eapply continues_trans; eassumption.
    + constructor; [exact HP|exact Hall].
Qed.

(** The download of one emote always ends and reports the emote; when its
    folder is made, the three sizes are reported in order and every request
    that could be built was sent. *)
Lemma downloadEmoteImages_run (httpClient : Client World) (emoteIdentifier : string)
    (emoteData : EmoteData) (outputRoot : string) (st : State World) :
  let emoteFolder := filepath_Join outputRoot (makeSafeName (EmoteCode emoteData)) in
  exists lines newCalls,
    continues st (downloadEmoteImages httpClient emoteIdentifier emoteData outputRoot st).2
      lines newCalls
    /\ emoteReport outputRoot emoteData lines
    /\ ((os_MkdirAll emoteFolder (world st)).1 = None ->
        length lines = 3
        /\ forall sizeValue parsed,
             sizeValue ∈ emoteSizeList ->
             url_Parse (BaseURL emoteData +:+ "/light/" +:+ sizeValue) = Ok parsed ->
             callDo (assetRequest (BaseURL emoteData +:+ "/light/" +:+ sizeValue))
             ∈ newCalls).
Proof.
  cbv zeta. unfold downloadEmoteImages, emoteReport.
  set (safe := makeSafeName (EmoteCode emoteData)).
  set (folder := filepath_Join outputRoot safe).
  rewrite bind_run. unfold MkdirAll, perform.
  destruct (os_MkdirAll folder (world st)) as [[err|] w1]; cbn [fst].
  { eexists [_], [_]. split; [split; reflexivity|].
    split; [left; eexists; reflexivity|]. intros [=]. }
  set (st1 := mkState w1 (calls st ++ [callMkdirAll folder]) (stdout st)).
  unfold emoteSizeList. cbn [forEach]. run.
  destruct (downloadSize_run httpClient (BaseURL emoteData) safe folder "1.0" st1)
    as (l1 & c1 & Hc1 & Hr1 & Hd1).
  destruct (downloadSize httpClient (BaseURL emoteData) safe folder "1.0" st1)
    as [[] st2]. cbn [snd] in Hc1. cbv beta iota.
  destruct (downloadSize_run httpClient (BaseURL emoteData) safe folder "2.0" st2)
    as (l2 & c2 & Hc2 & Hr2 & Hd2).
  destruct (downloadSize httpClient (BaseURL emoteData) safe folder "2.0" st2)
    as [[] st3]. cbn [snd] in Hc2. cbv beta iota.
  destruct (downloadSize_run httpClient (BaseURL emoteData) safe folder "3.0" st3)
    as (l3 & c3 & Hc3 & Hr3 & Hd3).
  destruct (downloadSize httpClient (BaseURL emoteData) safe folder "3.0" st3)
    as [[] st4]. cbn [snd] in Hc3. cbv beta iota.
  exists [l1; l2; l3], ([callMkdirAll folder] ++ c1 ++ c2 ++ c3)%list.
  split; [|split].
  - assert (H01 : continues st st1 [] [callMkdirAll folder]).
    { split; [symmetry; apply app_nil_r|reflexivity]. }
    pose proof (continues_trans _ _ _ _ _ _ _ H01
                  (continues_trans _ _ _ _ _ _ _ Hc1
                     (continues_trans _ _ _ _ _ _ _ Hc2 Hc3))) as Hall.
    exact Hall.
  - right. exists l1, l2, l3. repeat split; assumption.
  - intros _. split; [reflexivity|]. intros sizeValue parsed Hin Hparse.
    apply elem_of_app. right.
    rewrite !elem_of_cons in Hin. rewrite !elem_of_app.
    destruct Hin as [->|[->|[->|Hin]]].
    + left. eapply Hd1, Hparse.
    + right. left. eapply Hd2, Hparse.
    + right. right. eapply Hd3, Hparse.
    + inversion Hin.
Qed.

(** The loop over the emotes: every entry is announced and then reported,
    in the order of the entries. *)
Lemma emote_loop_run (httpClient : Client World) (outputRoot : string)
    (entries : list (string * EmoteData)) (st : State World) :
  exists blocks : list (list Line * list Call),
    continues st
      (forEach entries
         (fun entry : string * EmoteData =>
            let (emoteIdentifier, emoteData) := entry in
            Printf "Downloading sizes for emote: %s (%s)\n"
              [opString (EmoteCode emoteData); opString emoteIdentifier];;
            downloadEmoteImages httpClient emoteIdentifier emoteData outputRoot) st).2
      (concat blocks.*1) (concat blocks.*2)
    /\ Forall2 (fun entry block =>
                  exists lines,
                    block.1 = announcement entry :: lines
                    /\ emoteReport outputRoot entry.2 lines) entries blocks.
Proof.
  apply (forEach_run entries _
           (fun entry lines _ =>
              exists rest, lines = announcement entry :: rest
                           /\ emoteReport outputRoot entry.2 rest)).
  clear st. intros [emoteIdentifier emoteData] st. run.
  set (st1 := mkState (world st) (calls st) _).
  destruct (downloadEmoteImages_run httpClient emoteIdentifier emoteData outputRoot st1)
    as (lines & newCalls & [Hl Hc] & Hreport & _).
  exists (announcement (emoteIdentifier, emoteData) :: lines), newCalls.
  split; [split|].
  - rewrite Hl. unfold st1, announcement. cbn [stdout fst snd].
    rewrite <- app_assoc. reflexivity.
  - rewrite Hc. reflexivity.
  - exists lines. split; [reflexivity|exact Hreport].
Qed.

Lemma Forall2_block {A B : Type} (P : A -> B -> Prop) (l : list A) (blocks : list B) (a : A) :
  Forall2 P l blocks -> a ∈ l ->
  exists before block after, blocks = (before ++ block :: after)%list /\ P a block.
Proof.
  intros Hall Hin. apply list_elem_of_lookup in Hin. destruct Hin as [i Hi].
  destruct (Forall2_lookup_l _ _ _ _ _ Hall Hi) as (block & Hb & HP).
  exists (take i blocks), block, (drop (S i) blocks). split; [|exact HP].
  symmetry. apply take_drop_middle, Hb.
Qed.

(** The end of a run: nothing when the mapping is empty, else the loop over
    its entries; in both cases without error and with one block for each
    entry. *)
Lemma emote_part_run (httpClient : Client World) (outputRoot : string)
    (emoteMap : gmap string EmoteData) (st : State World) :
  exists (st' : State World) (blocks : list (list Line * list Call)),
    (if (size emoteMap =? 0)%nat then fun s : State World => (@None error, s)
     else fun s : State World =>
            let (_, s') :=
              forEach (rangeOrder EmoteData (world s) emoteMap)
                (fun entry : string * EmoteData =>
                   let (emoteIdentifier, emoteData) := entry in
                   Printf "Downloading sizes for emote: %s (%s)\n"
                     [opString (EmoteCode emoteData); opString emoteIdentifier];;
                   downloadEmoteImages httpClient emoteIdentifier emoteData outputRoot)
                s in
            (None, s')) st
    = (None, st')
    /\ stdout st' = (stdout st ++ concat blocks.*1)%list
    /\ Forall2 (fun entry block =>
                  exists lines,
                    block.1 = announcement entry :: lines
                    /\ emoteReport outputRoot entry.2 lines)
         (rangeOrder EmoteData (world st) emoteMap) blocks.
Proof.
  destruct (Nat.eqb_spec (size emoteMap) 0) as [Hempty|_].
  - exists st, []. split; [reflexivity|]. split; [symmetry; apply app_nil_r|].
    apply map_size_empty_iff in Hempty. subst emoteMap.
    pose proof (rangeOrder_perm EmoteData (world st) ∅) as Hperm.
    rewrite map_to_list_empty in Hperm. apply Permutation_nil_r in Hperm.
    rewrite Hperm. constructor.
  - destruct (emote_loop_run httpClient outputRoot
                (rangeOrder EmoteData (world st) emoteMap) st)
      as (blocks & [Hout _] & Hall).
    destruct (forEach _ _ st) as [[] st'].
    exists st', blocks. split; [reflexivity|]. split; [exact Hout|exact Hall].
Qed.

(** A run whose page is fetched and whose folder is made ends without error;
    its lines are those before the loop, then one block for each entry of
    the mapping in the order of the [range]. *)
Lemma downloadChannelEmotes_run (httpClient : Client World) (channelID : string)
    (st st1 : State World) (document : Document) (response : Response) :
  fetchDocument httpClient (twitchemotesBaseURL +:+ "/channels/" +:+ channelID) st
  = (Ok (document, response), st1) ->
  StatusCode response = StatusOK ->
  (os_MkdirAll (channelFolder document channelID) (world st1)).1 = None ->
  exists (st' : State World) (intro : list Line) (w : World)
         (blocks : list (list Line * list Call)),
    downloadChannelEmotes httpClient channelID st = (None, st')
    /\ stdout st' = (stdout st1 ++ intro ++ concat blocks.*1)%list
    /\ Forall2 (fun entry block =>
                  exists lines,
                    block.1 = announcement entry :: lines
                    /\ emoteReport (channelFolder document channelID) entry.2 lines)
         (rangeOrder EmoteData w (collectEmoteMetadata document)) blocks.
Proof.
  intros Hfetch Hstatus Hmk.
  unfold downloadChannelEmotes. rewrite bind_run, Hfetch, bind_run, Hstatus.
  cbn [Nat.eqb negb StatusOK]. fold (channelFolder document channelID).
  match goal with |- context [forEach _ ?b] => set (body := b) end.
  unfold MkdirAll, rangeMap. run.
  destruct (os_MkdirAll (channelFolder document channelID) (world st1))
    as [failed w1]. cbn [fst] in Hmk. subst failed.
  set (emoteMap := collectEmoteMetadata document).
  set (root := channelFolder document channelID) in *.
  unfold body. clear body.
  assert (Hend : forall stk : State World,
            exists (st' : State World) (blocks : list (list Line * list Call)),
              (let (a, st2) :=
                 (if (size emoteMap =? 0)%nat then fun s : State World => (@None error, s)
                  else fun s : State World =>
                         let (_, s') :=
                           forEach (rangeOrder EmoteData (world s) emoteMap)
                             (fun entry : string * EmoteData =>
                                let (emoteIdentifier, emoteData) := entry in
                                Printf "Downloading sizes for emote: %s (%s)\n"
                                  [opString (EmoteCode emoteData);
                                   opString emoteIdentifier];;
                                downloadEmoteImages httpClient emoteIdentifier
                                  emoteData root) s in
                         (None, s')) stk in
               (a, mkState (world st2) (calls st2 ++ [callCloseBody (Body response)])
                     (stdout st2)))
              = (None, st')
              /\ stdout st' = (stdout stk ++ concat blocks.*1)%list
              /\ Forall2 (fun entry block =>
                            exists lines,
                              block.1 = announcement entry :: lines
                              /\ emoteReport root entry.2 lines)
                   (rangeOrder EmoteData (world stk) emoteMap) blocks).
  { intros stk.
    destruct (emote_part_run httpClient root emoteMap stk)
      as (st' & blocks & -> & Hout & Hall).
    eexists _, blocks. split; [reflexivity|]. split; [exact Hout|exact Hall]. }
  destruct (negb (String.eqb (getChannelDisplayName document) ""));
    cbv beta iota; cbn [world calls stdout].
  - destruct (Hend (mkState w1 (calls st1 ++ [callMkdirAll root])
                      (((((stdout st1 ++ [mkLine "Channel ID: %s\n" [opString channelID]])
                          ++ [mkLine "Channel Name: %s\n"
                                [opString (getChannelDisplayName document)]])
                         ++ [mkLine "Output Folder: %s\n" [opString root]])
                        ++ [mkLine "Collecting emote metadata...\n" []])
                       ++ [mkLine "Found %d emotes\n" [opInt (size emoteMap)]])))
      as (st' & blocks & Heq & Hout & Hall).
    exists st',
      [mkLine "Channel ID: %s\n" [opString channelID];
       mkLine "Channel Name: %s\n" [opString (getChannelDisplayName document)];
       mkLine "Output Folder: %s\n" [opString root];
       mkLine "Collecting emote metadata...\n" [];
       mkLine "Found %d emotes\n" [opInt (size emoteMap)]], w1, blocks.
    split; [exact Heq|]. split; [|exact Hall].
    rewrite Hout. cbn [stdout]. rewrite <- !app_assoc. reflexivity.
  - destruct (Hend (mkState w1 (calls st1 ++ [callMkdirAll root])
                      ((((stdout st1 ++ [mkLine "Channel ID: %s\n" [opString channelID]])
                         ++ [mkLine "Output Folder: %s\n" [opString root]])
                        ++ [mkLine "Collecting emote metadata...\n" []])
                       ++ [mkLine "Found %d emotes\n" [opInt (size emoteMap)]])))
      as (st' & blocks & Heq & Hout & Hall).
    exists st',
      [mkLine "Channel ID: %s\n" [opString channelID];
       mkLine "Output Folder: %s\n" [opString root];
       mkLine "Collecting emote metadata...\n" [];
       mkLine "Found %d emotes\n" [opInt (size emoteMap)]], w1, blocks.
    split; [exact Heq|]. split; [|exact Hall].
    rewrite Hout. cbn [stdout]. rewrite <- !app_assoc. reflexivity.
Qed.

End Downloader.

(** An emote whose second size is missing: the first and the third size are
    written all the same. *)
Example download_missing_size :
  Go.stdout
    (@TweDlp.downloadEmoteImages plainLibrary unit sampleSystem sampleClient "999"
       (TweDlp.mkEmoteData "https://static-cdn.jtvnw.net/emoticons/v2/999/default"
          "default" "PogChamp")
       "channel" startState).2
  = [Go.mkLine "[ok] %s\n" [Go.opString "PogChamp_1.0.png"];
     Go.mkLine "[skip] %s (status %s)\n"
       [Go.opString "https://static-cdn.jtvnw.net/emoticons/v2/999/default/light/2.0";
        Go.opString "404 Not Found"];
     Go.mkLine "[ok] %s\n" [Go.opString "PogChamp_3.0.png"]].
Proof. vm_compute. reflexivity. Qed.

(** The lines of the whole run on the sample page: the second size of each
    emote is missing and the other two are written; the emote whose
    [data-regex] is blank goes to the folder of the fallback name. *)
Example run_sample :
  let run :=
    @TweDlp.downloadChannelEmotes plainLibrary unit sampleSystem sampleClient
      "12345" startState in
  run.1 = None
  /\ Go.stdout run.2
     = [Go.mkLine "Channel ID: %s\n" [Go.opString "12345"];
        Go.mkLine "Output Folder: %s\n" [Go.opString "12345"];
        Go.mkLine "Collecting emote metadata...\n" [];
        Go.mkLine "Found %d emotes\n" [Go.opInt 2];
        Go.mkLine "Downloading sizes for emote: %s (%s)\n"
          [Go.opString "PogChamp"; Go.opString "999"];
        Go.mkLine "[ok] %s\n" [Go.opString "PogChamp_1.0.png"];
        Go.mkLine "[skip] %s (status %s)\n"
          [Go.opString "https://static-cdn.jtvnw.net/emoticons/v2/999/default/light/2.0";
           Go.opString "404 Not Found"];
        Go.mkLine "[ok] %s\n" [Go.opString "PogChamp_3.0.png"];
        Go.mkLine "Downloading sizes for emote: %s (%s)\n"
          [Go.opString " "; Go.opString "25"];
        Go.mkLine "[ok] %s\n" [Go.opString "unknown_1.0.png"];
        Go.mkLine "[skip] %s (status %s)\n"
          [Go.opString "https://static-cdn.jtvnw.net/emoticons/v2/25/default/light/2.0";
           Go.opString "404 Not Found"];
        Go.mkLine "[ok] %s\n" [Go.opString "unknown_3.0.png"]].
Proof. cbv zeta. split; vm_compute; reflexivity. Qed.

(** * The two programs *)

Section Variants.
Import Go.
Context `{Library} {World : Type} `{System World}.

Lemma emoteOf_same (selection : Selection) :
  TweDlpTui.emoteOf selection
  = (fun entry => (entry.1, sameRecord entry.2)) <$> TweDlp.emoteOf selection.
Proof.
  unfold TweDlpTui.emoteOf, TweDlp.emoteOf.
  destruct (Attr selection "src") as [imageSource hasSrc].
  destruct (negb hasSrc || String.eqb imageSource ""); [reflexivity|].
  destruct (negb (Contains imageSource "static-cdn.jtvnw.net/emoticons/v2/"));
    [reflexivity|].
  change (TweDlpTui.fullSource imageSource) with (TweDlp.fullSource imageSource).
  destruct (TweDlp.fullSource imageSource) as [fullImageSource|]; [|reflexivity].
  change (TweDlpTui.emotePath fullImageSource) with (TweDlp.emotePath fullImageSource).
  destruct (TweDlp.emotePath fullImageSource) as [[[emoteIdentifier formatType] baseURL]|];
    reflexivity.
Qed.

Lemma visitImage_same (emoteMap : gmap string TweDlp.EmoteData) (selection : Selection) :
  sameRecord <$> TweDlp.visitImage emoteMap selection
  = TweDlpTui.visitImage (sameRecord <$> emoteMap) selection.
Proof.
  unfold TweDlp.visitImage, TweDlpTui.visitImage. rewrite emoteOf_same.
  destruct (TweDlp.emoteOf selection) as [[emoteIdentifier emoteData]|]; [|reflexivity].
  cbn [fmap option_fmap option_map fst snd]. rewrite lookup_fmap.
  destruct (emoteMap !! emoteIdentifier); [reflexivity|].
  cbn [fmap option_fmap option_map]. apply fmap_insert.
Qed.

Lemma foldl_visitImage_same (l : list Selection) (emoteMap : gmap string TweDlp.EmoteData) :
  sameRecord <$> foldl TweDlp.visitImage emoteMap l
  = foldl TweDlpTui.visitImage (sameRecord <$> emoteMap) l.
Proof.
  revert emoteMap. induction l as [|selection l IH]; intros emoteMap; [reflexivity|].
  cbn [foldl]. rewrite IH, visitImage_same. reflexivity.
Qed.

(** C10: the four functions of the pipeline that both programs declare
    compute the same results: the two sanitizations, the two resolvers on
    every client and state, and the two classifications are equal, and the
    two mappings built from a page hold the same records under the same
    identifiers. *)
Theorem variants_agree :
  (forall name : string, TweDlp.makeSafeName name = TweDlpTui.makeSafeName name)
  /\ (forall (httpClient : Client World) (channelIdentifier : string) (st : State World),
        TweDlp.resolveChannelIdentifierToID httpClient channelIdentifier st
        = TweDlpTui.resolveChannelIdentifierToID httpClient channelIdentifier st)
  /\ (forall document : Document,
        sameRecord <$> TweDlp.collectEmoteMetadata document
        = TweDlpTui.collectEmoteMetadata document)
  /\ (forall contentType : string,
        TweDlp.determineFileExtension contentType
        = TweDlpTui.determineFileExtension contentType).
Proof.
  split; [reflexivity|]. split; [reflexivity|]. split; [|reflexivity].
  intros document. unfold TweDlp.collectEmoteMetadata, TweDlpTui.collectEmoteMetadata.
  rewrite foldl_visitImage_same, fmap_empty. reflexivity.
Qed.

End Variants.

(** * Further properties of the resolver *)

(** Reduces the matches on answers that are known. *)
Ltac step := cbv beta iota; cbn [fst snd Go.world Go.calls Go.stdout].

(** Checks a list of calls one by one, [H] serving for the request. *)
Ltac each_call H :=
  repeat (constructor; [first [exact H | exact I]|]); constructor.

Section ResolverMore.
Import Go TweDlp.
Context `{Library} {World : Type} `{System World}.

Lemma firstChannelMatch_digits (s d : string) :
  firstChannelMatch s d -> d <> "" /\ allBytes isDigit d = true.
Proof. intros (before & after & _ & Hne & Hd & _). split; assumption. Qed.

(** X1: whatever the identifier, the client and the world, an ID that the
    resolver returns is a string of decimal digits that is not empty. *)
Theorem resolve_returns_digits (httpClient : Client World) (channelIdentifier : string)
    (st : State World) (d : string) :
  (resolveChannelIdentifierToID httpClient channelIdentifier st).1 = Ok d ->
  d <> "" /\ allBytes isDigit d = true.
Proof.
  unfold resolveChannelIdentifierToID, Do, ReadAll. run.
  destruct (String.eqb_spec channelIdentifier "") as [->|Hne];
    [step; intros Hd; inversion Hd|].
  destruct (isNumeric channelIdentifier) eqn:Hnum.
  { step. intros Hd; inversion Hd; subst.
    rewrite isNumeric_digits in Hnum. split; assumption. }
  destruct (http_NewRequest _ _ _) as [request|err];
    [|step; intros Hd; inversion Hd].
  destruct (httpClient _ (world st)) as [[response|err] w1];
    [|step; intros Hd; inversion Hd].
  step. destruct (channelURLPattern_Find (finalURL response)) as [id|] eqn:Hurl.
  { step. intros Hd; inversion Hd; subst.
    apply firstChannelMatch_digits with (s := finalURL response).
    apply channelURLPattern_Find_Some, Hurl. }
  step. destruct (io_ReadAll (Body response) w1) as [[bodyText|err] w2];
    [|step; intros Hd; inversion Hd].
  step. destruct (channelURLPattern_Find bodyText) as [id|] eqn:Hbody;
    [|step; intros Hd; inversion Hd].
  step. intros Hd; inversion Hd; subst.
  apply firstChannelMatch_digits with (s := bodyText).
  apply channelURLPattern_Find_Some, Hbody.
Qed.

(** X2: the resolver writes no line, and its calls are these and no others.
    It makes none for an identifier that is empty or numeric, or when the
    request cannot be built. Otherwise it sends the one search request; when
    that request is not answered it does nothing more; when it is answered,
    it reads the body exactly when the final URL does not match the pattern,
    and in both cases it closes the body of the answer, once, as its last
    call. *)
Theorem resolve_calls (httpClient : Client World) (channelIdentifier : string)
    (st : State World) :
  let st' := (resolveChannelIdentifierToID httpClient channelIdentifier st).2 in
  stdout st' = stdout st
  /\ calls st'
     = (calls st
        ++ if String.eqb channelIdentifier "" || isNumeric channelIdentifier then []
           else
             match http_NewRequest "POST" (twitchemotesBaseURL +:+ "/search/channel")
                     (Some (encodeForm channelIdentifier)) with
             | Err _ => []
             | Ok _ =>
                 callDo (searchRequest channelIdentifier)
                 :: match httpClient (searchRequest channelIdentifier) (world st) with
                    | (Err _, _) => []
                    | (Ok response, _) =>
                        match channelURLPattern_Find (finalURL response) with
                        | Some _ => []
                        | None => [callReadAll (Body response)]
                        end ++ [callCloseBody (Body response)]
                    end
             end)%list.
Proof.
  cbv zeta. unfold resolveChannelIdentifierToID.
  destruct (String.eqb channelIdentifier "");
    [split; [reflexivity|symmetry; apply app_nil_r]|].
  destruct (isNumeric channelIdentifier);
    [split; [reflexivity|symmetry; apply app_nil_r]|].
  cbn [orb].
  destruct (http_NewRequest _ _ _) as [request|err] eqn:Hreq;
    [|split; [reflexivity|symmetry; apply app_nil_r]].
  rewrite (searchRequest_built _ _ Hreq).
  unfold Do, ReadAll. run.
  destruct (httpClient _ (world st)) as [[response|err] w1] eqn:Hdo;
    [|split; reflexivity].
  step. destruct (channelURLPattern_Find (finalURL response)) as [id|].
  { step. split; [reflexivity|]. rewrite <- app_assoc. reflexivity. }
  step. destruct (io_ReadAll (Body response) w1) as [[bodyText|err] w2].
  - step. destruct (channelURLPattern_Find bodyText) as [id|];
      (step; split; [reflexivity|]; rewrite <- !app_assoc; reflexivity).
  - step. split; [reflexivity|]. rewrite <- !app_assoc. reflexivity.
Qed.

End ResolverMore.

Lemma resolve_returns_digits_witness :
  "12345" <> "" /\ allBytes Go.isDigit "12345" = true.
Proof.
  exact (resolve_returns_digits (H := plainLibrary) (H0 := sampleSystem) sampleClient
           "shroud" startState "12345" eq_refl).
Defined.

(** * Further properties of the sanitization *)

Section SafeNameMore.
Import Go TweDlp.

Lemma keepBytes_app (P : ascii -> bool) (s t : string) :
  keepBytes P (s +:+ t) = keepBytes P s +:+ keepBytes P t.
Proof.
  induction s as [|a s IH]; [reflexivity|].
  rewrite append_cons. cbn [keepBytes]. destruct (P a); rewrite IH; reflexivity.
Qed.

Lemma keepBytes_rev_app (P : ascii -> bool) (s t : string) :
  keepBytes P (String.rev_app s t) = String.rev_app (keepBytes P s) (keepBytes P t).
Proof.
  revert t. induction s as [|a s IH]; intros t; [reflexivity|].
  cbn [String.rev_app keepBytes]. rewrite IH. cbn [keepBytes].
  destruct (P a); reflexivity.
Qed.

Lemma keepBytes_rev (P : ascii -> bool) (s : string) :
  keepBytes P (String.rev s) = String.rev (keepBytes P s).
Proof. unfold String.rev. apply keepBytes_rev_app. Qed.

Lemma keepBytes_none (P Q : ascii -> bool) (s : string) :
  (forall c, Q c = true -> P c = false) -> allBytes Q s = true -> keepBytes P s = "".
Proof.
  intros HQP. induction s as [|c r IH]; intros Hs; [reflexivity|].
  cbn in Hs. apply andb_true_iff in Hs. destruct Hs as [Hc Hr].
  cbn [keepBytes]. rewrite (HQP c Hc). apply IH, Hr.
Qed.

Lemma spaceByte_not_alnum (c : ascii) : spaceByte c = true -> isAlnum c = false.
Proof.
  destruct c as [[] [] [] [] [] [] [] []]; intros Hc;
    vm_compute in Hc; try discriminate Hc; reflexivity.
Qed.

Lemma alnum_name_byte (c : ascii) : isAlnum c = true -> isNameByte c = true.
Proof. unfold isNameByte, isAlnum. intros ->. reflexivity. Qed.

(** Trimming removes no letter and no digit. *)
Lemma keepBytes_TrimSpace (s : string) :
  keepBytes isAlnum (TrimSpace s) = keepBytes isAlnum s.
Proof.
  unfold TrimSpace, TrimRightSpace, TrimLeftSpace.
  destruct (dropSpaces_dropped isSpace2 isSpace3 s isSpace2_not_ascii isSpace3_not_ascii)
    as (d1 & Hd1 & Hsp1).
  set (t := dropSpaces isSpace2 isSpace3 s) in *.
  destruct (dropSpaces_dropped (fun c1 c0 => isSpace2 c0 c1)
              (fun c2 c1 c0 => isSpace3 c0 c1 c2) (String.rev t)) as (d2 & Hd2 & Hsp2).
  { intros a b E. apply isSpace2_not_ascii in E. tauto. }
  { intros a b c E. apply isSpace3_not_ascii in E. tauto. }
  set (u := dropSpaces _ _ (String.rev t)) in *.
  rewrite keepBytes_rev.
  assert (Hu : keepBytes isAlnum u = keepBytes isAlnum (String.rev t)).
  { rewrite Hd2 at 1. rewrite keepBytes_app.
    rewrite (keepBytes_none isAlnum spaceByte d2 spaceByte_not_alnum Hsp2). reflexivity. }
  rewrite Hu, keepBytes_rev, rev_involutive.
  rewrite Hd1 at 1. rewrite keepBytes_app.
  rewrite (keepBytes_none isAlnum spaceByte d1 spaceByte_not_alnum Hsp1). reflexivity.
Qed.

(** The replacement removes no letter and no digit, and adds none. *)
Lemma keepBytes_replaceRuns (inRun : bool) (s : string) :
  keepBytes isAlnum (replaceRuns inRun s) = keepBytes isAlnum s.
Proof.
  revert inRun. induction s as [|c r IH]; intros inRun; [reflexivity|].
  cbn [replaceRuns keepBytes]. destruct (isNameByte c) eqn:Hname.
  - cbn [keepBytes]. rewrite IH. reflexivity.
  - assert (Hc : isAlnum c = false).
    { destruct (isAlnum c) eqn:E; [|reflexivity].
      apply alnum_name_byte in E. congruence. }
    rewrite Hc. destruct inRun; [apply IH|].
    cbn [keepBytes]. change (isAlnum "_") with false. cbv iota. apply IH.
Qed.

(** X3: the sanitized name is never empty and is made of bytes of the class
    [A-Za-z0-9_] only, whatever the input: it holds no separator, no dot and
    no white space. *)
Theorem makeSafeName_safe (name : string) :
  makeSafeName name <> "" /\ allBytes isNameByte (makeSafeName name) = true.
Proof.
  destruct (makeSafeName_shape name) as [-> | [Hne Hname]].
  - split; [discriminate|reflexivity].
  - split; assumption.
Qed.

(** X4: a name that is not empty and is made of bytes of the class is
    sanitized to itself. *)
Theorem makeSafeName_fixes_names (name : string) :
  name <> "" -> allBytes isNameByte name = true -> makeSafeName name = name.
Proof.
  intros Hne Hname. unfold makeSafeName. rewrite (TrimSpace_name name Hname).
  apply String.eqb_neq in Hne. rewrite Hne.
  unfold safeNamePattern_ReplaceAll. rewrite (replaceRuns_id false name Hname), Hne.
  reflexivity.
Qed.

Lemma makeSafeName_fixes_names_witness : makeSafeName "Pog_Champ2" = "Pog_Champ2".
Proof. apply makeSafeName_fixes_names; [discriminate|reflexivity]. Defined.

(** X5: the sanitization of a name that is not blank keeps every ASCII
    letter and digit of the name, in order, and adds none. *)
Theorem makeSafeName_keeps_alnum (name : string) :
  TrimSpace name <> "" ->
  keepBytes isAlnum (makeSafeName name) = keepBytes isAlnum name.
Proof.
  intros Hne. unfold makeSafeName.
  pose proof (replaceAll_not_empty _ Hne) as Hsafe.
  apply String.eqb_neq in Hne. apply String.eqb_neq in Hsafe. rewrite Hne, Hsafe.
  unfold safeNamePattern_ReplaceAll. rewrite keepBytes_replaceRuns.
  apply keepBytes_TrimSpace.
Qed.

Lemma makeSafeName_keeps_alnum_witness :
  keepBytes isAlnum (makeSafeName " 4 Head-x! ") = keepBytes isAlnum " 4 Head-x! ".
Proof. apply makeSafeName_keeps_alnum. vm_compute. discriminate. Defined.

End SafeNameMore.

(** * Further properties of the page scraper *)

Section CollectMore.
Import Go TweDlp.
Context `{Library}.

Lemma firstRecord_app (emoteIdentifier : string) (l1 l2 : list Selection) :
  firstRecord emoteIdentifier (l1 ++ l2)%list
  = match firstRecord emoteIdentifier l1 with
    | Some emoteData => Some emoteData
    | None => firstRecord emoteIdentifier l2
    end.
Proof.
  induction l1 as [|selection l1 IH]; [reflexivity|].
  cbn [app firstRecord]. destruct (emoteOf selection) as [[i d]|]; [|exact IH].
  destruct (String.eqb i emoteIdentifier); [reflexivity|exact IH].
Qed.

(** X6: the mapping of a page whose image elements are those of a first
    part followed by those of a second part is the mapping of the first
    part, completed by the mapping of the second part for the identifiers
    that the first part does not hold. *)
Theorem collectEmoteMetadata_app (header header1 header2 : option CardHeader)
    (l1 l2 : list Selection) :
  collectEmoteMetadata (mkDocument header (l1 ++ l2)%list)
  = collectEmoteMetadata (mkDocument header1 l1)
    ∪ collectEmoteMetadata (mkDocument header2 l2).
Proof.
  apply map_eq. intros emoteIdentifier. unfold collectEmoteMetadata. cbn [images].
  rewrite lookup_union, !foldl_visitImage_lookup, !lookup_empty, firstRecord_app.
  destruct (firstRecord emoteIdentifier l1), (firstRecord emoteIdentifier l2);
    reflexivity.
Qed.

Lemma firstRecord_Some (emoteIdentifier : string) (l : list Selection)
    (emoteData : EmoteData) :
  firstRecord emoteIdentifier l = Some emoteData ->
  exists selection, selection ∈ l /\ emoteOf selection = Some (emoteIdentifier, emoteData).
Proof.
  induction l as [|selection l IH]; cbn [firstRecord]; [discriminate|].
  destruct (emoteOf selection) as [[i d]|] eqn:He.
  - destruct (String.eqb_spec i emoteIdentifier) as [->|_].
    + intros [= <-]. exists selection. split; [left|exact He].
    + intros Hrest. destruct (IH Hrest) as (sel & Hin & Hsel).
      exists sel. split; [right; exact Hin|exact Hsel].
  - intros Hrest. destruct (IH Hrest) as (sel & Hin & Hsel).
    exists sel. split; [right; exact Hin|exact Hsel].
Qed.

Lemma splitByte_parts (sep : ascii) (s part : string) :
  part ∈ splitByte sep s -> allBytes (fun c => negb (Ascii.eqb c sep)) part = true.
Proof.
  revert part. induction s as [|c r IH]; intros part; cbn [splitByte].
  - intros Hin. apply list_elem_of_singleton in Hin. subst part. reflexivity.
  - destruct (Ascii.eqb c sep) eqn:Hc.
    + intros Hin. apply elem_of_cons in Hin. destruct Hin as [->|Hin]; [reflexivity|].
      apply IH, Hin.
    + destruct (splitByte sep r) as [|h t] eqn:Hsplit.
      * intros Hin. apply list_elem_of_singleton in Hin. subst part.
        cbn [allBytes]. rewrite Hc. reflexivity.
      * intros Hin. apply elem_of_cons in Hin. destruct Hin as [->|Hin].
        -- cbn [allBytes]. rewrite Hc. cbn [negb andb]. apply IH. left.
        -- apply IH. right. exact Hin.
Qed.

Lemma concat_snoc (sep : string) (l : list string) (a : string) :
  l <> [] -> String.concat sep (l ++ [a]) = String.concat sep l +:+ sep +:+ a.
Proof.
  induction l as [|x l IH]; [congruence|]. intros _.
  destruct l as [|y l]; [reflexivity|].
  change (String.concat sep ((x :: y :: l) ++ [a]))
    with (x +:+ sep +:+ String.concat sep ((y :: l) ++ [a])).
  rewrite IH by discriminate.
  change (String.concat sep (x :: y :: l))
    with (x +:+ sep +:+ String.concat sep (y :: l)).
  rewrite !append_assoc. reflexivity.
Qed.

(** What the path step yields: the identifier and the format type hold no
    slash, and the base URL ends with the two of them. *)
Lemma emotePath_shape (fullImageSource emoteIdentifier formatType baseURL : string) :
  emotePath fullImageSource = Some (emoteIdentifier, formatType, baseURL) ->
  allBytes notSlash emoteIdentifier = true
  /\ allBytes notSlash formatType = true
  /\ exists before, baseURL = before +:+ "/" +:+ emoteIdentifier +:+ "/" +:+ formatType.
Proof.
  unfold emotePath. set (pathParts := splitByte "/" fullImageSource).
  destruct (findEmoticons 0 pathParts) as [i|]; [|discriminate].
  destruct (Nat.leb_spec (length pathParts) (i + 3)) as [|Hlong]; [discriminate|].
  destruct (pathParts !! (i + 2)) as [a|] eqn:Ha; [|discriminate].
  destruct (pathParts !! (i + 3)) as [b|] eqn:Hb; [|discriminate].
  intros [= <- <- <-]. split; [|split].
  - apply (splitByte_parts "/" fullImageSource). apply list_elem_of_lookup. eauto.
  - apply (splitByte_parts "/" fullImageSource). apply list_elem_of_lookup. eauto.
  - exists (String.concat "/" (take (i + 2) pathParts)). unfold Join.
    replace (i + 4) with (S (i + 3)) by lia. rewrite (take_S_r _ _ _ Hb).
    replace (i + 3) with (S (i + 2)) by lia. rewrite (take_S_r _ _ _ Ha).
    assert (Hne : take (i + 2) pathParts <> []).
    { intros E. apply (f_equal length) in E. rewrite length_take in E. cbn in E. lia. }
    rewrite concat_snoc by (intros E; apply app_eq_nil in E; destruct E; discriminate).
    rewrite concat_snoc by exact Hne.
    rewrite !append_assoc. reflexivity.
Qed.

Lemma emoteOf_path (selection : Selection) (emoteIdentifier : string)
    (emoteData : EmoteData) :
  emoteOf selection = Some (emoteIdentifier, emoteData) ->
  exists fullImageSource,
    emotePath fullImageSource
    = Some (emoteIdentifier, FormatType emoteData, BaseURL emoteData).
Proof.
  unfold emoteOf. destruct (Attr selection "src") as [imageSource hasSrc].
  destruct (negb hasSrc || String.eqb imageSource ""); [discriminate|].
  destruct (negb (Contains imageSource _)); [discriminate|].
  destruct (fullSource imageSource) as [fullImageSource|]; [|discriminate].
  destruct (emotePath fullImageSource) as [[[i f] b]|] eqn:Hpath; [|discriminate].
  intros [= <- <-]. exists fullImageSource. exact Hpath.
Qed.

(** X7: every record of the mapping comes from an image element of the
    page that yields it under its identifier; the identifier holds no
    slash, and the base URL of the record ends with the identifier and the
    format type, each after a slash. *)
Theorem collectEmoteMetadata_records (document : Document) (emoteIdentifier : string)
    (emoteData : EmoteData) :
  collectEmoteMetadata document !! emoteIdentifier = Some emoteData ->
  (exists selection,
     selection ∈ images document
     /\ emoteOf selection = Some (emoteIdentifier, emoteData))
  /\ allBytes notSlash emoteIdentifier = true
  /\ exists before,
       BaseURL emoteData
       = before +:+ "/" +:+ emoteIdentifier +:+ "/" +:+ FormatType emoteData.
Proof.
  unfold collectEmoteMetadata. rewrite foldl_visitImage_lookup, lookup_empty.
  intros Hfirst. destruct (firstRecord_Some _ _ _ Hfirst) as (selection & Hin & Hsel).
  split; [exists selection; split; assumption|].
  destruct (emoteOf_path _ _ _ Hsel) as (fullImageSource & Hpath).
  destruct (emotePath_shape _ _ _ _ Hpath) as (Hid & _ & Hbase).
  split; assumption.
Qed.

End CollectMore.

Lemma collectEmoteMetadata_records_witness :
  allBytes notSlash "999" = true
  /\ exists before,
       "https://static-cdn.jtvnw.net/emoticons/v2/999/default"
       = before +:+ "/" +:+ "999" +:+ "/" +:+ "default".
Proof.
  exact (proj2 (collectEmoteMetadata_records (H := plainLibrary) sampleDocument "999"
                  (TweDlp.mkEmoteData
                     "https://static-cdn.jtvnw.net/emoticons/v2/999/default"
                     "default" "PogChamp")
                  ltac:(vm_compute; reflexivity))).
Defined.

Section PathRoundTrip.
Import Go TweDlp.

Lemma splitByte_app_sep (sep : ascii) (a b : string) :
  splitByte sep (a +:+ String sep b) = (splitByte sep a ++ splitByte sep b)%list.
Proof.
  induction a as [|c a IH].
  - change ("" +:+ String sep b) with (String sep b). cbn [splitByte].
    rewrite Ascii.eqb_refl. reflexivity.
  - rewrite append_cons. cbn [splitByte]. rewrite IH.
    destruct (Ascii.eqb c sep); [reflexivity|].
    pose proof (splitByte_not_nil sep a) as Hne.
    destruct (splitByte sep a) as [|h t]; [congruence|]. reflexivity.
Qed.

Lemma splitByte_no_sep (sep : ascii) (s : string) :
  allBytes (fun c => negb (Ascii.eqb c sep)) s = true -> splitByte sep s = [s].
Proof.
  induction s as [|c r IH]; intros Hs; [reflexivity|].
  cbn in Hs. apply andb_true_iff in Hs. destruct Hs as [Hc Hr].
  apply negb_true_iff in Hc. cbn [splitByte]. rewrite Hc, (IH Hr). reflexivity.
Qed.

(** X8: a URL put together from a beginning without a part [emoticons], the
    part [emoticons], one more part, an identifier, a format type and a
    remainder is read back by the path step: it yields that identifier, that
    format type and, as base URL, the URL up to the format type.  The part
    after [emoticons] is not looked at. *)
Theorem emotePath_round_trip (before version emoteIdentifier formatType rest : string) :
  (forall part, part ∈ splitByte "/" before -> part <> "emoticons") ->
  allBytes notSlash version = true ->
  allBytes notSlash emoteIdentifier = true ->
  allBytes notSlash formatType = true ->
  let baseURL :=
    before +:+ "/emoticons/" +:+ version +:+ "/" +:+ emoteIdentifier +:+ "/"
    +:+ formatType in
  emotePath (baseURL +:+ "/" +:+ rest) = Some (emoteIdentifier, formatType, baseURL).
Proof.
  intros Hbefore Hv Hid Hfmt. cbv zeta.
  set (P := splitByte "/" before).
  assert (Hparts :
    splitByte "/"
      ((before +:+ "/emoticons/" +:+ version +:+ "/" +:+ emoteIdentifier +:+ "/"
        +:+ formatType) +:+ "/" +:+ rest)
    = (P ++ ["emoticons"; version; emoteIdentifier; formatType] ++ splitByte "/" rest)%list).
  { transitivity
      (splitByte "/"
         (before +:+ String "/" ("emoticons" +:+ String "/" (version +:+ String "/"
            (emoteIdentifier +:+ String "/" (formatType +:+ String "/" rest)))))).
    { f_equal. rewrite !append_assoc. reflexivity. }
    rewrite !splitByte_app_sep.
    rewrite (splitByte_no_sep "/" version Hv), (splitByte_no_sep "/" emoteIdentifier Hid),
      (splitByte_no_sep "/" formatType Hfmt).
    reflexivity. }
  unfold emotePath. rewrite Hparts.
  rewrite (findEmoticons_first 0 (length P)).
  2:{ split.
      - rewrite lookup_app_r by lia. rewrite Nat.sub_diag. reflexivity.
      - intros j Hj Hlook. rewrite lookup_app_l in Hlook by exact Hj.
        apply (Hbefore "emoticons"); [|reflexivity].
        apply list_elem_of_lookup. eauto. }
  cbn [Nat.add].
  destruct (Nat.leb_spec
              (length (P ++ ["emoticons"; version; emoteIdentifier; formatType]
                       ++ splitByte "/" rest)%list) (length P + 3)) as [Hshort|_].
  { rewrite !length_app in Hshort. cbn [length] in Hshort. lia. }
  rewrite (lookup_app_r P _ (length P + 2)) by lia.
  rewrite (lookup_app_r P _ (length P + 3)) by lia.
  replace (length P + 2 - length P) with 2 by lia.
  replace (length P + 3 - length P) with 3 by lia.
  cbn [app lookup list_lookup].
  f_equal. f_equal. unfold Join.
  rewrite take_app_ge by lia.
  replace (length P + 4 - length P) with 4 by lia. cbn [firstn app].
  rewrite ?take_0.
  assert (HP : P <> []) by apply splitByte_not_nil.
  replace (P ++ ["emoticons"; version; emoteIdentifier; formatType])%list
    with ((((P ++ ["emoticons"]) ++ [version]) ++ [emoteIdentifier]) ++ [formatType])%list
    by (rewrite <- !app_assoc; reflexivity).
  rewrite !concat_snoc
    by (try exact HP; intros E; apply app_eq_nil in E; destruct E; discriminate).
  fold (Join P "/"). unfold P. rewrite Join_splitByte.
  rewrite !append_assoc. reflexivity.
Qed.

Lemma emotePath_round_trip_witness :
  emotePath ("https://static-cdn.jtvnw.net" +:+ "/emoticons/" +:+ "v2" +:+ "/" +:+ "999"
             +:+ "/" +:+ "default" +:+ "/" +:+ "1.0")
  = Some ("999", "default",
          "https://static-cdn.jtvnw.net" +:+ "/emoticons/" +:+ "v2" +:+ "/" +:+ "999"
          +:+ "/" +:+ "default").
Proof.
  rewrite <- !append_assoc.
  apply (emotePath_round_trip "https://static-cdn.jtvnw.net" "v2" "999" "default" "1.0");
    try reflexivity.
  intros part Hin. vm_compute in Hin.
  repeat (apply elem_of_cons in Hin; destruct Hin as [->|Hin]; [discriminate|]).
  inversion Hin.
Defined.

End PathRoundTrip.

(** * Further properties of the downloader *)

Section DownloaderMore.
Import Go TweDlp.
Context `{Library} {World : Type} `{System World}.

(** X9: the calls of a turn of the size loop are these and no others. A
    turn whose request cannot be built makes none. Otherwise it sends the
    one request for the size; when the request is not answered it does
    nothing more. When it is answered with status 200 it creates the file of
    the size in the folder of the emote, and when the file is created it
    copies the body into it and closes the file, once. Whenever the request
    is answered, whatever happens then, the turn closes the body of the
    answer, once, as its last call. *)
Theorem downloadSize_calls (httpClient : Client World)
    (emoteBaseURL safeEmoteCode emoteFolder sizeValue : string) (st : State World) :
  let imageURL := emoteBaseURL +:+ "/light/" +:+ sizeValue in
  let st' := (downloadSize httpClient emoteBaseURL safeEmoteCode emoteFolder sizeValue st).2 in
  calls st'
  = (calls st
     ++ match http_NewRequest "GET" imageURL None with
        | Err _ => []
        | Ok _ =>
            callDo (assetRequest imageURL)
            :: match httpClient (assetRequest imageURL) (world st) with
               | (Err _, _) => []
               | (Ok response, w1) =>
                   let outputPath :=
                     filepath_Join emoteFolder
                       (assetFileName safeEmoteCode sizeValue
                          (determineFileExtension (ContentType response))) in
                   (if (StatusCode response =? StatusOK)%nat then
                      callCreate outputPath
                      :: match os_Create outputPath w1 with
                         | (Err _, _) => []
                         | (Ok outputFile, _) =>
                             [callCopy outputFile (Body response);
                              callCloseFile outputFile]
                         end
                    else [])
                   ++ [callCloseBody (Body response)]
               end
        end)%list.
Proof.
  cbv zeta. unfold downloadSize, Do, Create, Copy, assetFileName.
  destruct (http_NewRequest "GET" (emoteBaseURL +:+ "/light/" +:+ sizeValue) None)
    as [request|err] eqn:Hreq; [|symmetry; apply app_nil_r].
  assert (Hrequest : Header_Set "User-Agent" defaultUserAgent request
                     = assetRequest (emoteBaseURL +:+ "/light/" +:+ sizeValue)).
  { unfold http_NewRequest in Hreq.
    destruct (url_Parse (emoteBaseURL +:+ "/light/" +:+ sizeValue)); [|discriminate Hreq].
    inversion Hreq. reflexivity. }
  rewrite Hrequest.
  run. destruct (httpClient _ (world st)) as [[response|err] w1]; [|reflexivity].
  step. destruct (StatusCode response =? StatusOK)%nat; cbn [negb].
  2:{ step. rewrite <- !app_assoc. reflexivity. }
  step. destruct (os_Create _ w1) as [[outputFile|err] w2].
  2:{ step. rewrite <- !app_assoc. reflexivity. }
  step. destruct (io_Copy outputFile (Body response) w2) as [[err|] w3];
    step; rewrite <- !app_assoc; reflexivity.
Qed.

Lemma determineFileExtension_values (contentType : string) :
  determineFileExtension contentType ∈ ["gif"; "jpg"; "png"; "img"].
Proof.
  unfold determineFileExtension.
  destruct (Contains _ "gif"); [left|].
  destruct (Contains _ "jpeg" || Contains _ "jpg"); [right; left|].
  destruct (Contains _ "png"); [right; right; left|right; right; right; left].
Qed.

Lemma downloadSize_confined (httpClient : Client World)
    (emoteBaseURL safeEmoteCode emoteFolder sizeValue : string) (st : State World) :
  sizeValue ∈ emoteSizeList ->
  exists newCalls,
    calls (downloadSize httpClient emoteBaseURL safeEmoteCode emoteFolder sizeValue st).2
    = (calls st ++ newCalls)%list
    /\ Forall (emoteCall emoteBaseURL safeEmoteCode emoteFolder) newCalls.
Proof.
  intros Hsize.
  assert (Hdo : emoteCall emoteBaseURL safeEmoteCode emoteFolder
                  (callDo (assetRequest (emoteBaseURL +:+ "/light/" +:+ sizeValue)))).
  { exists sizeValue. split; [exact Hsize|reflexivity]. }
  assert (Hcreate : forall contentType,
            emoteCall emoteBaseURL safeEmoteCode emoteFolder
              (callCreate (filepath_Join emoteFolder
                             (safeEmoteCode +:+ "_" +:+ sizeValue +:+ "."
                              +:+ determineFileExtension contentType)))).
  { intros contentType. exists sizeValue, (determineFileExtension contentType).
    split; [exact Hsize|]. split; [apply determineFileExtension_values|reflexivity]. }
  unfold downloadSize, http_NewRequest, Do, Create, Copy.
  destruct (url_Parse (emoteBaseURL +:+ "/light/" +:+ sizeValue)) as [parsed|err].
  2:{ exists []. split; [symmetry; apply app_nil_r|constructor]. }
  change (Header_Set "User-Agent" defaultUserAgent
            (mkRequest "GET" (emoteBaseURL +:+ "/light/" +:+ sizeValue) [] None))
    with (assetRequest (emoteBaseURL +:+ "/light/" +:+ sizeValue)).
  run. destruct (httpClient _ (world st)) as [[response|err] w1].
  2:{ eexists [_]. split; [reflexivity|]. repeat constructor. exact Hdo. }
  step. destruct (negb (StatusCode response =? StatusOK)%nat).
  { step. eexists [_; _]. split; [rewrite <- !app_assoc; reflexivity|].
    repeat constructor. exact Hdo. }
  step. destruct (os_Create _ w1) as [[outputFile|err] w2].
  2:{ step. eexists [_; _; _]. split; [rewrite <- !app_assoc; reflexivity|].
      repeat constructor; [exact Hdo|apply Hcreate]. }
  step. destruct (io_Copy outputFile (Body response) w2) as [[err|] w3]; step;
    (eexists [_; _; _; _; _]; split; [rewrite <- !app_assoc; reflexivity|];
     repeat constructor; [exact Hdo|apply Hcreate]).
Qed.

(** The download of one emote never makes a call outside its own business:
    it makes its folder, requests nothing but the three sizes of the emote
    under its base URL, creates nothing but files of those sizes inside the
    folder, named after the sanitized code with one of the four extensions,
    and copies and closes what it opened. *)
Lemma downloadEmoteImages_confined (httpClient : Client World)
    (emoteIdentifier : string) (emoteData : EmoteData) (outputRoot : string)
    (st : State World) :
  let safeEmoteCode := makeSafeName (EmoteCode emoteData) in
  let emoteFolder := filepath_Join outputRoot safeEmoteCode in
  exists newCalls,
    calls (downloadEmoteImages httpClient emoteIdentifier emoteData outputRoot st).2
    = (calls st ++ newCalls)%list
    /\ Forall (emoteCall (BaseURL emoteData) safeEmoteCode emoteFolder) newCalls.
Proof.
  cbv zeta. unfold downloadEmoteImages, MkdirAll.
  set (safe := makeSafeName (EmoteCode emoteData)).
  set (folder := filepath_Join outputRoot safe). run.
  destruct (os_MkdirAll folder (world st)) as [[err|] w1]; step.
  { eexists [_]. split; [reflexivity|]. repeat constructor. }
  set (st1 := mkState w1 (calls st ++ [callMkdirAll folder]) (stdout st)).
  unfold emoteSizeList. cbn [forEach]. run.
  destruct (downloadSize_confined httpClient (BaseURL emoteData) safe folder "1.0" st1)
    as (c1 & Hc1 & Hall1); [left|].
  destruct (downloadSize httpClient (BaseURL emoteData) safe folder "1.0" st1)
    as [[] st2]. cbn [snd] in Hc1. step.
  destruct (downloadSize_confined httpClient (BaseURL emoteData) safe folder "2.0" st2)
    as (c2 & Hc2 & Hall2); [right; left|].
  destruct (downloadSize httpClient (BaseURL emoteData) safe folder "2.0" st2)
    as [[] st3]. cbn [snd] in Hc2. step.
  destruct (downloadSize_confined httpClient (BaseURL emoteData) safe folder "3.0" st3)
    as (c3 & Hc3 & Hall3); [right; right; left|].
  destruct (downloadSize httpClient (BaseURL emoteData) safe folder "3.0" st3)
    as [[] st4]. cbn [snd] in Hc3. step.
  exists ([callMkdirAll folder] ++ c1 ++ c2 ++ c3)%list. split.
  - rewrite Hc3, Hc2, Hc1. unfold st1. cbn [calls]. rewrite <- !app_assoc. reflexivity.
  - apply Forall_app. split; [repeat constructor|].
    apply Forall_app. split; [exact Hall1|].
    apply Forall_app. split; assumption.
Qed.

(** What [fetchDocument] does to the state: it prints nothing; when it
    succeeds it has made the request and parsed the body, which it leaves
    open; when it fails after an answer it has closed the body. *)
Lemma fetchDocument_calls (httpClient : Client World) (pageURL : string)
    (st : State World) :
  let request := mkRequest "GET" pageURL [("User-Agent", defaultUserAgent)] None in
  let st1 := (fetchDocument httpClient pageURL st).2 in
  stdout st1 = stdout st
  /\ match (fetchDocument httpClient pageURL st).1 with
     | Ok (document, response) =>
         calls st1 = (calls st ++ [callDo request;
                                   callNewDocument (Body response)])%list
     | Err _ =>
         calls st1 = calls st
         \/ calls st1 = (calls st ++ [callDo request])%list
         \/ exists body,
              calls st1 = (calls st ++ [callDo request; callNewDocument body;
                                        callCloseBody body])%list
     end.
Proof.
  cbv zeta. unfold fetchDocument, http_NewRequest, Do, NewDocumentFromReader.
  destruct (url_Parse pageURL) as [parsed|err]; [|split; [reflexivity|left; reflexivity]].
  cbn [Header_Set]. run.
  destruct (httpClient _ (world st)) as [[response|err] w1]; step;
    [|split; [reflexivity|right; left; reflexivity]].
  destruct (goquery_NewDocumentFromReader (Body response) w1) as [[document|err] w2]; step.
  - split; [reflexivity|]. rewrite <- !app_assoc. reflexivity.
  - split; [reflexivity|]. right. right. exists (Body response).
    rewrite <- !app_assoc. reflexivity.
Qed.

(** The ways in which a run stops with an error: each leaves the output as
    it was and has made one of four sequences of calls. *)
Lemma downloadChannelEmotes_stops (httpClient : Client World) (channelID : string)
    (st : State World) (err : error) :
  (downloadChannelEmotes httpClient channelID st).1 = Some err ->
  let st' := (downloadChannelEmotes httpClient channelID st).2 in
  stdout st' = stdout st
  /\ (calls st' = calls st
      \/ calls st' = (calls st ++ [callDo (pageRequest channelID)])%list
      \/ (exists body,
            calls st' = (calls st ++ [callDo (pageRequest channelID);
                                      callNewDocument body; callCloseBody body])%list)
      \/ (exists body outputRoot,
            calls st' = (calls st ++ [callDo (pageRequest channelID);
                                      callNewDocument body; callMkdirAll outputRoot;
                                      callCloseBody body])%list)).
Proof.
  cbv zeta. intros Hfail.
  pose proof (fetchDocument_calls httpClient
                (twitchemotesBaseURL +:+ "/channels/" +:+ channelID) st) as Hfetch.
  cbv zeta in Hfetch. destruct Hfetch as [Hout Hcalls].
  change (mkRequest "GET" (twitchemotesBaseURL +:+ "/channels/" +:+ channelID)
            [("User-Agent", defaultUserAgent)] None)
    with (pageRequest channelID) in Hcalls.
  destruct (fetchDocument httpClient
              (twitchemotesBaseURL +:+ "/channels/" +:+ channelID) st)
    as [[[document response]|fetchErr] st1] eqn:Hrun; cbn [fst snd] in Hout, Hcalls.
  - destruct (Nat.eqb_spec (StatusCode response) StatusOK) as [Hstatus|Hstatus].
    + destruct (os_MkdirAll (channelFolder document channelID) (world st1))
        as [[mkErr|] w1] eqn:Hmk.
      * revert Hfail. unfold downloadChannelEmotes. rewrite bind_run, Hrun, bind_run.
        rewrite Hstatus. cbn [Nat.eqb negb StatusOK].
        fold (channelFolder document channelID). unfold MkdirAll. run.
        rewrite Hmk. step. intros _. split; [exact Hout|].
        right. right. right. exists (Body response), (channelFolder document channelID).
        rewrite Hcalls, <- !app_assoc. reflexivity.
      * destruct (downloadChannelEmotes_run httpClient channelID st st1 document
                    response Hrun Hstatus)
          as (st' & intro & w & blocks & Hnone & _).
        { rewrite Hmk. reflexivity. }
        rewrite Hnone in Hfail. discriminate Hfail.
    + unfold downloadChannelEmotes in *. rewrite bind_run, Hrun, bind_run in *.
      apply Nat.eqb_neq in Hstatus. rewrite Hstatus in *. cbn [negb] in *.
      revert Hfail. run. intros _. split; [exact Hout|].
      right. right. left. exists (Body response).
      rewrite Hcalls, <- !app_assoc. reflexivity.
  - unfold downloadChannelEmotes. rewrite bind_run, Hrun. run.
    split; [exact Hout|].
    destruct Hcalls as [Hcalls|[Hcalls|[body Hcalls]]].
    + left. exact Hcalls.
    + right. left. exact Hcalls.
    + right. right. left. exists body. exact Hcalls.
Qed.

(** What [fetchDocument] returns and how it leaves the state, read off the
    answers of the world. *)
Lemma fetchDocument_run (httpClient : Client World) (pageURL : string)
    (st : State World) :
  fetchDocument httpClient pageURL st
  = match http_NewRequest "GET" pageURL None with
    | Err err => (Err err, st)
    | Ok _ =>
        match httpClient (assetRequest pageURL) (world st) with
        | (Err err, w1) =>
            (Err err, mkState w1 (calls st ++ [callDo (assetRequest pageURL)]) (stdout st))
        | (Ok response, w1) =>
            match goquery_NewDocumentFromReader (Body response) w1 with
            | (Err err, w2) =>
                (Err err,
                 mkState w2
                   (calls st ++ [callDo (assetRequest pageURL);
                                 callNewDocument (Body response);
                                 callCloseBody (Body response)])
                   (stdout st))
            | (Ok document, w2) =>
                (Ok (document, response),
                 mkState w2
                   (calls st ++ [callDo (assetRequest pageURL);
                                 callNewDocument (Body response)])
                   (stdout st))
            end
        end
    end.
Proof.
  unfold fetchDocument, http_NewRequest, Do, NewDocumentFromReader.
  destruct (url_Parse pageURL) as [parsed|err]; [|reflexivity].
  change (Header_Set "User-Agent" defaultUserAgent (mkRequest "GET" pageURL [] None))
    with (assetRequest pageURL).
  run. destruct (httpClient _ (world st)) as [[response|err] w1]; step; [|reflexivity].
  destruct (goquery_NewDocumentFromReader (Body response) w1) as [[document|err] w2];
    step; rewrite <- !app_assoc; reflexivity.
Qed.

(** X10: a run that returns an error has printed nothing, and its calls are
    these and no others: none when the request for the page cannot be
    built; otherwise the request for the page of the channel, and nothing
    more when it is not answered; when it is answered, the parsing of the
    body of the answer, then, when the document is parsed and the status is
    200, the making of the folder of the channel, and last the closing of
    the body of the answer. So it has created no file and requested no
    image. *)
Theorem downloadChannelEmotes_failure (httpClient : Client World) (channelID : string)
    (st : State World) (err : error) :
  (downloadChannelEmotes httpClient channelID st).1 = Some err ->
  let pageURL := twitchemotesBaseURL +:+ "/channels/" +:+ channelID in
  let st' := (downloadChannelEmotes httpClient channelID st).2 in
  stdout st' = stdout st
  /\ calls st'
     = (calls st
        ++ match http_NewRequest "GET" pageURL None with
           | Err _ => []
           | Ok _ =>
               callDo (pageRequest channelID)
               :: match httpClient (pageRequest channelID) (world st) with
                  | (Err _, _) => []
                  | (Ok response, w1) =>
                      callNewDocument (Body response)
                      :: match goquery_NewDocumentFromReader (Body response) w1 with
                         | (Err _, _) => []
                         | (Ok document, _) =>
                             if (StatusCode response =? StatusOK)%nat then
                               [callMkdirAll (channelFolder document channelID)]
                             else []
                         end
                      ++ [callCloseBody (Body response)]
                  end
           end)%list.
Proof.
  cbv zeta. intros Hfail.
  pose proof (fetchDocument_run httpClient
                (twitchemotesBaseURL +:+ "/channels/" +:+ channelID) st) as Hfetch.
  change (assetRequest (twitchemotesBaseURL +:+ "/channels/" +:+ channelID))
    with (pageRequest channelID) in Hfetch.
  destruct (http_NewRequest "GET" (twitchemotesBaseURL +:+ "/channels/" +:+ channelID)
              None) as [request|requestErr].
  2:{ unfold downloadChannelEmotes. rewrite bind_run, Hfetch. run.
      split; [reflexivity|symmetry; apply app_nil_r]. }
  destruct (httpClient (pageRequest channelID) (world st)) as [[response|doErr] w1].
  2:{ unfold downloadChannelEmotes. rewrite bind_run, Hfetch. run.
      split; reflexivity. }
  destruct (goquery_NewDocumentFromReader (Body response) w1)
    as [[document|parseErr] w2].
  2:{ unfold downloadChannelEmotes. rewrite bind_run, Hfetch. run.
      split; reflexivity. }
  destruct (Nat.eqb_spec (StatusCode response) StatusOK) as [Hstatus|Hstatus].
  - destruct (os_MkdirAll (channelFolder document channelID) w2)
      as [[mkErr|] w3] eqn:Hmk.
    + unfold downloadChannelEmotes. rewrite bind_run, Hfetch, bind_run.
      rewrite Hstatus. cbn [Nat.eqb negb StatusOK].
      fold (channelFolder document channelID). unfold MkdirAll. run.
      rewrite Hmk. step. split; [reflexivity|].
      rewrite <- !app_assoc. reflexivity.
    + destruct (downloadChannelEmotes_run httpClient channelID st _ document
                  response Hfetch Hstatus)
        as (st' & intro & w & blocks & Hnone & _).
      { cbn [world]. rewrite Hmk. reflexivity. }
      rewrite Hnone in Hfail. discriminate Hfail.
  - unfold downloadChannelEmotes. rewrite bind_run, Hfetch, bind_run.
    apply Nat.eqb_neq in Hstatus. rewrite Hstatus. cbn [negb]. run.
    split; [reflexivity|]. rewrite <- !app_assoc. reflexivity.
Qed.

Lemma traces_ret {A : Type} (P : Call -> Prop) (a : A) :
  traces (World := World) P (mret a).
Proof. intros st. exists []. split; [symmetry; apply app_nil_r|constructor]. Qed.

Lemma traces_bind {A B : Type} (P : Call -> Prop) (m : M World A) (f : A -> M World B) :
  traces P m -> (forall a, traces P (f a)) -> traces P (m ≫= f).
Proof.
  intros Hm Hf st. rewrite bind_run.
  destruct (Hm st) as (calls1 & Hcalls1 & Hall1).
  destruct (m st) as [a st1]. cbn [snd] in Hcalls1.
  destruct (Hf a st1) as (calls2 & Hcalls2 & Hall2).
  exists (calls1 ++ calls2)%list. split.
  - rewrite Hcalls2, Hcalls1, app_assoc. reflexivity.
  - apply Forall_app. split; assumption.
Qed.

Lemma traces_perform {A : Type} (P : Call -> Prop) (c : Call) (f : World -> A * World) :
  P c -> traces P (perform c f).
Proof.
  intros Hc st. unfold perform. destruct (f (world st)) as [a w].
  exists [c]. split; [reflexivity|]. constructor; [exact Hc|constructor].
Qed.

Lemma traces_Printf (P : Call -> Prop) (format : string) (operands : list operand) :
  traces (World := World) P (Printf format operands).
Proof. intros st. exists []. split; [symmetry; apply app_nil_r|constructor]. Qed.

Lemma traces_forEach {A : Type} (P : Call -> Prop) (l : list A)
    (body : A -> M World unit) :
  (forall a, a ∈ l -> traces P (body a)) -> traces P (forEach l body).
Proof.
  induction l as [|a l IH]; intros Hbody; cbn [forEach].
  - apply traces_ret.
  - apply traces_bind; [apply Hbody; left|].
    intros _. apply IH. intros b Hb. apply Hbody. right. exact Hb.
Qed.

Lemma traces_rangeMap {V B : Type} (P : Call -> Prop) (m : gmap string V)
    (f : list (string * V) -> M World B) :
  (forall w, traces P (f (rangeOrder V w m))) -> traces P (rangeMap m ≫= f).
Proof. intros Hf st. rewrite bind_run. unfold rangeMap. apply Hf. Qed.

Lemma traces_impl {A : Type} (P Q : Call -> Prop) (m : M World A) :
  (forall c, P c -> Q c) -> traces P m -> traces Q m.
Proof.
  intros HPQ Hm st. destruct (Hm st) as (newCalls & Hcalls & Hall).
  exists newCalls. split; [exact Hcalls|]. eapply Forall_impl; eassumption.
Qed.

(** X11: a run never makes a call outside its own business. When
    [fetchDocument] fails, all it did is ask for the page of the channel and
    parse or close an answer. When [fetchDocument] returns the document and
    the answer, the run began with the request for the page and the parsing
    of the body of that answer, and every call after these two is the
    making of the folder of the channel, the closing of the body of that
    answer, or a call of the download of an emote that the mapping of the
    document holds: the making of the folder of the emote inside the folder
    of the channel, a request for one of the three sizes under the base URL
    of the emote, the creation of a file of such a size inside the folder of
    the emote, a copy or a close. *)
Theorem downloadChannelEmotes_confined (httpClient : Client World) (channelID : string)
    (st : State World) :
  let run := downloadChannelEmotes httpClient channelID st in
  match (fetchDocument httpClient
           (twitchemotesBaseURL +:+ "/channels/" +:+ channelID) st).1 with
  | Ok (document, response) =>
      exists rest,
        calls run.2
        = (calls st ++ [callDo (pageRequest channelID); callNewDocument (Body response)]
           ++ rest)%list
        /\ Forall (documentCall channelID document response) rest
  | Err _ =>
      exists newCalls,
        calls run.2 = (calls st ++ newCalls)%list
        /\ Forall (fetchCall channelID) newCalls
  end.
Proof.
  cbv zeta.
  pose proof (fetchDocument_calls httpClient
                (twitchemotesBaseURL +:+ "/channels/" +:+ channelID) st) as Hfetch.
  cbv zeta in Hfetch. destruct Hfetch as [_ Hcalls].
  change (mkRequest "GET" (twitchemotesBaseURL +:+ "/channels/" +:+ channelID)
            [("User-Agent", defaultUserAgent)] None)
    with (pageRequest channelID) in Hcalls.
  assert (Hpage : fetchCall channelID (callDo (pageRequest channelID)))
    by reflexivity.
  unfold downloadChannelEmotes. rewrite bind_run.
  destruct (fetchDocument httpClient
              (twitchemotesBaseURL +:+ "/channels/" +:+ channelID) st)
    as [[[document response]|err] st1]; cbn [fst snd] in Hcalls |- *.
  2:{ unfold mret, M_ret. cbn [snd].
      destruct Hcalls as [Hcalls|[Hcalls|[body Hcalls]]].
      - exists []. split; [rewrite Hcalls, app_nil_r; reflexivity|constructor].
      - eexists. split; [exact Hcalls|]. each_call Hpage.
      - eexists. split; [exact Hcalls|]. each_call Hpage. }
  fold (channelFolder document channelID).
  match goal with
  | |- context [calls (?rest st1).2] =>
      assert (Hrest : traces (documentCall channelID document response) rest)
  end.
  { apply traces_bind.
    2:{ intros result. apply traces_bind; [|intros _; apply traces_ret].
        apply traces_perform. right. left. reflexivity. }
    destruct (negb (StatusCode response =? StatusOK)%nat); [apply traces_ret|].
    apply traces_bind; [apply traces_perform; left; reflexivity|].
    intros [err|]; [apply traces_ret|].
    apply traces_bind; [apply traces_Printf|]. intros _.
    apply traces_bind.
    { destruct (negb (String.eqb (getChannelDisplayName document) ""));
        [apply traces_Printf|apply traces_ret]. }
    intros _. apply traces_bind; [apply traces_Printf|]. intros _.
    apply traces_bind; [apply traces_Printf|]. intros _.
    apply traces_bind; [apply traces_Printf|]. intros _.
    destruct (size (collectEmoteMetadata document) =? 0)%nat; [apply traces_ret|].
    apply traces_rangeMap. intros w.
    apply traces_bind; [|intros _; apply traces_ret].
    apply traces_forEach. intros [emoteIdentifier emoteData] Hentry.
    apply traces_bind; [apply traces_Printf|]. intros _.
    apply (traces_impl
             (emoteCall (BaseURL emoteData) (makeSafeName (EmoteCode emoteData))
                (filepath_Join (channelFolder document channelID)
                   (makeSafeName (EmoteCode emoteData))))).
    - intros c Hc. right. right. exists emoteIdentifier, emoteData. split; [|exact Hc].
      apply elem_of_map_to_list.
      rewrite <- (rangeOrder_perm EmoteData w (collectEmoteMetadata document)).
      exact Hentry.
    - intros st2. apply downloadEmoteImages_confined. }
  destruct (Hrest st1) as (calls2 & Hcalls2 & Hall2).
  exists calls2. split; [|exact Hall2].
  rewrite Hcalls2, Hcalls, <- !app_assoc. reflexivity.
Qed.

End DownloaderMore.

(** A sample of a run that stops: the page of the channel is missing. *)
Lemma downloadChannelEmotes_failure_witness :
  let httpClient : Go.Client unit := fun request w =>
    (Go.Ok (Go.mkResponse (Go.RequestURL request) 404 "404 Not Found" "text/html" 1), w) in
  let run :=
    @TweDlp.downloadChannelEmotes plainLibrary unit sampleSystem httpClient "12345"
      startState in
  run.1 = Some (Go.fmt_Errorf "request failed with status %s" [Go.opString "404 Not Found"])
  /\ Go.stdout run.2 = []
  /\ Go.calls run.2
     = [Go.callDo (pageRequest "12345"); Go.callNewDocument 1; Go.callCloseBody 1].
Proof.
  cbv zeta. split; [reflexivity|].
  exact (downloadChannelEmotes_failure (H := plainLibrary) (H0 := sampleSystem)
           (fun request w =>
              (Go.Ok (Go.mkResponse (Go.RequestURL request) 404 "404 Not Found"
                        "text/html" 1), w))
           "12345" startState _ eq_refl).
Defined.

(** * The entry point *)

Section MainFacts.
Import Go TweDlp.
Context `{Library} {World : Type} `{System World} `{Console World}.

(** The resolver prints nothing, and its calls come before any download. *)
Lemma resolve_trace (httpClient : Client World) (channelIdentifier : string)
    (st : State World) :
  let st' := (resolveChannelIdentifierToID httpClient channelIdentifier st).2 in
  stdout st' = stdout st
  /\ exists newCalls,
       calls st' = (calls st ++ newCalls)%list /\ Forall preparation newCalls.
Proof.
  cbv zeta.
  assert (Hsearch : preparation (callDo (searchRequest channelIdentifier))).
  { left. exists channelIdentifier. reflexivity. }
  unfold resolveChannelIdentifierToID.
  destruct (String.eqb channelIdentifier "");
    [split; [reflexivity|exists []; split; [symmetry; apply app_nil_r|constructor]]|].
  destruct (isNumeric channelIdentifier);
    [split; [reflexivity|exists []; split; [symmetry; apply app_nil_r|constructor]]|].
  destruct (http_NewRequest _ _ _) as [request|err] eqn:Hreq;
    [|split; [reflexivity|exists []; split; [symmetry; apply app_nil_r|constructor]]].
  rewrite (searchRequest_built _ _ Hreq).
  unfold Do, ReadAll. run.
  destruct (httpClient _ (world st)) as [[response|err] w1] eqn:Hdo.
  2:{ split; [reflexivity|]. eexists. split; [reflexivity|]. each_call Hsearch. }
  step. destruct (channelURLPattern_Find (finalURL response)) as [id|].
  { step. split; [reflexivity|]. eexists [_; _].
    split; [rewrite <- !app_assoc; reflexivity|]. each_call Hsearch. }
  step. destruct (io_ReadAll (Body response) w1) as [[bodyText|err] w2].
  - step. destruct (channelURLPattern_Find bodyText) as [id|];
      (step; split; [reflexivity|]; eexists [_; _; _];
       split; [rewrite <- !app_assoc; reflexivity|]; each_call Hsearch).
  - step. split; [reflexivity|]. eexists [_; _; _].
    split; [rewrite <- !app_assoc; reflexivity|]. each_call Hsearch.
Qed.

(** What [main] does before it resolves: it reads the identifier off the
    arguments without a word, or prompts once and reads a line. *)
Lemma main_reads (Args : list string) (st : State World) :
  let read :=
    if (2 <=? length Args)%nat then (Ok (TrimSpace (nth 1 Args "")), st)
    else readStdinLine "Enter Twitch channel name or numeric ID: " st in
  calls read.2 = calls st
  /\ stdout read.2
     = (stdout st ++ if (2 <=? length Args)%nat then [] else [promptLine])%list.
Proof.
  cbv zeta. destruct (2 <=? length Args)%nat.
  - split; [reflexivity|symmetry; apply app_nil_r].
  - unfold readStdinLine, Print, ReadString. run.
    destruct (bufio_ReadString (world st)) as [[line|err] w]; split; reflexivity.
Qed.

(** X12: [main] ends with status 0 or 1, and a failure is never silent: the
    status is 1 exactly when one line was written to the standard error, and
    0 exactly when none was. *)
Theorem main_status (httpClient : Client World) (Args : list string)
    (p : Process World) :
  let result := main httpClient Args p in
  (result.1 = 0 /\ stderr result.2 = stderr p)
  \/ (result.1 = 1 /\ exists line, stderr result.2 = (stderr p ++ [line])%list).
Proof.
  cbv zeta. unfold main, Fprintf_Stderr.
  destruct (if (2 <=? length Args)%nat then _ else _) as [[channelIdentifier|err] st];
    [|right; split; [reflexivity|eexists; reflexivity]].
  destruct (String.eqb channelIdentifier "");
    [right; split; [reflexivity|eexists; reflexivity]|].
  destruct (resolveChannelIdentifierToID httpClient channelIdentifier st)
    as [[channelID|err] st1];
    [|right; split; [reflexivity|eexists; reflexivity]].
  destruct (downloadChannelEmotes httpClient channelID st1) as [[err|] st2];
    [right; split; [reflexivity|eexists; reflexivity]|].
  left. split; reflexivity.
Qed.

(** X13: when [main] ends with status 1, nothing was downloaded: every call
    it made comes before any download (no file was created, no image
    requested), and it printed nothing but the prompt, and that only when
    there was no argument. *)
Theorem main_failure (httpClient : Client World) (Args : list string)
    (p : Process World) :
  (main httpClient Args p).1 = 1 ->
  let p' := (main httpClient Args p).2 in
  stdout (state p')
  = (stdout (state p) ++ if (2 <=? length Args)%nat then [] else [promptLine])%list
  /\ exists newCalls,
       calls (state p') = (calls (state p) ++ newCalls)%list
       /\ Forall preparation newCalls.
Proof.
  cbv zeta. pose proof (main_reads Args (state p)) as Hread. cbv zeta in Hread.
  unfold main, Fprintf_Stderr.
  destruct (if (2 <=? length Args)%nat then _ else _) as [[channelIdentifier|err] st].
  2:{ intros _. cbn [fst snd state] in *. destruct Hread as [Hcalls Hout].
      split; [exact Hout|]. exists []. split; [rewrite Hcalls, app_nil_r; reflexivity|].
      constructor. }
  cbn [fst snd] in Hread. destruct Hread as [Hcalls Hout].
  destruct (String.eqb channelIdentifier "").
  { intros _. cbn [fst snd state]. split; [exact Hout|].
    exists []. split; [rewrite Hcalls, app_nil_r; reflexivity|constructor]. }
  pose proof (resolve_trace httpClient channelIdentifier st) as Hresolve.
  cbv zeta in Hresolve.
  destruct (resolveChannelIdentifierToID httpClient channelIdentifier st)
    as [[channelID|err] st1]; cbn [fst snd] in Hresolve;
    destruct Hresolve as (Hout1 & calls1 & Hcalls1 & Hall1).
  2:{ intros _. cbn [fst snd state]. split; [rewrite Hout1; exact Hout|].
      exists calls1. split; [rewrite Hcalls1, Hcalls; reflexivity|exact Hall1]. }
  pose proof (downloadChannelEmotes_stops httpClient channelID st1) as Hstops.
  destruct (downloadChannelEmotes httpClient channelID st1) as [[err|] st2];
    [|intros Hcode; discriminate Hcode].
  intros _. cbn [fst snd state]. destruct (Hstops err eq_refl) as [Hout2 Hcalls2].
  cbn [fst snd] in Hout2, Hcalls2.
  split; [rewrite Hout2, Hout1; exact Hout|].
  assert (Hpage : preparation (callDo (pageRequest channelID))).
  { right. exists channelID. reflexivity. }
  destruct Hcalls2 as [Hc|[Hc|[[body Hc]|(body & outputRoot & Hc)]]].
  { exists calls1. split; [rewrite Hc, Hcalls1, Hcalls; reflexivity|exact Hall1]. }
  all: rewrite Hc, Hcalls1, Hcalls, <- app_assoc;
    eexists; (split; [reflexivity|]);
    (apply Forall_app; split; [exact Hall1|]); each_call Hpage.
Qed.

End MainFacts.

Lemma main_failure_witness :
  let result :=
    @TweDlp.main plainLibrary unit sampleSystem sampleConsole sampleClient
      ["twe-dlp"; "  "] (Go.mkProcess startState []) in
  result.1 = 1
  /\ Go.stdout (Go.state result.2) = []
  /\ exists newCalls,
       Go.calls (Go.state result.2) = ([] ++ newCalls)%list
       /\ Forall (preparation (H := plainLibrary)) newCalls.
Proof.
  cbv zeta. split; [reflexivity|].
  exact (main_failure (H := plainLibrary) (H0 := sampleSystem) (H1 := sampleConsole)
           sampleClient ["twe-dlp"; "  "] (Go.mkProcess startState []) eq_refl).
Defined.

(** * The model of the terminal UI *)

Section ModelFacts.
Import Go TweDlpTui.
Context `{Library} `{Fmt} `{Terminal} {World : Type} `{System World}.

Lemma withLogLines_same (m : model (World := World)) : withLogLines (logLines m) m = m.
Proof. destruct m. reflexivity. Qed.

Lemma lastLines_short (n : nat) (lines : list string) :
  length lines <= n -> lastLines n lines = lines.
Proof.
  intros Hlen. unfold lastLines. replace (length lines - n) with 0 by lia. reflexivity.
Qed.

Lemma lastLines_length (n : nat) (lines : list string) :
  length (lastLines n lines) <= n.
Proof. unfold lastLines. rewrite length_drop. lia. Qed.

Lemma lastLines_app (n : nat) (lines more : list string) :
  lastLines n (lastLines n lines ++ more) = lastLines n (lines ++ more).
Proof.
  destruct (Nat.le_gt_cases (length lines) n) as [Hle|Hgt].
  { rewrite (lastLines_short n lines Hle). reflexivity. }
  unfold lastLines. rewrite !length_app, length_drop.
  set (k := length lines - n).
  replace (length lines - k + length more - n) with (length more) by lia.
  replace (length lines + length more - n) with (k + length more) by lia.
  rewrite <- (take_drop k lines) at 2. rewrite <- app_assoc.
  symmetry. apply drop_app_add'. rewrite length_take. lia.
Qed.

Lemma appendLogLine_lines (m : model (World := World)) (line : string) :
  length (logLines m) <= logBufferMaxMessages ->
  appendLogLine m line
  = withLogLines (lastLines logBufferMaxMessages
                    (logLines m ++ List.filter nonEmpty [line])) m.
Proof.
  intros Hlen. unfold appendLogLine, nonEmpty. cbn [List.filter].
  destruct (String.eqb line "").
  - cbn [negb]. rewrite app_nil_r, (lastLines_short _ _ Hlen), withLogLines_same.
    reflexivity.
  - cbn [negb]. destruct m as [input lines busy err client help t1 t2 t3 t4 t5 t6 t7 t8].
    cbn [logLines withLogLines textInput downloading downloadError httpClient showHelp
         styleTitle styleLogPlain styleLogOK styleLogSkip styleLogError
         styleHelpBoxTitle styleHelpBoxBody styleFooter] in *.
    destruct (Nat.ltb_spec logBufferMaxMessages (length (lines ++ [line])%list))
      as [Hlong|Hshort].
    + reflexivity.
    + rewrite (lastLines_short _ _ Hshort). reflexivity.
Qed.

Lemma foldl_appendLogLine (lines : list string) (m : model (World := World)) :
  length (logLines m) <= logBufferMaxMessages ->
  foldl appendLogLine m lines
  = withLogLines (lastLines logBufferMaxMessages
                    (logLines m ++ List.filter nonEmpty lines)) m.
Proof.
  revert m. induction lines as [|line lines IH]; intros m Hlen.
  - cbn [foldl List.filter]. rewrite app_nil_r, (lastLines_short _ _ Hlen).
    symmetry. apply withLogLines_same.
  - cbn [foldl]. rewrite (appendLogLine_lines m line Hlen).
    rewrite IH by (destruct m; apply lastLines_length).
    destruct m as [input old busy err client help t1 t2 t3 t4 t5 t6 t7 t8].
    cbn [logLines withLogLines textInput downloading downloadError httpClient showHelp
         styleTitle styleLogPlain styleLogOK styleLogSkip styleLogError
         styleHelpBoxTitle styleHelpBoxBody styleFooter].
    rewrite lastLines_app, <- app_assoc.
    change (line :: lines) with ([line] ++ lines)%list.
    rewrite List.filter_app. reflexivity.
Qed.

(** X14: what the result of a download does to a model whose log is within
    its bound: the log becomes the last 200 of the old lines, then the
    lines of the result that are not empty, in their order, then the closing
    line; the model is no longer downloading, it keeps the error when there
    is one, the input is emptied and focused, and there is no command. *)
Theorem Update_result (m : model (World := World)) (result : downloadResultMessage) :
  length (logLines m) <= logBufferMaxMessages ->
  let m' := (Update m (resultMsg result)).1 in
  (Update m (resultMsg result)).2 = cmdNil
  /\ logLines m'
     = lastLines logBufferMaxMessages
         (logLines m ++ List.filter nonEmpty (LogLines result ++ [closingLine result]))
  /\ downloading m' = false
  /\ downloadError m'
     = match Error result with Some err => Some err | None => downloadError m end
  /\ textInput m' = textinput_Focus (textinput_SetValue "" (textInput m))
  /\ showHelp m' = showHelp m
  /\ httpClient m' = httpClient m.
Proof.
  cbv zeta. intros Hlen. unfold Update, closingLine. cbn [fst snd].
  rewrite (foldl_appendLogLine (LogLines result) m Hlen).
  set (lines := lastLines logBufferMaxMessages
                  (logLines m ++ List.filter nonEmpty (LogLines result))).
  assert (Hlines : length (logLines (withLogLines lines m)) <= logBufferMaxMessages).
  { destruct m. apply lastLines_length. }
  split; [reflexivity|].
  assert (Hlog : forall line,
            logLines (appendLogLine (withLogLines lines m) line)
            = lastLines logBufferMaxMessages
                (logLines m ++ List.filter nonEmpty (LogLines result ++ [line]))).
  { intros line. rewrite (appendLogLine_lines _ line Hlines).
    destruct m as [input old busy err client help t1 t2 t3 t4 t5 t6 t7 t8].
    cbn [logLines withLogLines]. unfold lines. cbn [logLines].
    rewrite lastLines_app, <- app_assoc, List.filter_app. reflexivity. }
  assert (Hrest : forall line,
            let m1 := appendLogLine (withLogLines lines m) line in
            textInput m1 = textInput m /\ downloadError m1 = downloadError m
            /\ showHelp m1 = showHelp m /\ httpClient m1 = httpClient m).
  { intros line. cbv zeta. rewrite (appendLogLine_lines _ line Hlines).
    destruct m. repeat split. }
  destruct (Error result) as [err|].
  - specialize (Hlog (Sprintf "Error: %v" [opError err])).
    destruct (Hrest (Sprintf "Error: %v" [opError err])) as (Hi & He & Hh & Hc).
    destruct (appendLogLine (withLogLines lines m) (Sprintf "Error: %v" [opError err])).
    cbn in *. subst. repeat split.
  - specialize (Hlog "Download completed.").
    destruct (Hrest "Download completed.") as (Hi & He & Hh & Hc).
    destruct (appendLogLine (withLogLines lines m) "Download completed.").
    cbn in *. subst. repeat split.
Qed.

Lemma appendLogLine_bounded (m : model (World := World)) (line : string) :
  length (logLines m) <= logBufferMaxMessages ->
  length (logLines (appendLogLine m line)) <= logBufferMaxMessages.
Proof.
  intros Hlen. rewrite (appendLogLine_lines m line Hlen).
  destruct m. apply lastLines_length.
Qed.

(** X15: the bound of the log is an invariant of [Update]: whatever the
    message, a model with at most 200 lines in its log is followed by one with
    at most 200 lines, however many lines a result brings. *)
Theorem Update_log_bounded (m : model (World := World)) (message : Msg) :
  length (logLines m) <= logBufferMaxMessages ->
  length (logLines (Update m message).1) <= logBufferMaxMessages.
Proof.
  intros Hlen. destruct message as [msg|result|msg].
  - unfold Update.
    assert (Hhelp : length (logLines (withShowHelp (negb (showHelp m)) m))
                    <= logBufferMaxMessages) by (destruct m; exact Hlen).
    assert (Hinput : forall input,
              length (logLines (withTextInput input m)) <= logBufferMaxMessages)
      by (intros input; destruct m; exact Hlen).
    assert (Hstart : forall line,
              length (logLines (appendLogLine
                                  (withDownloadError None (withDownloading true m)) line))
              <= logBufferMaxMessages).
    { intros line. apply appendLogLine_bounded. destruct m. exact Hlen. }
    assert (Hwarn : forall line,
              length (logLines (if negb (hasExactLogLine m line)
                                then appendLogLine m line else m))
              <= logBufferMaxMessages).
    { intros line.
      destruct (negb (hasExactLogLine m line)); [apply appendLogLine_bounded|];
        exact Hlen. }
    destruct (KeyMsg_Type msg); try exact Hlen;
      destruct (String.eqb (KeyMsg_String msg) "q"); try exact Hlen;
      destruct (String.eqb (KeyMsg_String msg) "?"); try exact Hhelp;
      destruct (downloading m); cbn [negb fst]; try exact Hlen;
      try (destruct (textinput_Update (textInput m) (inl msg)); apply Hinput).
    destruct (String.eqb _ ""); cbn [fst]; [apply Hwarn|apply Hstart].
  - unfold Update. cbn [fst]. rewrite (foldl_appendLogLine (LogLines result) m Hlen).
    set (lines := lastLines logBufferMaxMessages
                    (logLines m ++ List.filter nonEmpty (LogLines result))).
    assert (Hlines : forall line,
              length (logLines (appendLogLine (withLogLines lines m) line))
              <= logBufferMaxMessages).
    { intros line. apply appendLogLine_bounded. destruct m. apply lastLines_length. }
    destruct (Error result) as [err|].
    + specialize (Hlines (Sprintf "Error: %v" [opError err])).
      destruct (appendLogLine (withLogLines lines m) (Sprintf "Error: %v" [opError err])).
      exact Hlines.
    + specialize (Hlines "Download completed.").
      destruct (appendLogLine (withLogLines lines m) "Download completed.").
      exact Hlines.
  - unfold Update. destruct (downloading m); cbn [negb fst]; [exact Hlen|].
    destruct (textinput_Update (textInput m) (inr msg)). cbn [fst].
    destruct m. exact Hlen.
Qed.

(** X16: while a download runs, a message other than its result changes
    nothing but the help flag. A key that quits (Ctrl+C, Esc, q) returns the
    model as it is with the command that quits; the key of the help returns
    the model with the help flag toggled and no command; every other key,
    Enter among them, and every other message returns the model as it is and
    no command, so no second download starts and the text input sees
    nothing. *)
Theorem Update_busy (m : model (World := World)) :
  downloading m = true ->
  (forall msg, quitKey msg -> Update m (keyMsg msg) = (m, tea_Quit))
  /\ (forall msg, helpKey msg ->
      Update m (keyMsg msg) = (withShowHelp (negb (showHelp m)) m, cmdNil))
  /\ (forall msg, plainKey msg -> Update m (keyMsg msg) = (m, cmdNil))
  /\ (forall msg, Update m (otherMsg msg) = (m, cmdNil)).
Proof.
  intros Hbusy. repeat split.
  - intros msg [Htype|[Htype|Htext]]; unfold Update.
    + rewrite Htype. reflexivity.
    + rewrite Htype. reflexivity.
    + rewrite Htext. cbn [String.eqb Ascii.eqb Bool.eqb].
      destruct (KeyMsg_Type msg); reflexivity.
  - intros msg (Hc & He & Htext). unfold Update. rewrite Htext.
    cbn [String.eqb Ascii.eqb Bool.eqb].
    destruct (KeyMsg_Type msg); try reflexivity; [destruct (Hc eq_refl)|destruct (He eq_refl)].
  - intros msg (Hc & He & Hq & Hhelp). unfold Update. rewrite Hbusy. cbn [negb].
    apply String.eqb_neq in Hq. apply String.eqb_neq in Hhelp. rewrite Hq, Hhelp.
    destruct (KeyMsg_Type msg); try reflexivity; [destruct (Hc eq_refl)|destruct (He eq_refl)].
  - intros msg. unfold Update. rewrite Hbusy. reflexivity.
Qed.

(** X17: a download starts in one way only: the message is the key Enter,
    no download is running, and the trimmed input is not empty; the command
    is the download of that trimmed input with the client of the model, and
    the model that follows is marked as downloading, with no error and the
    same input. *)
Theorem Update_starts (m : model (World := World)) (message : Msg)
    (run : M World downloadResultMessage) :
  (Update m message).2 = cmdFunc run ->
  let channelIdentifier := TrimSpace (textinput_Value (textInput m)) in
  let m' := (Update m message).1 in
  (exists msg, message = keyMsg msg /\ KeyMsg_Type msg = KeyEnter)
  /\ downloading m = false
  /\ channelIdentifier <> ""
  /\ run = downloadCommand (httpClient m) channelIdentifier
  /\ downloading m' = true
  /\ downloadError m' = None
  /\ textInput m' = textInput m.
Proof.
  cbv zeta. destruct message as [msg|result|msg].
  - unfold Update.
    destruct (KeyMsg_Type msg) eqn:Htype; try (intros Hcmd; discriminate Hcmd);
      (destruct (String.eqb (KeyMsg_String msg) "q");
       [intros Hcmd; discriminate Hcmd|]);
      (destruct (String.eqb (KeyMsg_String msg) "?");
       [intros Hcmd; discriminate Hcmd|]);
      (destruct (downloading m) eqn:Hbusy; cbn [negb];
       [intros Hcmd; discriminate Hcmd|]);
      try (destruct (textinput_Update (textInput m) (inl msg));
           intros Hcmd; discriminate Hcmd).
    destruct (String.eqb_spec (TrimSpace (textinput_Value (textInput m))) "")
      as [Hblank|Hfilled]; [intros Hcmd; discriminate Hcmd|].
    cbn [fst snd]. intros Hcmd.
    assert (Hfields : forall line,
              let m1 := appendLogLine
                          (withDownloadError None (withDownloading true m)) line in
              httpClient m1 = httpClient m /\ downloading m1 = true
              /\ downloadError m1 = None /\ textInput m1 = textInput m).
    { intros line. cbv zeta. unfold appendLogLine.
      destruct (String.eqb line ""); [destruct m; repeat split|].
      destruct (_ <? _)%nat; destruct m; repeat split. }
    destruct (Hfields (Sprintf "Resolving channel %q..."
                         [opString (TrimSpace (textinput_Value (textInput m)))]))
      as (Hclient & Hdown & Herr & Hinput).
    rewrite Hclient in Hcmd.
    split; [exists msg; split; [reflexivity|exact Htype]|]. split; [reflexivity|].
    split; [exact Hfilled|]. split; [inversion Hcmd; reflexivity|].
    split; [exact Hdown|]. split; [exact Herr|exact Hinput].
  - unfold Update. cbn [snd]. intros Hcmd. discriminate Hcmd.
  - unfold Update. destruct (downloading m); cbn [negb];
      [|destruct (textinput_Update (textInput m) (inr msg))];
      intros Hcmd; discriminate Hcmd.
Qed.

Lemma hasExactLogLine_end (m : model (World := World)) (line : string)
    (lines : list string) :
  hasExactLogLine (withLogLines (lines ++ [line])%list m) line = true.
Proof.
  unfold hasExactLogLine. destruct m. cbn [logLines withLogLines].
  induction lines as [|existing lines IH]; cbn [app].
  - rewrite String.eqb_refl. reflexivity.
  - destruct (String.eqb existing line); [reflexivity|exact IH].
Qed.

Lemma appendLogLine_logged (m : model (World := World)) (line : string) :
  line <> "" -> hasExactLogLine (appendLogLine m line) line = true.
Proof.
  intros Hline. unfold appendLogLine.
  destruct (String.eqb_spec line "") as [Hempty|_]; [destruct (Hline Hempty)|].
  cbv zeta.
  assert (Hlines : logLines (withLogLines (logLines m ++ [line])%list m)
                   = (logLines m ++ [line])%list) by (destruct m; reflexivity).
  rewrite Hlines.
  destruct (Nat.ltb_spec logBufferMaxMessages (length (logLines m ++ [line])%list))
    as [Hlong|Hshort]; [|apply hasExactLogLine_end].
  rewrite length_app in *. cbn [length] in *.
  rewrite drop_app_le by (unfold logBufferMaxMessages in *; lia).
  assert (Hwith : forall l, withLogLines l (withLogLines (logLines m ++ [line])%list m)
                            = withLogLines l m) by (intros l; destruct m; reflexivity).
  rewrite Hwith. apply hasExactLogLine_end.
Qed.

(** X18: Enter on a blank input, when no download runs, starts nothing; the
    model that follows has the warning in its log, it is the same model when
    the warning was there already, and a second Enter leaves it as it is: the
    warning is never logged twice in a row. *)
Theorem Update_blank_enter (m : model (World := World)) (msg : KeyMsg) :
  plainKey msg ->
  KeyMsg_Type msg = KeyEnter ->
  downloading m = false ->
  TrimSpace (textinput_Value (textInput m)) = "" ->
  let m' := (Update m (keyMsg msg)).1 in
  (Update m (keyMsg msg)).2 = cmdNil
  /\ hasExactLogLine m' warningText = true
  /\ (hasExactLogLine m warningText = true -> m' = m)
  /\ Update m' (keyMsg msg) = (m', cmdNil).
Proof.
  intros (_ & _ & Hq & Hhelp) Htype Hidle Hblank. cbv zeta.
  assert (Hstep : forall m0 : model (World := World),
            downloading m0 = false ->
            TrimSpace (textinput_Value (textInput m0)) = "" ->
            Update m0 (keyMsg msg)
            = (if negb (hasExactLogLine m0 warningText)
               then appendLogLine m0 warningText else m0, cmdNil)).
  { intros m0 Hidle0 Hblank0. unfold Update. rewrite Htype.
    destruct (String.eqb_spec (KeyMsg_String msg) "q") as [Heq|_]; [destruct (Hq Heq)|].
    destruct (String.eqb_spec (KeyMsg_String msg) "?") as [Heq|_];
      [destruct (Hhelp Heq)|].
    rewrite Hidle0, Hblank0. reflexivity. }
  rewrite (Hstep m Hidle Hblank). cbn [fst snd].
  split; [reflexivity|].
  destruct (hasExactLogLine m warningText) eqn:Hlogged; cbn [negb].
  - split; [exact Hlogged|]. split; [reflexivity|].
    rewrite (Hstep m Hidle Hblank), Hlogged. reflexivity.
  - assert (Hnow : hasExactLogLine (appendLogLine m warningText) warningText = true)
      by (apply appendLogLine_logged; discriminate).
    split; [exact Hnow|]. split; [intros Habsurd; discriminate Habsurd|].
    rewrite Hstep, Hnow; [reflexivity| |].
    + unfold appendLogLine. cbn [String.eqb Ascii.eqb]. cbv zeta.
      destruct (_ <? _)%nat; destruct m; exact Hidle.
    + unfold appendLogLine. cbn [String.eqb Ascii.eqb]. cbv zeta.
      destruct (_ <? _)%nat; destruct m; exact Hblank.
Qed.

Lemma appendLogLine_no_empty (m : model (World := World)) (line : string) :
  Forall (fun existing => existing <> "") (logLines m) ->
  Forall (fun existing => existing <> "") (logLines (appendLogLine m line)).
Proof.
  intros Hall. unfold appendLogLine.
  destruct (String.eqb_spec line "") as [_|Hline]; [exact Hall|].
  cbv zeta.
  assert (Hnew : Forall (fun existing => existing <> "") (logLines m ++ [line])%list).
  { apply Forall_app. split; [exact Hall|]. constructor; [exact Hline|constructor]. }
  destruct m as [input old busy err client help t1 t2 t3 t4 t5 t6 t7 t8].
  cbn [logLines withLogLines] in *.
  destruct (_ <? _)%nat; cbn [logLines]; [apply Forall_drop|]; exact Hnew.
Qed.

(** X19: the log never holds an empty line: whatever the message, a model
    whose log has none is followed by a model whose log has none, even when
    the lines of a result or the formatted texts are empty. *)
Theorem Update_log_no_empty (m : model (World := World)) (message : Msg) :
  Forall (fun existing => existing <> "") (logLines m) ->
  Forall (fun existing => existing <> "") (logLines (Update m message).1).
Proof.
  intros Hall.
  assert (Hfold : forall lines (m0 : model (World := World)),
            Forall (fun existing => existing <> "") (logLines m0) ->
            Forall (fun existing => existing <> "")
              (logLines (foldl appendLogLine m0 lines))).
  { induction lines as [|line lines IH]; intros m0 Hm0; [exact Hm0|].
    cbn [foldl]. apply IH, appendLogLine_no_empty, Hm0. }
  destruct message as [msg|result|msg].
  - unfold Update.
    assert (Hhelp : Forall (fun existing => existing <> "")
                      (logLines (withShowHelp (negb (showHelp m)) m)))
      by (destruct m; exact Hall).
    assert (Hinput : forall input,
              Forall (fun existing => existing <> "")
                (logLines (withTextInput input m)))
      by (intros input; destruct m; exact Hall).
    assert (Hstart : forall line,
              Forall (fun existing => existing <> "")
                (logLines (appendLogLine
                             (withDownloadError None (withDownloading true m)) line))).
    { intros line. apply appendLogLine_no_empty. destruct m. exact Hall. }
    assert (Hwarn : forall line,
              Forall (fun existing => existing <> "")
                (logLines (if negb (hasExactLogLine m line)
                           then appendLogLine m line else m))).
    { intros line.
      destruct (negb (hasExactLogLine m line)); [apply appendLogLine_no_empty|];
        exact Hall. }
    destruct (KeyMsg_Type msg); try exact Hall;
      destruct (String.eqb (KeyMsg_String msg) "q"); try exact Hall;
      destruct (String.eqb (KeyMsg_String msg) "?"); try exact Hhelp;
      destruct (downloading m); cbn [negb fst]; try exact Hall;
      try (destruct (textinput_Update (textInput m) (inl msg)); apply Hinput).
    destruct (String.eqb _ ""); cbn [fst]; [apply Hwarn|apply Hstart].
  - unfold Update. cbn [fst].
    specialize (Hfold (LogLines result) m Hall).
    set (m1 := foldl appendLogLine m (LogLines result)) in *.
    destruct (Error result) as [err|].
    + pose proof (appendLogLine_no_empty m1 (Sprintf "Error: %v" [opError err]) Hfold)
        as Hlast.
      destruct (appendLogLine m1 (Sprintf "Error: %v" [opError err])). exact Hlast.
    + pose proof (appendLogLine_no_empty m1 "Download completed." Hfold) as Hlast.
      destruct (appendLogLine m1 "Download completed."). exact Hlast.
  - unfold Update. destruct (downloading m); cbn [negb fst]; [exact Hall|].
    destruct (textinput_Update (textInput m) (inr msg)). cbn [fst].
    destruct m. exact Hall.
Qed.

End ModelFacts.

Lemma Update_log_no_empty_witness :
  Forall (fun existing : string => existing <> "")
    (TweDlpTui.logLines
       (TweDlpTui.Update (H := plainLibrary) (H0 := sampleFmt) (H2 := sampleSystem)
          (sampleModel "shroud" ["Resolving channel shroud..."] true)
          (TweDlpTui.resultMsg
             (TweDlpTui.mkDownloadResultMessage None [""; "Found 0 emotes"; ""]))).1).
Proof.
  apply (Update_log_no_empty (H := plainLibrary) (H0 := sampleFmt) (H2 := sampleSystem)).
  constructor; [intros Heq; discriminate Heq|constructor].
Defined.

Lemma Update_result_witness :
  let m := sampleModel "shroud" ["Resolving channel shroud..."] true in
  let result :=
    TweDlpTui.mkDownloadResultMessage None
      ["Channel ID: 12345"; ""; "[ok] Kappa_1.0.png"] in
  let m' :=
    (TweDlpTui.Update (H := plainLibrary) (H0 := sampleFmt) (H2 := sampleSystem) m
       (TweDlpTui.resultMsg result)).1 in
  TweDlpTui.logLines m'
  = ["Resolving channel shroud..."; "Channel ID: 12345"; "[ok] Kappa_1.0.png";
     "Download completed."]
  /\ TweDlpTui.downloading m' = false.
Proof.
  cbv zeta.
  destruct (Update_result (H := plainLibrary) (H0 := sampleFmt) (H2 := sampleSystem)
              (sampleModel "shroud" ["Resolving channel shroud..."] true)
              (TweDlpTui.mkDownloadResultMessage None
                 ["Channel ID: 12345"; ""; "[ok] Kappa_1.0.png"]))
    as (_ & Hlog & Hdown & _).
  - unfold TweDlpTui.logBufferMaxMessages. cbn. lia.
  - split; [exact Hlog|exact Hdown].
Defined.

Lemma Update_log_bounded_witness :
  length (TweDlpTui.logLines
            (TweDlpTui.Update (H := plainLibrary) (H0 := sampleFmt) (H2 := sampleSystem)
               (sampleModel "  " ["Download completed."] false)
               (TweDlpTui.keyMsg (Go.mkKeyMsg Go.KeyEnter "enter"))).1)
  <= TweDlpTui.logBufferMaxMessages.
Proof.
  apply (Update_log_bounded (H := plainLibrary) (H0 := sampleFmt) (H2 := sampleSystem)).
  unfold TweDlpTui.logBufferMaxMessages. cbn. lia.
Defined.

Lemma Update_busy_witness :
  let m := sampleModel "shroud" [] true in
  let step := TweDlpTui.Update (H := plainLibrary) (H0 := sampleFmt) (H2 := sampleSystem) in
  step m (TweDlpTui.keyMsg (Go.mkKeyMsg Go.KeyRunes "q")) = (m, TweDlpTui.tea_Quit)
  /\ step m (TweDlpTui.keyMsg (Go.mkKeyMsg Go.KeyRunes "?"))
     = (TweDlpTui.withShowHelp true m, TweDlpTui.cmdNil)
  /\ step m (TweDlpTui.keyMsg (Go.mkKeyMsg Go.KeyEnter "enter")) = (m, TweDlpTui.cmdNil)
  /\ step m (@TweDlpTui.otherMsg sampleTerminal tt) = (m, TweDlpTui.cmdNil).
Proof.
  cbv zeta.
  destruct (Update_busy (H := plainLibrary) (H0 := sampleFmt) (H2 := sampleSystem)
              (sampleModel "shroud" [] true) eq_refl)
    as (Hquit & Hhelp & Hplain & Hother).
  split; [apply (Hquit (Go.mkKeyMsg Go.KeyRunes "q")); right; right; reflexivity|].
  split.
  { apply (Hhelp (Go.mkKeyMsg Go.KeyRunes "?")).
    repeat split; intros Heq; discriminate Heq. }
  split; [|apply (Hother tt)].
  apply (Hplain (Go.mkKeyMsg Go.KeyEnter "enter")).
  repeat split; intros Heq; discriminate Heq.
Defined.

Lemma Update_starts_witness :
  let m := sampleModel " shroud " [] false in
  let message := TweDlpTui.keyMsg (Go.mkKeyMsg Go.KeyEnter "enter") in
  let m' :=
    (TweDlpTui.Update (H := plainLibrary) (H0 := sampleFmt) (H2 := sampleSystem) m
       message).1 in
  (exists msg, message = TweDlpTui.keyMsg msg /\ Go.KeyMsg_Type msg = Go.KeyEnter)
  /\ TweDlpTui.downloading m = false
  /\ Go.TrimSpace " shroud " <> ""
  /\ TweDlpTui.downloadCommand (H := plainLibrary) (H0 := sampleFmt) (H2 := sampleSystem)
       sampleClient "shroud"
     = TweDlpTui.downloadCommand (H := plainLibrary) (H0 := sampleFmt)
         (H2 := sampleSystem) sampleClient (Go.TrimSpace " shroud ")
  /\ TweDlpTui.downloading m' = true
  /\ TweDlpTui.downloadError m' = None
  /\ TweDlpTui.textInput m' = TweDlpTui.textInput m.
Proof.
  cbv zeta.
  exact (Update_starts (H := plainLibrary) (H0 := sampleFmt) (H2 := sampleSystem)
           (sampleModel " shroud " [] false)
           (TweDlpTui.keyMsg (Go.mkKeyMsg Go.KeyEnter "enter"))
           (TweDlpTui.downloadCommand (H := plainLibrary) (H0 := sampleFmt)
              (H2 := sampleSystem) sampleClient "shroud") eq_refl).
Defined.

Lemma Update_blank_enter_witness :
  let m := sampleModel "  " [] false in
  let message := TweDlpTui.keyMsg (Go.mkKeyMsg Go.KeyEnter "enter") in
  let step := TweDlpTui.Update (H := plainLibrary) (H0 := sampleFmt) (H2 := sampleSystem) in
  (step m message).2 = TweDlpTui.cmdNil
  /\ TweDlpTui.hasExactLogLine (step m message).1 warningText = true
  /\ (TweDlpTui.hasExactLogLine m warningText = true -> (step m message).1 = m)
  /\ step (step m message).1 message = ((step m message).1, TweDlpTui.cmdNil).
Proof.
  cbv zeta.
  apply (Update_blank_enter (H := plainLibrary) (H0 := sampleFmt) (H2 := sampleSystem)
           (sampleModel "  " [] false) (Go.mkKeyMsg Go.KeyEnter "enter")).
  - repeat split; intros Heq; discriminate Heq.
  - reflexivity.
  - reflexivity.
  - reflexivity.
Defined.

(** * The two programs download alike *)

Section Simulation.
Import Go.
Context `{Library} `{Fmt} {World : Type} `{System World} {Captured F : Type}.
Variable frame : Captured -> list Line -> F.
Variable push : string -> F -> F.
Variable logFunc : string -> L World Captured unit.
Variable f0 : F.
Variable out0 : list Line.

(** [logFunc] leaves the world and the calls alone and receives the text. *)
Hypothesis logFunc_push :
  forall line captured s,
    exists captured' out',
      logFunc line captured s = ((tt, captured'), mkState (world s) (calls s) out')
      /\ frame captured' out' = push line (frame captured (stdout s)).

Local Abbreviation simulating R m l :=
  (simulates (World := World) frame push R f0 out0 m l).

Lemma simulates_ret {A B : Type} (R : A -> B -> Prop) (a : A) (b : B) :
  R a b -> simulating R (mret a) (mret b).
Proof.
  intros HR w cs outA captured outB Hsunk.
  exists a, b, w, cs, outA, captured, outB. repeat split; assumption.
Qed.

Lemma simulates_bind {A B A' B' : Type} (R : A -> B -> Prop) (R' : A' -> B' -> Prop)
    (m : M World A) (l : L World Captured B)
    (f : A -> M World A') (g : B -> L World Captured B') :
  simulating R m l ->
  (forall a b, R a b -> simulating R' (f a) (g b)) ->
  simulating R' (m ≫= f) (l ≫= g).
Proof.
  intros Hm Hf w cs outA captured outB Hsunk.
  destruct (Hm w cs outA captured outB Hsunk)
    as (a & b & w1 & cs1 & outA1 & captured1 & outB1 & Hrun & HrunL & HR & Hsunk1).
  destruct (Hf a b HR w1 cs1 outA1 captured1 outB1 Hsunk1)
    as (a' & b' & w2 & cs2 & outA2 & captured2 & outB2 & Hrun' & HrunL' & HR' & Hsunk2).
  exists a', b', w2, cs2, outA2, captured2, outB2.
  unfold mbind, M_bind, L_bind. rewrite Hrun, HrunL.
  repeat split; assumption.
Qed.

Lemma simulates_perform {A : Type} (c : Call) (f : World -> A * World) :
  simulating eq (perform c f) (lift (perform c f)).
Proof.
  intros w cs outA captured outB (lines & texts & Hout & Hall & Hframe).
  unfold lift, perform. cbn [world calls stdout].
  destruct (f w) as [a w1].
  exists a, a, w1, (cs ++ [c])%list, outA, captured, outB.
  repeat split. exists lines, texts. repeat split; assumption.
Qed.

Lemma simulates_lift_ret {A : Type} (a : A) :
  simulating eq (mret a) (lift (mret a)).
Proof.
  intros w cs outA captured outB Hsunk.
  exists a, a, w, cs, outA, captured, outB. repeat split. exact Hsunk.
Qed.

Lemma simulates_lift_bind {A B : Type} (m m' : M World A) (f f' : A -> M World B) :
  simulating eq m (lift m') ->
  (forall a, simulating eq (f a) (lift (f' a))) ->
  simulating eq (m ≫= f) (lift (m' ≫= f')).
Proof.
  intros Hm Hf w cs outA captured outB Hsunk.
  destruct (Hm w cs outA captured outB Hsunk)
    as (a & b & w1 & cs1 & outA1 & captured1 & outB1 & Hrun & HrunL & <- & Hsunk1).
  destruct (Hf a w1 cs1 outA1 captured1 outB1 Hsunk1)
    as (a' & b' & w2 & cs2 & outA2 & captured2 & outB2 & Hrun' & HrunL' & <- & Hsunk2).
  exists a', a', w2, cs2, outA2, captured2, outB2.
  unfold mbind, M_bind. rewrite Hrun.
  unfold lift in *. unfold mbind, M_bind.
  destruct (m' (mkState w cs outB)) as [x s1]. inversion HrunL; subst.
  destruct (f' a (mkState w1 cs1 outB1)) as [y s2]. inversion HrunL'; subst.
  repeat split; assumption.
Qed.

Lemma simulates_log (format : string) (operands : list operand) (text : string) :
  logged (mkLine format operands) text ->
  simulating eq (Printf format operands) (logFunc text).
Proof.
  intros Hlogged w cs outA captured outB (lines & texts & Hout & Hall & Hframe).
  destruct (logFunc_push text captured (mkState w cs outB))
    as (captured' & out' & Hrun & Hpush).
  cbn [world calls stdout] in Hrun, Hpush.
  exists tt, tt, w, cs, (outA ++ [mkLine format operands])%list, captured', out'.
  split; [reflexivity|]. split; [exact Hrun|]. split; [reflexivity|].
  exists (lines ++ [mkLine format operands])%list, (texts ++ [text])%list.
  split; [rewrite Hout, app_assoc; reflexivity|].
  split; [apply Forall2_app; [exact Hall|constructor; [exact Hlogged|constructor]]|].
  rewrite foldl_app. cbn [foldl]. rewrite <- Hframe. exact Hpush.
Qed.

Lemma simulates_Sprintf (format : string) (operands : list operand) :
  simulating eq (Printf (format +:+ "\n") operands) (logFunc (Sprintf format operands)).
Proof. apply simulates_log. left. exists format. split; reflexivity. Qed.

Lemma simulates_forEach {A B : Type} (g : A -> B) (body : A -> M World unit)
    (bodyL : B -> L World Captured unit) (l : list A) :
  (forall a, simulating eq (body a) (bodyL (g a))) ->
  simulating eq (forEach l body) (forEachL (g <$> l) bodyL).
Proof.
  intros Hbody. induction l as [|a l IH]; cbn [forEach forEachL fmap list_fmap].
  - apply simulates_ret. reflexivity.
  - eapply simulates_bind; [apply Hbody|]. intros _ _ _. exact IH.
Qed.

(** Closes a goal about a printed line and the text logged for it. *)
Ltac log_line :=
  lazymatch goal with
  | |- simulates _ _ _ _ _ (Printf _ _) (_ (Sprintf ?format ?operands)) =>
      exact (simulates_Sprintf format operands)
  end.

Lemma simulates_downloadSize (httpClient : Client World)
    (emoteBaseURL safeEmoteCode emoteFolder sizeValue : string) :
  simulating eq
    (TweDlp.downloadSize httpClient emoteBaseURL safeEmoteCode emoteFolder sizeValue)
    (TweDlpTui.downloadSize httpClient emoteBaseURL safeEmoteCode emoteFolder logFunc
       sizeValue).
Proof.
  unfold TweDlp.downloadSize, TweDlpTui.downloadSize.
  destruct (http_NewRequest "GET" (emoteBaseURL +:+ "/light/" +:+ sizeValue) None)
    as [request|err]; [|log_line].
  eapply simulates_bind; [apply simulates_perform|].
  intros answer ? <-. destruct answer as [response|err]; [|log_line].
  destruct (negb (StatusCode response =? StatusOK)%nat).
  { eapply simulates_bind; [log_line|]. intros _ _ _. apply simulates_perform. }
  eapply simulates_bind; [apply simulates_perform|].
  intros created ? <-. destruct created as [outputFile|err].
  2:{ eapply simulates_bind; [log_line|]. intros _ _ _. apply simulates_perform. }
  eapply simulates_bind; [apply simulates_perform|].
  intros copyError ? <-.
  eapply simulates_bind; [apply simulates_perform|]. intros _ _ _.
  eapply simulates_bind; [apply simulates_perform|]. intros _ _ _.
  destruct copyError as [err|]; log_line.
Qed.

Lemma simulates_downloadEmoteImages (httpClient : Client World)
    (emoteIdentifier : string) (emoteData : TweDlp.EmoteData) (outputRoot : string) :
  simulating eq
    (TweDlp.downloadEmoteImages httpClient emoteIdentifier emoteData outputRoot)
    (TweDlpTui.downloadEmoteImages httpClient emoteIdentifier (sameRecord emoteData)
       outputRoot logFunc).
Proof.
  unfold TweDlp.downloadEmoteImages, TweDlpTui.downloadEmoteImages.
  eapply simulates_bind; [apply simulates_perform|].
  intros failed ? <-. destruct failed as [err|]; [log_line|].
  change TweDlpTui.emoteSizeList with (id <$> TweDlp.emoteSizeList).
  apply simulates_forEach. intros sizeValue. apply simulates_downloadSize.
Qed.

Lemma simulates_fetchDocument (httpClient : Client World) (pageURL : string) :
  simulating eq (TweDlp.fetchDocument httpClient pageURL)
    (lift (TweDlpTui.fetchDocument httpClient pageURL)).
Proof.
  unfold TweDlp.fetchDocument, TweDlpTui.fetchDocument.
  destruct (http_NewRequest "GET" pageURL None) as [request|err];
    [|apply simulates_lift_ret].
  apply simulates_lift_bind; [apply simulates_perform|].
  intros [response|err]; [|apply simulates_lift_ret].
  apply simulates_lift_bind; [apply simulates_perform|].
  intros [document|err]; [apply simulates_lift_ret|].
  apply simulates_lift_bind; [apply simulates_perform|].
  intros _. apply simulates_lift_ret.
Qed.

Lemma collectEmoteMetadata_same (document : Document) :
  TweDlpTui.collectEmoteMetadata document
  = sameRecord <$> TweDlp.collectEmoteMetadata document.
Proof.
  unfold TweDlp.collectEmoteMetadata, TweDlpTui.collectEmoteMetadata.
  rewrite foldl_visitImage_same, fmap_empty. reflexivity.
Qed.

Lemma simulates_downloadChannelEmotes (httpClient : Client World) (channelID : string) :
  rangeNatural World ->
  simulating eq (TweDlp.downloadChannelEmotes httpClient channelID)
    (TweDlpTui.downloadChannelEmotes httpClient channelID logFunc).
Proof.
  intros Hnatural.
  unfold TweDlp.downloadChannelEmotes, TweDlpTui.downloadChannelEmotes.
  change TweDlpTui.getChannelDisplayName with TweDlp.getChannelDisplayName.
  change TweDlpTui.makeSafeName with TweDlp.makeSafeName.
  eapply simulates_bind; [apply simulates_fetchDocument|].
  intros fetched ? <-. destruct fetched as [[document response]|err];
    [|apply simulates_ret; reflexivity].
  eapply (simulates_bind eq).
  2:{ intros result ? <-. eapply simulates_bind; [apply simulates_perform|].
      intros _ _ _. apply simulates_ret. reflexivity. }
  destruct (negb (StatusCode response =? StatusOK)%nat);
    [apply simulates_ret; reflexivity|].
  eapply simulates_bind; [apply simulates_perform|].
  intros failed ? <-. destruct failed as [err|]; [apply simulates_ret; reflexivity|].
  eapply simulates_bind; [log_line|]. intros _ _ _.
  eapply simulates_bind.
  { destruct (negb (String.eqb (TweDlp.getChannelDisplayName document) ""));
      [log_line|apply simulates_ret; reflexivity]. }
  intros _ _ _.
  eapply simulates_bind; [log_line|]. intros _ _ _.
  eapply simulates_bind.
  { apply simulates_log. right. split; reflexivity. }
  intros _ _ _.
  rewrite collectEmoteMetadata_same, map_size_fmap.
  eapply simulates_bind; [log_line|]. intros _ _ _.
  destruct (size (TweDlp.collectEmoteMetadata document) =? 0)%nat;
    [apply simulates_ret; reflexivity|].
  eapply simulates_bind with
    (R := fun (a : list (string * TweDlp.EmoteData))
              (b : list (string * TweDlpTui.EmoteData)) =>
            b = prod_map id sameRecord <$> a).
  { intros w cs outA captured outB Hsunk. unfold rangeMap, lift. cbn [world].
    do 7 eexists. split; [reflexivity|]. split; [reflexivity|].
    split; [apply Hnatural|exact Hsunk]. }
  intros entries ? ->.
  eapply simulates_bind; [|intros _ _ _; apply simulates_ret; reflexivity].
  apply simulates_forEach. intros [emoteIdentifier emoteData].
  cbn [prod_map id fst snd].
  eapply simulates_bind; [log_line|]. intros _ _ _.
  apply simulates_downloadEmoteImages.
Qed.

End Simulation.

Section Agreement.
Import Go.
Context `{Library} `{Fmt} {World : Type} `{System World} `{Console World}.

Lemma foldl_printed (texts : list string) (out : list Line) :
  foldl (fun (f : list Line) text => (f ++ [printed text])%list) out texts
  = (out ++ (printed <$> texts))%list.
Proof.
  revert out. induction texts as [|text texts IH]; intros out; cbn [foldl fmap list_fmap].
  - symmetry. apply app_nil_r.
  - rewrite IH, <- app_assoc. reflexivity.
Qed.

Lemma foldl_collected (texts collected : list string) (out : list Line) :
  foldl (fun (f : list string * list Line) text => ((f.1 ++ [text])%list, f.2))
    (collected, out) texts
  = ((collected ++ texts)%list, out).
Proof.
  revert collected. induction texts as [|text texts IH]; intros collected; cbn [foldl].
  - rewrite app_nil_r. reflexivity.
  - cbn [fst snd]. rewrite IH, <- app_assoc. reflexivity.
Qed.

(** X20: on an argument that is not blank the text mode of the terminal-UI
    program runs as the command-line program does, provided that a [range]
    visits the keys of the emotes in the same order in both: the same exit
    status, the same lines on the standard error, the same calls in the same
    order on the same world, and on the standard output a line for each line
    of the command-line program, with the same text. *)
Theorem runTextMode_agrees (httpClient : Client World) (Args : list string)
    (p : Process World) :
  rangeNatural World ->
  2 <= length Args ->
  TrimSpace (nth 1 Args "") <> "" ->
  let cli := TweDlp.main httpClient Args p in
  let tui := TweDlpTui.runTextMode httpClient (TrimSpace (nth 1 Args "")) p in
  cli.1 = tui.1
  /\ stderr cli.2 = stderr tui.2
  /\ world (state cli.2) = world (state tui.2)
  /\ calls (state cli.2) = calls (state tui.2)
  /\ exists lines texts,
       stdout (state cli.2) = (stdout (state p) ++ lines)%list
       /\ Forall2 logged lines texts
       /\ stdout (state tui.2) = (stdout (state p) ++ (printed <$> texts))%list.
Proof.
  intros Hnatural Hargs Hfilled. cbv zeta.
  unfold TweDlp.main, TweDlpTui.runTextMode.
  apply Nat.leb_le in Hargs. rewrite Hargs.
  apply String.eqb_neq in Hfilled. rewrite Hfilled.
  change TweDlpTui.resolveChannelIdentifierToID
    with TweDlp.resolveChannelIdentifierToID.
  pose proof (resolve_trace httpClient (TrimSpace (nth 1 Args "")) (state p))
    as [Hout _].
  destruct (TweDlp.resolveChannelIdentifierToID httpClient
              (TrimSpace (nth 1 Args "")) (state p)) as [[channelID|err] st1];
    cbn [fst snd] in Hout.
  2:{ cbn [fst snd state stderr Fprintf_Stderr]. repeat (split; [reflexivity|]).
      exists [], []. split; [rewrite Hout, app_nil_r; reflexivity|].
      split; [constructor|]. rewrite Hout. symmetry. apply app_nil_r. }
  destruct st1 as [w1 cs1 out1]. cbn [stdout] in Hout. subst out1.
  destruct (simulates_downloadChannelEmotes
              (fun (_ : unit) (out : list Line) => out)
              (fun text (out : list Line) => (out ++ [printed text])%list)
              printLine (stdout (state p)) (stdout (state p)))
    with (httpClient := httpClient) (channelID := channelID)
         (w := w1) (cs := cs1) (outA := stdout (state p)) (captured := tt)
         (outB := stdout (state p))
    as (failed & ? & w2 & cs2 & outA & [] & outB & Hcli & Htui & <- & Hsunk).
  { intros line captured s. exists captured, (stdout s ++ [printed line])%list.
    split; reflexivity. }
  { exact Hnatural. }
  { exists [], []. split; [symmetry; apply app_nil_r|]. split; [constructor|reflexivity]. }
  destruct Hsunk as (lines & texts & HoutA & Hall & HoutB).
  rewrite foldl_printed in HoutB.
  rewrite Hcli. change (fun line : string => lift (Println line)) with (@printLine World).
  rewrite Htui. cbn [fst snd].
  destruct failed as [err|]; cbn [fst snd state stderr stdout world calls Fprintf_Stderr];
    (repeat (split; [reflexivity|])); exists lines, texts;
    (split; [exact HoutA|]); (split; [exact Hall|exact HoutB]).
Qed.

(** The command, step by step. *)
Lemma downloadCommand_run (httpClient : Client World) (channelIdentifier : string)
    (st : State World) :
  TweDlpTui.downloadCommand httpClient channelIdentifier st
  = let (resolved, st1) :=
      TweDlp.resolveChannelIdentifierToID httpClient channelIdentifier st in
    match resolved with
    | Err err =>
        (TweDlpTui.mkDownloadResultMessage (Some err)
           [Sprintf "Error resolving channel: %v" [opError err]], st1)
    | Ok channelID =>
        let (result, st2) :=
          TweDlpTui.downloadChannelEmotes httpClient channelID collectLine [] st1 in
        (TweDlpTui.mkDownloadResultMessage result.1 result.2, st2)
    end.
Proof.
  unfold TweDlpTui.downloadCommand.
  change TweDlpTui.resolveChannelIdentifierToID
    with TweDlp.resolveChannelIdentifierToID.
  change (fun (line : string) (collectedLogs : list string) =>
            mret (tt, (collectedLogs ++ [line])%list)) with (@collectLine World).
  unfold mbind at 1. unfold L_bind at 1. unfold lift at 1.
  destruct (TweDlp.resolveChannelIdentifierToID httpClient channelIdentifier st)
    as [[channelID|err] st1].
  - destruct (TweDlpTui.downloadChannelEmotes httpClient channelID collectLine [] st1)
      as [[failed collected] st2]. reflexivity.
  - reflexivity.
Qed.

(** X21: the command of the terminal UI runs as the command-line program
    does after its arguments are read, provided that a [range] visits the
    keys of the emotes in the same order in both, and it writes nothing to
    the standard output. When the resolution fails the message holds the
    error and the one line that reports it; otherwise it holds the error of
    the download when there is one, and its lines are the texts of the lines
    that the command-line program prints, in their order, after the same
    calls on the same world. *)
Theorem downloadCommand_agrees (httpClient : Client World) (channelIdentifier : string)
    (st : State World) :
  rangeNatural World ->
  let command := TweDlpTui.downloadCommand httpClient channelIdentifier st in
  let resolved := TweDlp.resolveChannelIdentifierToID httpClient channelIdentifier st in
  stdout command.2 = stdout st
  /\ match resolved.1 with
     | Err err =>
         command
         = (TweDlpTui.mkDownloadResultMessage (Some err)
              [Sprintf "Error resolving channel: %v" [opError err]],
            resolved.2)
     | Ok channelID =>
         let cli := TweDlp.downloadChannelEmotes httpClient channelID resolved.2 in
         TweDlpTui.Error command.1 = cli.1
         /\ world command.2 = world cli.2
         /\ calls command.2 = calls cli.2
         /\ exists lines,
              stdout cli.2 = (stdout st ++ lines)%list
              /\ Forall2 logged lines (TweDlpTui.LogLines command.1)
     end.
Proof.
  intros Hnatural. cbv zeta. rewrite downloadCommand_run.
  pose proof (resolve_trace httpClient channelIdentifier st) as [Hout _].
  destruct (TweDlp.resolveChannelIdentifierToID httpClient channelIdentifier st)
    as [[channelID|err] st1]; cbn [fst snd] in Hout |- *.
  2:{ split; [exact Hout|]. reflexivity. }
  destruct st1 as [w1 cs1 out1]. cbn [stdout] in Hout. subst out1.
  destruct (simulates_downloadChannelEmotes
              (fun (collectedLogs : list string) (out : list Line) =>
                 (collectedLogs, out))
              (fun text (f : list string * list Line) => ((f.1 ++ [text])%list, f.2))
              collectLine ([], stdout st) (stdout st))
    with (httpClient := httpClient) (channelID := channelID)
         (w := w1) (cs := cs1) (outA := stdout st) (captured := @nil string)
         (outB := stdout st)
    as (failed & ? & w2 & cs2 & outA & collected & outB & Hcli & Htui & <- & Hsunk).
  { intros line captured s. exists (captured ++ [line])%list, (stdout s).
    split; [destruct s; reflexivity|reflexivity]. }
  { exact Hnatural. }
  { exists [], []. split; [symmetry; apply app_nil_r|]. split; [constructor|reflexivity]. }
  destruct Hsunk as (lines & texts & HoutA & Hall & Hframe).
  rewrite foldl_collected in Hframe. cbn [app] in Hframe.
  inversion Hframe; subst collected outB.
  rewrite Hcli, Htui. cbn [fst snd stdout world calls TweDlpTui.Error TweDlpTui.LogLines].
  split; [reflexivity|]. repeat (split; [reflexivity|]).
  exists lines. split; [exact HoutA|exact Hall].
Qed.

End Agreement.

(** The sample system visits the entries of a map in the order of
    [map_to_list], whatever the records. *)
Lemma sampleSystem_natural : rangeNatural unit (H := sampleSystem).
Proof. intros w m. apply map_to_list_fmap. Qed.

Lemma runTextMode_agrees_witness :
  let Args := ["twe-dlp"; "12345"] in
  let p := Go.mkProcess startState [] in
  let cli :=
    TweDlp.main (H := plainLibrary) (H0 := sampleSystem) (H1 := sampleConsole)
      sampleClient Args p in
  let tui :=
    TweDlpTui.runTextMode (H := plainLibrary) (H0 := sampleFmt) (H1 := sampleSystem)
      sampleClient (Go.TrimSpace (nth 1 Args "")) p in
  cli.1 = tui.1
  /\ Go.stderr cli.2 = Go.stderr tui.2
  /\ Go.world (Go.state cli.2) = Go.world (Go.state tui.2)
  /\ Go.calls (Go.state cli.2) = Go.calls (Go.state tui.2)
  /\ exists lines texts,
       Go.stdout (Go.state cli.2) = (Go.stdout (Go.state p) ++ lines)%list
       /\ Forall2 (logged (H := sampleFmt)) lines texts
       /\ Go.stdout (Go.state tui.2)
          = (Go.stdout (Go.state p) ++ (printed <$> texts))%list.
Proof.
  cbv zeta.
  apply (runTextMode_agrees (H := plainLibrary) (H0 := sampleFmt) (H1 := sampleSystem)
           (H2 := sampleConsole) sampleClient ["twe-dlp"; "12345"]
           (Go.mkProcess startState [])).
  - exact sampleSystem_natural.
  - cbn. lia.
  - intros Heq. vm_compute in Heq. discriminate Heq.
Defined.

Lemma downloadCommand_agrees_witness :
  let command :=
    TweDlpTui.downloadCommand (H := plainLibrary) (H0 := sampleFmt) (H2 := sampleSystem)
      sampleClient "12345" startState in
  let cli :=
    TweDlp.downloadChannelEmotes (H := plainLibrary) (H0 := sampleSystem) sampleClient
      "12345" startState in
  Go.stdout command.2 = []
  /\ TweDlpTui.Error command.1 = cli.1
  /\ Go.world command.2 = Go.world cli.2
  /\ Go.calls command.2 = Go.calls cli.2
  /\ exists lines,
       Go.stdout cli.2 = ([] ++ lines)%list
       /\ Forall2 (logged (H := sampleFmt)) lines (TweDlpTui.LogLines command.1).
Proof.
  cbv zeta.
  exact (downloadCommand_agrees (H := plainLibrary) (H0 := sampleFmt)
           (H1 := sampleSystem) sampleClient "12345" startState sampleSystem_natural).
Defined.

(** * Trimmed texts *)

Section Trimmed.
Import Go.

Lemma dropSpaces_ahead sp2 sp3 (s : string) :
  spaceAhead sp2 sp3 (dropSpaces sp2 sp3 s) = false.
Proof.
  remember (String.length s) as n eqn:Hn.
  revert s Hn. induction (lt_wf n) as [n _ IH]. intros s ->.
  destruct s as [|c0 s1]; [reflexivity|].
  cbn [dropSpaces]. destruct (isSpace1 c0) eqn:E1.
  { apply (IH (String.length s1)); [cbn; lia|reflexivity]. }
  destruct s1 as [|c1 s2]; [cbn [spaceAhead]; rewrite E1; reflexivity|].
  destruct (sp2 c0 c1) eqn:E2.
  { apply (IH (String.length s2)); [cbn; lia|reflexivity]. }
  destruct s2 as [|c2 s3]; [cbn [spaceAhead]; rewrite E1, E2; reflexivity|].
  destruct (sp3 c0 c1 c2) eqn:E3.
  { apply (IH (String.length s3)); [cbn; lia|reflexivity]. }
  cbn [spaceAhead]. rewrite E1, E2, E3. reflexivity.
Qed.

Lemma dropSpaces_fixed sp2 sp3 (s : string) :
  spaceAhead sp2 sp3 s = false -> dropSpaces sp2 sp3 s = s.
Proof.
  destruct s as [|c0 [|c1 [|c2 s3]]]; cbn [spaceAhead dropSpaces]; intros Hs;
    try reflexivity.
  - rewrite orb_false_r in Hs. rewrite Hs. reflexivity.
  - apply orb_false_iff in Hs. destruct Hs as [-> Hs].
    rewrite orb_false_r in Hs. rewrite Hs. reflexivity.
  - apply orb_false_iff in Hs. destruct Hs as [-> Hs].
    apply orb_false_iff in Hs. destruct Hs as [-> ->]. reflexivity.
Qed.

Lemma spaceAhead_prefix sp2 sp3 (s t : string) :
  spaceAhead sp2 sp3 (s +:+ t) = false -> spaceAhead sp2 sp3 s = false.
Proof.
  destruct s as [|c0 [|c1 [|c2 s3]]]; try reflexivity;
    rewrite ?append_cons; cbn [spaceAhead].
  - change ("" +:+ t) with t. intros Hs. apply orb_false_iff in Hs.
    destruct Hs as [-> _]. reflexivity.
  - change ("" +:+ t) with t. intros Hs. apply orb_false_iff in Hs.
    destruct Hs as [-> Hs]. destruct t as [|c2 t].
    + rewrite orb_false_r in Hs. rewrite Hs. reflexivity.
    + apply orb_false_iff in Hs. destruct Hs as [-> _]. reflexivity.
  - intros Hs. exact Hs.
Qed.

Lemma rev_app (s t : string) : String.rev (s +:+ t) = String.rev t +:+ String.rev s.
Proof.
  unfold String.rev.
  assert (Hgen : forall a b acc,
            String.rev_app (a +:+ b) acc = String.rev_app b (String.rev_app a acc)).
  { induction a as [|c a IH]; intros b acc; [reflexivity|].
    rewrite append_cons. cbn [String.rev_app]. apply IH. }
  assert (Hacc : forall a acc, String.rev_app a acc = String.rev_app a "" +:+ acc).
  { induction a as [|c a IH]; intros acc; [reflexivity|].
    cbn [String.rev_app]. rewrite IH, (IH (String c "")), append_assoc. reflexivity. }
  rewrite Hgen. apply Hacc.
Qed.

Lemma TrimSpace_idempotent (s : string) : TrimSpace (TrimSpace s) = TrimSpace s.
Proof.
  unfold TrimSpace, TrimLeftSpace, TrimRightSpace.
  set (sp2 := fun c1 c0 => isSpace2 c0 c1).
  set (sp3 := fun c2 c1 c0 => isSpace3 c0 c1 c2).
  set (t := dropSpaces isSpace2 isSpace3 s).
  set (r := dropSpaces sp2 sp3 (String.rev t)).
  assert (Ht : spaceAhead isSpace2 isSpace3 t = false) by apply dropSpaces_ahead.
  assert (Hr : spaceAhead sp2 sp3 r = false) by apply dropSpaces_ahead.
  destruct (dropSpaces_suffix sp2 sp3 (String.rev t)) as [dropped Hdropped].
  fold r in Hdropped.
  assert (Hsplit : t = String.rev r +:+ String.rev dropped).
  { rewrite <- rev_app, <- Hdropped, rev_involutive. reflexivity. }
  assert (Hhead : dropSpaces isSpace2 isSpace3 (String.rev r) = String.rev r).
  { apply dropSpaces_fixed, (spaceAhead_prefix _ _ _ (String.rev dropped)).
    rewrite <- Hsplit. exact Ht. }
  rewrite Hhead, rev_involutive, (dropSpaces_fixed sp2 sp3 r Hr). reflexivity.
Qed.

(** X22: the display name of a channel is a trimmed text: trimming it again
    changes nothing, so it is empty or holds a character that is no white
    space. *)
Theorem getChannelDisplayName_trimmed (document : Document) :
  TrimSpace (TweDlp.getChannelDisplayName document)
  = TweDlp.getChannelDisplayName document.
Proof.
  unfold TweDlp.getChannelDisplayName.
  destruct (cardHeader document) as [[anchor heading]|]; [|reflexivity].
  cbn [anchorText headingText].
  assert (Hheading :
            TrimSpace match heading with
                      | Some t => if negb (String.eqb (TrimSpace t) "")
                                  then TrimSpace t else ""
                      | None => ""
                      end
            = match heading with
              | Some t => if negb (String.eqb (TrimSpace t) "") then TrimSpace t else ""
              | None => ""
              end).
  { destruct heading as [t|]; [|reflexivity].
    destruct (negb (String.eqb (TrimSpace t) "")); [|reflexivity].
    apply TrimSpace_idempotent. }
  destruct anchor as [t|]; [|exact Hheading].
  destruct (negb (String.eqb (TrimSpace t) "")); [|exact Hheading].
  apply TrimSpace_idempotent.
Qed.

(** X23: white space around a name plays no part in its sanitization: the
    name and the trimmed name have the same safe name. *)
Theorem makeSafeName_trims (name : string) :
  TweDlp.makeSafeName (TrimSpace name) = TweDlp.makeSafeName name.
Proof.
  unfold TweDlp.makeSafeName. rewrite TrimSpace_idempotent. reflexivity.
Qed.

End Trimmed.

(** * Failures of the download, in both programs *)

Section DownloadFailures.
Import Go TweDlp.
Context `{Library} `{Fmt} {World : Type} `{System World}.

(** Unfolds a run of the terminal-UI program. *)
Ltac runL :=
  cbv beta iota zeta
    delta [mbind L_bind M_bind lift mret L_ret M_ret collectLine printLine Println
           Printf CloseBody CloseFile perform fst snd world calls stdout].

(** One turn of the size loop is one attempt, in the command-line program
    and, with either function that the terminal-UI program logs through, in
    that program: the same calls, the same world, the notice printed or
    collected. *)
Lemma downloadSize_attempt (httpClient : Client World)
    (emoteBaseURL safeEmoteCode emoteFolder sizeValue : string) (w : World) :
  exists notice newCalls w',
    sizeAttempt httpClient emoteBaseURL safeEmoteCode emoteFolder sizeValue
      w notice newCalls w'
    /\ forall (cs : list Call) (out : list Line),
         downloadSize httpClient emoteBaseURL safeEmoteCode emoteFolder sizeValue
           (mkState w cs out)
         = (tt, mkState w' (cs ++ newCalls) (out ++ [noticeLine notice]))
         /\ (forall collected,
               TweDlpTui.downloadSize httpClient emoteBaseURL safeEmoteCode emoteFolder
                 collectLine sizeValue collected (mkState w cs out)
               = ((tt, (collected ++ [noticeText notice])%list),
                  mkState w' (cs ++ newCalls) out))
         /\ TweDlpTui.downloadSize httpClient emoteBaseURL safeEmoteCode emoteFolder
              printLine sizeValue tt (mkState w cs out)
            = ((tt, tt),
               mkState w' (cs ++ newCalls) (out ++ [printed (noticeText notice)])).
Proof.
  unfold downloadSize, TweDlpTui.downloadSize.
  change TweDlpTui.determineFileExtension with determineFileExtension.
  change TweDlpTui.defaultUserAgent with defaultUserAgent.
  destruct (http_NewRequest "GET" (emoteBaseURL +:+ "/light/" +:+ sizeValue) None)
    as [request|err] eqn:Hreq.
  2:{ eexists _, [], w. split; [apply requestNotBuilt; exact Hreq|].
      intros cs out. rewrite app_nil_r. repeat split. }
  assert (Hrequest : Header_Set "User-Agent" defaultUserAgent request
                     = assetRequest (emoteBaseURL +:+ "/light/" +:+ sizeValue)).
  { unfold http_NewRequest in Hreq.
    destruct (url_Parse (emoteBaseURL +:+ "/light/" +:+ sizeValue)); [|discriminate Hreq].
    inversion Hreq. reflexivity. }
  rewrite Hrequest. unfold Do, Create, Copy. runL.
  destruct (httpClient (assetRequest (emoteBaseURL +:+ "/light/" +:+ sizeValue)) w)
    as [[response|err] w1] eqn:Hdo.
  2:{ eexists _, [_], w1. split; [eapply requestNotAnswered; eassumption|].
      intros cs out. repeat split. }
  destruct (Nat.eqb_spec (StatusCode response) StatusOK) as [Hok|Hbad]; cbn [negb].
  2:{ eexists _, [_; _], w1. split; [eapply statusNotOK; eassumption|].
      intros cs out. runL. rewrite <- !app_assoc. repeat split. }
  runL. destruct (os_Create _ w1) as [[outputFile|err] w2] eqn:Hcreate.
  2:{ eexists _, [_; _; _], w2. split; [eapply fileNotCreated; eassumption|].
      intros cs out. runL. rewrite <- !app_assoc. repeat split. }
  destruct (io_Copy outputFile (Body response) w2) as [[err|] w3] eqn:Hcopy.
  - eexists _, [_; _; _; _; _], w3. split; [eapply copyBroken; eassumption|].
    intros cs out. runL. rewrite <- !app_assoc. repeat split.
  - eexists _, [_; _; _; _; _], w3. split; [eapply fileWritten; eassumption|].
    intros cs out. runL. rewrite <- !app_assoc. repeat split.
Qed.

(** From a given world one attempt is possible: the notice, the calls and
    the world left are determined. *)
Lemma sizeAttempt_functional (httpClient : Client World)
    (emoteBaseURL safeEmoteCode emoteFolder sizeValue : string)
    (w w' w'' : World) (notice notice' : Notice) (newCalls newCalls' : list Call) :
  sizeAttempt httpClient emoteBaseURL safeEmoteCode emoteFolder sizeValue
    w notice newCalls w' ->
  sizeAttempt httpClient emoteBaseURL safeEmoteCode emoteFolder sizeValue
    w notice' newCalls' w'' ->
  notice = notice' /\ newCalls = newCalls' /\ w' = w''.
Proof.
  intros Hfirst Hsecond.
  destruct Hfirst; destruct Hsecond;
    repeat match goal with x := _ |- _ => subst x end;
    repeat match goal with
           | Ha : ?x = _, Hb : ?x = _ |- _ =>
               rewrite Ha in Hb; inversion Hb; subst; clear Hb
           end;
    try contradiction; try discriminate; repeat split; reflexivity.
Qed.

(** An attempt whose request could be built has sent it. *)
Lemma sizeAttempt_sent (httpClient : Client World)
    (emoteBaseURL safeEmoteCode emoteFolder sizeValue : string)
    (w w' : World) (notice : Notice) (newCalls : list Call) (parsed : URL) :
  sizeAttempt httpClient emoteBaseURL safeEmoteCode emoteFolder sizeValue
    w notice newCalls w' ->
  url_Parse (emoteBaseURL +:+ "/light/" +:+ sizeValue) = Ok parsed ->
  callDo (assetRequest (emoteBaseURL +:+ "/light/" +:+ sizeValue)) ∈ newCalls.
Proof.
  intros Hattempt Hparsed. destruct Hattempt as [w err Hreq| | | | |]; try left.
  unfold http_NewRequest in Hreq. rewrite Hparsed in Hreq. discriminate Hreq.
Qed.

(** The download of an emote whose folder is made is three attempts, one
    after the other, in both programs. *)
Lemma downloadEmoteImages_attempts (httpClient : Client World)
    (emoteIdentifier : string) (emoteData : EmoteData) (outputRoot : string)
    (w w0 : World) :
  let safeEmoteCode := makeSafeName (EmoteCode emoteData) in
  let emoteFolder := filepath_Join outputRoot safeEmoteCode in
  let attempt := sizeAttempt httpClient (BaseURL emoteData) safeEmoteCode emoteFolder in
  os_MkdirAll emoteFolder w = (None, w0) ->
  exists n1 n2 n3 c1 c2 c3 w1 w2 w3,
    attempt "1.0" w0 n1 c1 w1 /\ attempt "2.0" w1 n2 c2 w2 /\ attempt "3.0" w2 n3 c3 w3
    /\ forall (cs : list Call) (out : list Line),
         let newCalls := (callMkdirAll emoteFolder :: c1 ++ c2 ++ c3)%list in
         downloadEmoteImages httpClient emoteIdentifier emoteData outputRoot
           (mkState w cs out)
         = (tt, mkState w3 (cs ++ newCalls) (out ++ (noticeLine <$> [n1; n2; n3])))
         /\ (forall collected,
               TweDlpTui.downloadEmoteImages httpClient emoteIdentifier
                 (sameRecord emoteData) outputRoot collectLine collected
                 (mkState w cs out)
               = ((tt, (collected ++ (noticeText <$> [n1; n2; n3]))%list),
                  mkState w3 (cs ++ newCalls) out))
         /\ TweDlpTui.downloadEmoteImages httpClient emoteIdentifier
              (sameRecord emoteData) outputRoot printLine tt (mkState w cs out)
            = ((tt, tt),
               mkState w3 (cs ++ newCalls)
                 (out ++ (printed <$> (noticeText <$> [n1; n2; n3])))).
Proof.
  cbv zeta. intros Hmk.
  destruct (downloadSize_attempt httpClient (BaseURL emoteData)
              (makeSafeName (EmoteCode emoteData))
              (filepath_Join outputRoot (makeSafeName (EmoteCode emoteData))) "1.0" w0)
    as (n1 & c1 & w1 & Ha1 & Hrun1).
  destruct (downloadSize_attempt httpClient (BaseURL emoteData)
              (makeSafeName (EmoteCode emoteData))
              (filepath_Join outputRoot (makeSafeName (EmoteCode emoteData))) "2.0" w1)
    as (n2 & c2 & w2 & Ha2 & Hrun2).
  destruct (downloadSize_attempt httpClient (BaseURL emoteData)
              (makeSafeName (EmoteCode emoteData))
              (filepath_Join outputRoot (makeSafeName (EmoteCode emoteData))) "3.0" w2)
    as (n3 & c3 & w3 & Ha3 & Hrun3).
  exists n1, n2, n3, c1, c2, c3, w1, w2, w3.
  split; [exact Ha1|]. split; [exact Ha2|]. split; [exact Ha3|].
  intros cs out.
  unfold downloadEmoteImages, TweDlpTui.downloadEmoteImages, MkdirAll.
  change (TweDlpTui.makeSafeName (TweDlpTui.EmoteCode (sameRecord emoteData)))
    with (makeSafeName (EmoteCode emoteData)).
  change (TweDlpTui.BaseURL (sameRecord emoteData)) with (BaseURL emoteData).
  unfold emoteSizeList, TweDlpTui.emoteSizeList. cbn [forEach forEachL].
  unfold mbind, L_bind, M_bind, lift, perform, mret, L_ret, M_ret.
  cbn [world calls stdout]. rewrite Hmk.
  cbv beta iota.
  set (folder := filepath_Join outputRoot (makeSafeName (EmoteCode emoteData))) in *.
  split; [|split].
  - destruct (Hrun1 (cs ++ [callMkdirAll folder])%list out) as (Hc1 & _).
    destruct (Hrun2 ((cs ++ [callMkdirAll folder]) ++ c1)%list
                (out ++ [noticeLine n1])%list) as (Hc2 & _).
    destruct (Hrun3 (((cs ++ [callMkdirAll folder]) ++ c1) ++ c2)%list
                ((out ++ [noticeLine n1]) ++ [noticeLine n2])%list) as (Hc3 & _).
    rewrite Hc1, Hc2, Hc3. cbn [fmap list_fmap]. rewrite <- !app_assoc. reflexivity.
  - intros collected.
    destruct (Hrun1 (cs ++ [callMkdirAll folder])%list out) as (_ & Ht1 & _).
    rewrite Ht1.
    destruct (Hrun2 ((cs ++ [callMkdirAll folder]) ++ c1)%list out) as (_ & Ht2 & _).
    rewrite Ht2.
    destruct (Hrun3 (((cs ++ [callMkdirAll folder]) ++ c1) ++ c2)%list out)
      as (_ & Ht3 & _).
    rewrite Ht3. cbn [fmap list_fmap]. rewrite <- !app_assoc. reflexivity.
  - destruct (Hrun1 (cs ++ [callMkdirAll folder])%list out) as (_ & _ & Hp1).
    rewrite Hp1.
    destruct (Hrun2 ((cs ++ [callMkdirAll folder]) ++ c1)%list
                (out ++ [printed (noticeText n1)])%list) as (_ & _ & Hp2).
    rewrite Hp2.
    destruct (Hrun3 (((cs ++ [callMkdirAll folder]) ++ c1) ++ c2)%list
                ((out ++ [printed (noticeText n1)]) ++ [printed (noticeText n2)])%list)
      as (_ & _ & Hp3).
    rewrite Hp3. cbn [fmap list_fmap]. rewrite <- !app_assoc. reflexivity.
Qed.

(** *** The run of the command-line program *)

Lemma appends_ret {A : Type} (a : A) : appends (World := World) (mret a).
Proof. intros st. exists [], []. apply continues_refl. Qed.

Lemma appends_bind {A B : Type} (m : M World A) (f : A -> M World B) :
  appends m -> (forall a, appends (f a)) -> appends (m ≫= f).
Proof.
  intros Hm Hf st. rewrite bind_run.
  destruct (Hm st) as (lines1 & calls1 & Hcont1).
  destruct (m st) as [a st1]. cbn [snd] in Hcont1.
  destruct (Hf a st1) as (lines2 & calls2 & Hcont2).
  exists (lines1 ++ lines2)%list, (calls1 ++ calls2)%list.
  eapply continues_trans; eassumption.
Qed.

Lemma appends_perform {A : Type} (c : Call) (f : World -> A * World) :
  appends (perform c f).
Proof.
  intros st. unfold perform. destruct (f (world st)) as [a w].
  exists [], [c]. split; [symmetry; apply app_nil_r|reflexivity].
Qed.

Lemma appends_Printf (format : string) (operands : list operand) :
  appends (World := World) (Printf format operands).
Proof.
  intros st. exists [mkLine format operands], [].
  split; [reflexivity|symmetry; apply app_nil_r].
Qed.

Lemma appends_forEach {A : Type} (l : list A) (body : A -> M World unit) :
  (forall a, appends (body a)) -> appends (forEach l body).
Proof.
  intros Hbody. induction l as [|a l IH]; cbn [forEach].
  - apply appends_ret.
  - apply appends_bind; [apply Hbody|]. intros _. exact IH.
Qed.

Lemma appends_downloadEmoteImages (httpClient : Client World)
    (emoteIdentifier : string) (emoteData : EmoteData) (outputRoot : string) :
  appends (downloadEmoteImages httpClient emoteIdentifier emoteData outputRoot).
Proof.
  intros st.
  destruct (downloadEmoteImages_run httpClient emoteIdentifier emoteData outputRoot st)
    as (lines & newCalls & Hcont & _).
  exists lines, newCalls. exact Hcont.
Qed.

Lemma emoteDownloaded_before (httpClient : Client World) (outputRoot : string)
    (entry : string * EmoteData) (st0 st st' : State World)
    (lines : list Line) (newCalls : list Call) :
  continues st0 st lines newCalls ->
  emoteDownloaded httpClient outputRoot entry st st' ->
  emoteDownloaded httpClient outputRoot entry st0 st'.
Proof.
  intros Hcont (s & before & callsBefore & after & callsAfter & Hreach & Hrest).
  exists s, (lines ++ before)%list, (newCalls ++ callsBefore)%list, after, callsAfter.
  split; [|exact Hrest]. rewrite <- app_assoc.
  eapply continues_trans; eassumption.
Qed.

Lemma emoteDownloaded_after (httpClient : Client World) (outputRoot : string)
    (entry : string * EmoteData) (st st' st'' : State World)
    (lines : list Line) (newCalls : list Call) :
  emoteDownloaded httpClient outputRoot entry st st' ->
  continues st' st'' lines newCalls ->
  emoteDownloaded httpClient outputRoot entry st st''.
Proof.
  intros (s & before & callsBefore & after & callsAfter & Hreach & Hrest) Hcont.
  exists s, before, callsBefore, (after ++ lines)%list, (callsAfter ++ newCalls)%list.
  split; [exact Hreach|]. eapply continues_trans; eassumption.
Qed.

Lemma emoteDownloaded_bind_l {A B : Type} (httpClient : Client World)
    (outputRoot : string) (entry : string * EmoteData)
    (m : M World A) (f : A -> M World B) :
  (forall st, emoteDownloaded httpClient outputRoot entry st (m st).2) ->
  (forall a, appends (f a)) ->
  forall st, emoteDownloaded httpClient outputRoot entry st ((m ≫= f) st).2.
Proof.
  intros Hm Hf st. rewrite bind_run. specialize (Hm st).
  destruct (m st) as [a st1]. cbn [snd] in Hm.
  destruct (Hf a st1) as (lines & newCalls & Hcont).
  eapply emoteDownloaded_after; eassumption.
Qed.

Lemma emoteDownloaded_bind_r {A B : Type} (httpClient : Client World)
    (outputRoot : string) (entry : string * EmoteData)
    (m : M World A) (f : A -> M World B) :
  appends m ->
  (forall a st, emoteDownloaded httpClient outputRoot entry st (f a st).2) ->
  forall st, emoteDownloaded httpClient outputRoot entry st ((m ≫= f) st).2.
Proof.
  intros Hm Hf st. rewrite bind_run.
  destruct (Hm st) as (lines & newCalls & Hcont).
  destruct (m st) as [a st1]. cbn [snd] in Hcont.
  eapply emoteDownloaded_before; [exact Hcont|apply Hf].
Qed.

Lemma emoteDownloaded_forEach {A : Type} (httpClient : Client World)
    (outputRoot : string) (entry : string * EmoteData)
    (l : list A) (body : A -> M World unit) (a : A) :
  a ∈ l ->
  (forall b, appends (body b)) ->
  (forall st, emoteDownloaded httpClient outputRoot entry st (body a st).2) ->
  forall st, emoteDownloaded httpClient outputRoot entry st (forEach l body st).2.
Proof.
  intros Hin Hbody Ha. induction l as [|b l IH]; [inversion Hin|].
  cbn [forEach]. apply elem_of_cons in Hin. destruct Hin as [<-|Hin].
  - apply emoteDownloaded_bind_l; [exact Ha|].
    intros _. apply appends_forEach, Hbody.
  - apply emoteDownloaded_bind_r; [apply Hbody|]. intros _. apply IH, Hin.
Qed.

(** A run whose page is fetched and whose folder is made downloads every
    emote of the mapping. *)
Lemma downloadChannelEmotes_downloads (httpClient : Client World) (channelID : string)
    (st st1 : State World) (document : Document) (response : Response)
    (emoteIdentifier : string) (emoteData : EmoteData) :
  fetchDocument httpClient (twitchemotesBaseURL +:+ "/channels/" +:+ channelID) st
  = (Ok (document, response), st1) ->
  StatusCode response = StatusOK ->
  (os_MkdirAll (channelFolder document channelID) (world st1)).1 = None ->
  collectEmoteMetadata document !! emoteIdentifier = Some emoteData ->
  emoteDownloaded httpClient (channelFolder document channelID)
    (emoteIdentifier, emoteData) st (downloadChannelEmotes httpClient channelID st).2.
Proof.
  intros Hfetch Hstatus Hmk Hlookup.
  assert (Hst1 : continues st st1 []
                   [callDo (pageRequest channelID); callNewDocument (Body response)]).
  { pose proof (fetchDocument_calls httpClient
                  (twitchemotesBaseURL +:+ "/channels/" +:+ channelID) st) as Hcalls.
    cbv zeta in Hcalls. rewrite Hfetch in Hcalls. cbn [fst snd] in Hcalls.
    destruct Hcalls as [Hout Hcalls].
    split; [rewrite Hout; symmetry; apply app_nil_r|exact Hcalls]. }
  unfold downloadChannelEmotes. rewrite bind_run, Hfetch, bind_run, Hstatus.
  cbn [Nat.eqb negb StatusOK]. fold (channelFolder document channelID).
  rewrite bind_run. unfold MkdirAll at 1. unfold perform at 1.
  destruct (os_MkdirAll (channelFolder document channelID) (world st1))
    as [failed w1]. cbn [fst] in Hmk. subst failed.
  match goal with
  | |- context [let (_, _) := ?m ?s in _] =>
      assert (Hrest : forall s0,
                emoteDownloaded httpClient (channelFolder document channelID)
                  (emoteIdentifier, emoteData) s0 (m s0).2);
      [|specialize (Hrest s); destruct (m s) as [result s2] eqn:Hrun]
  end.
  { apply emoteDownloaded_bind_r; [apply appends_Printf|]. intros _.
    apply emoteDownloaded_bind_r.
    { destruct (negb (String.eqb (getChannelDisplayName document) ""));
        [apply appends_Printf|apply appends_ret]. }
    intros _. apply emoteDownloaded_bind_r; [apply appends_Printf|]. intros _.
    apply emoteDownloaded_bind_r; [apply appends_Printf|]. intros _.
    apply emoteDownloaded_bind_r; [apply appends_Printf|]. intros _.
    destruct (Nat.eqb_spec (size (collectEmoteMetadata document)) 0) as [Hempty|_].
    { apply map_size_empty_iff in Hempty. rewrite Hempty, lookup_empty in Hlookup.
      discriminate Hlookup. }
    intros s0. rewrite bind_run. unfold rangeMap.
    revert s0.
    assert (Hloop : forall w s0,
              emoteDownloaded httpClient (channelFolder document channelID)
                (emoteIdentifier, emoteData) s0
                ((forEach (rangeOrder EmoteData w (collectEmoteMetadata document))
                    (fun entry : string * EmoteData =>
                       let (emoteIdentifier, emoteData) := entry in
                       Printf "Downloading sizes for emote: %s (%s)\n"
                         [opString (EmoteCode emoteData); opString emoteIdentifier];;
                       downloadEmoteImages httpClient emoteIdentifier emoteData
                         (channelFolder document channelID));;
                  mret (@None error)) s0).2).
    { intros w. apply emoteDownloaded_bind_l; [|intros _; apply appends_ret].
      apply (emoteDownloaded_forEach _ _ _ _ _ (emoteIdentifier, emoteData)).
      - rewrite (rangeOrder_perm EmoteData w (collectEmoteMetadata document)).
        apply elem_of_map_to_list, Hlookup.
      - intros [i d]. apply appends_bind; [apply appends_Printf|].
        intros _. apply appends_downloadEmoteImages.
      - intros s1. rewrite bind_run. unfold Printf at 1.
        exists (mkState (world s1) (calls s1)
                  (stdout s1 ++ [announcement (emoteIdentifier, emoteData)])),
          [], [], [], [].
        split; [split; [reflexivity|symmetry; apply app_nil_r]|].
        apply continues_refl. }
    intros s0. apply Hloop. }
  cbn [snd] in Hrest. unfold CloseBody, perform. run.
  apply (emoteDownloaded_before _ _ _ st
           (mkState w1 (calls st1 ++ [callMkdirAll (channelFolder document channelID)])
              (stdout st1))
           _ ([] ++ [])
           ([callDo (pageRequest channelID); callNewDocument (Body response)]
            ++ [callMkdirAll (channelFolder document channelID)])).
  { eapply continues_trans; [exact Hst1|].
    split; [symmetry; apply app_nil_r|reflexivity]. }
  apply (emoteDownloaded_after _ _ _ _ s2 _ [] [callCloseBody (Body response)]);
    [exact Hrest|].
  split; [symmetry; apply app_nil_r|reflexivity].
Qed.

(** *** The run of the terminal-UI program, collecting its lines *)

Lemma bindL_run {Captured A B : Type} (m : L World Captured A)
    (f : A -> L World Captured B) (captured : Captured) (st : State World) :
  (m ≫= f) captured st
  = let (result, st') := m captured st in
    let (a, captured') := result in f a captured' st'.
Proof. reflexivity. Qed.

Lemma continuesL_refl (start : list string * State World) :
  continuesL start start [] [].
Proof. split; symmetry; apply app_nil_r. Qed.

Lemma continuesL_trans (a b c : list string * State World)
    (texts1 texts2 : list string) (calls1 calls2 : list Call) :
  continuesL a b texts1 calls1 -> continuesL b c texts2 calls2 ->
  continuesL a c (texts1 ++ texts2) (calls1 ++ calls2).
Proof.
  intros [Ht1 Hc1] [Ht2 Hc2]. split.
  - rewrite Ht2, Ht1, app_assoc. reflexivity.
  - rewrite Hc2, Hc1, app_assoc. reflexivity.
Qed.

Lemma appendsL_ret {A : Type} (a : A) : appendsL (World := World) (mret a).
Proof. intros collected st. exists [], []. apply continuesL_refl. Qed.

Lemma appendsL_bind {A B : Type} (m : L World (list string) A)
    (f : A -> L World (list string) B) :
  appendsL m -> (forall a, appendsL (f a)) -> appendsL (m ≫= f).
Proof.
  intros Hm Hf collected st. rewrite bindL_run.
  destruct (Hm collected st) as (texts1 & calls1 & Hcont1).
  destruct (m collected st) as [[a collected1] st1]. cbn [fst snd] in Hcont1.
  destruct (Hf a collected1 st1) as (texts2 & calls2 & Hcont2).
  exists (texts1 ++ texts2)%list, (calls1 ++ calls2)%list.
  eapply continuesL_trans; eassumption.
Qed.

Lemma appendsL_lift {A : Type} (m : M World A) : appends m -> appendsL (lift m).
Proof.
  intros Hm collected st. unfold lift.
  destruct (Hm st) as (lines & newCalls & _ & Hcalls).
  destruct (m st) as [a st1]. cbn [snd] in Hcalls.
  exists [], newCalls. split; [symmetry; apply app_nil_r|exact Hcalls].
Qed.

Lemma appendsL_collectLine (line : string) : appendsL (World := World) (collectLine line).
Proof.
  intros collected st. exists [line], [].
  split; [reflexivity|symmetry; apply app_nil_r].
Qed.

Lemma appendsL_forEachL {A : Type} (l : list A)
    (body : A -> L World (list string) unit) :
  (forall a, appendsL (body a)) -> appendsL (forEachL l body).
Proof.
  intros Hbody. induction l as [|a l IH]; cbn [forEachL].
  - apply appendsL_ret.
  - apply appendsL_bind; [apply Hbody|]. intros _. exact IH.
Qed.

Lemma appendsL_downloadSize (httpClient : Client World)
    (emoteBaseURL safeEmoteCode emoteFolder sizeValue : string) :
  appendsL (TweDlpTui.downloadSize httpClient emoteBaseURL safeEmoteCode emoteFolder
              collectLine sizeValue).
Proof.
  unfold TweDlpTui.downloadSize, Do, Create, Copy, CloseBody, CloseFile.
  destruct (http_NewRequest "GET" (emoteBaseURL +:+ "/light/" +:+ sizeValue) None)
    as [request|err]; [|apply appendsL_collectLine].
  apply appendsL_bind; [apply appendsL_lift, appends_perform|].
  intros [response|err]; [|apply appendsL_collectLine].
  destruct (negb (StatusCode response =? StatusOK)%nat).
  { apply appendsL_bind; [apply appendsL_collectLine|].
    intros _. apply appendsL_lift, appends_perform. }
  apply appendsL_bind; [apply appendsL_lift, appends_perform|].
  intros [outputFile|err].
  2:{ apply appendsL_bind; [apply appendsL_collectLine|].
      intros _. apply appendsL_lift, appends_perform. }
  apply appendsL_bind; [apply appendsL_lift, appends_perform|]. intros copyError.
  apply appendsL_bind; [apply appendsL_lift, appends_perform|]. intros _.
  apply appendsL_bind; [apply appendsL_lift, appends_perform|]. intros _.
  destruct copyError; apply appendsL_collectLine.
Qed.

Lemma appendsL_downloadEmoteImages (httpClient : Client World)
    (emoteIdentifier : string) (emoteData : TweDlpTui.EmoteData) (outputRoot : string) :
  appendsL (TweDlpTui.downloadEmoteImages httpClient emoteIdentifier emoteData
              outputRoot collectLine).
Proof.
  unfold TweDlpTui.downloadEmoteImages, MkdirAll.
  apply appendsL_bind; [apply appendsL_lift, appends_perform|].
  intros [err|]; [apply appendsL_collectLine|].
  apply appendsL_forEachL. intros sizeValue. apply appendsL_downloadSize.
Qed.

Lemma emoteCollected_before (httpClient : Client World) (outputRoot : string)
    (entry : string * TweDlpTui.EmoteData) (a b c : list string * State World)
    (texts : list string) (newCalls : list Call) :
  continuesL a b texts newCalls ->
  emoteCollected httpClient outputRoot entry b c ->
  emoteCollected httpClient outputRoot entry a c.
Proof.
  intros Hcont (s & before & callsBefore & after & callsAfter & Hreach & Hrest).
  exists s, (texts ++ before)%list, (newCalls ++ callsBefore)%list, after, callsAfter.
  split; [|exact Hrest]. rewrite <- app_assoc.
  eapply continuesL_trans; eassumption.
Qed.

Lemma emoteCollected_after (httpClient : Client World) (outputRoot : string)
    (entry : string * TweDlpTui.EmoteData) (a b c : list string * State World)
    (texts : list string) (newCalls : list Call) :
  emoteCollected httpClient outputRoot entry a b ->
  continuesL b c texts newCalls ->
  emoteCollected httpClient outputRoot entry a c.
Proof.
  intros (s & before & callsBefore & after & callsAfter & Hreach & Hrest) Hcont.
  exists s, before, callsBefore, (after ++ texts)%list, (callsAfter ++ newCalls)%list.
  split; [exact Hreach|]. cbv zeta in *. eapply continuesL_trans; eassumption.
Qed.

Lemma emoteCollected_bind_l {A B : Type} (httpClient : Client World)
    (outputRoot : string) (entry : string * TweDlpTui.EmoteData)
    (m : L World (list string) A) (f : A -> L World (list string) B) :
  (forall collected st,
     emoteCollected httpClient outputRoot entry (collected, st)
       ((m collected st).1.2, (m collected st).2)) ->
  (forall a, appendsL (f a)) ->
  forall collected st,
    emoteCollected httpClient outputRoot entry (collected, st)
      (((m ≫= f) collected st).1.2, ((m ≫= f) collected st).2).
Proof.
  intros Hm Hf collected st. rewrite bindL_run. specialize (Hm collected st).
  destruct (m collected st) as [[a collected1] st1]. cbn [fst snd] in Hm.
  destruct (Hf a collected1 st1) as (texts & newCalls & Hcont).
  eapply emoteCollected_after; eassumption.
Qed.

Lemma emoteCollected_bind_r {A B : Type} (httpClient : Client World)
    (outputRoot : string) (entry : string * TweDlpTui.EmoteData)
    (m : L World (list string) A) (f : A -> L World (list string) B) :
  appendsL m ->
  (forall a collected st,
     emoteCollected httpClient outputRoot entry (collected, st)
       ((f a collected st).1.2, (f a collected st).2)) ->
  forall collected st,
    emoteCollected httpClient outputRoot entry (collected, st)
      (((m ≫= f) collected st).1.2, ((m ≫= f) collected st).2).
Proof.
  intros Hm Hf collected st. rewrite bindL_run.
  destruct (Hm collected st) as (texts & newCalls & Hcont).
  destruct (m collected st) as [[a collected1] st1]. cbn [fst snd] in Hcont.
  eapply emoteCollected_before; [exact Hcont|apply Hf].
Qed.

Lemma emoteCollected_forEachL {A : Type} (httpClient : Client World)
    (outputRoot : string) (entry : string * TweDlpTui.EmoteData)
    (l : list A) (body : A -> L World (list string) unit) (a : A) :
  a ∈ l ->
  (forall b, appendsL (body b)) ->
  (forall collected st,
     emoteCollected httpClient outputRoot entry (collected, st)
       ((body a collected st).1.2, (body a collected st).2)) ->
  forall collected st,
    emoteCollected httpClient outputRoot entry (collected, st)
      ((forEachL l body collected st).1.2, (forEachL l body collected st).2).
Proof.
  intros Hin Hbody Ha. induction l as [|b l IH]; [inversion Hin|].
  cbn [forEachL]. apply elem_of_cons in Hin. destruct Hin as [<-|Hin].
  - apply emoteCollected_bind_l; [exact Ha|].
    intros _. apply appendsL_forEachL, Hbody.
  - apply emoteCollected_bind_r; [apply Hbody|]. intros _. apply IH, Hin.
Qed.

Lemma returnsNone_bind {A : Type} (m : L World (list string) A)
    (f : A -> L World (list string) (option error)) :
  (forall a collected st, (f a collected st).1.1 = None) ->
  forall collected st, ((m ≫= f) collected st).1.1 = None.
Proof.
  intros Hf collected st. rewrite bindL_run.
  destruct (m collected st) as [[a collected1] st1]. apply Hf.
Qed.

(** A run of the terminal-UI program whose page is fetched and whose folder
    is made returns no error and downloads every emote of the mapping. *)
Lemma downloadChannelEmotes_collects (httpClient : Client World) (channelID : string)
    (st st1 : State World) (document : Document) (response : Response)
    (collected : list string) :
  fetchDocument httpClient (twitchemotesBaseURL +:+ "/channels/" +:+ channelID) st
  = (Ok (document, response), st1) ->
  StatusCode response = StatusOK ->
  (os_MkdirAll (channelFolder document channelID) (world st1)).1 = None ->
  let run :=
    TweDlpTui.downloadChannelEmotes httpClient channelID collectLine collected st in
  run.1.1 = None
  /\ forall emoteIdentifier emoteData,
       TweDlpTui.collectEmoteMetadata document !! emoteIdentifier = Some emoteData ->
       emoteCollected httpClient (channelFolder document channelID)
         (emoteIdentifier, emoteData) (collected, st) (run.1.2, run.2).
Proof.
  intros Hfetch Hstatus Hmk. cbv zeta.
  cut (exists collected2 s2,
         TweDlpTui.downloadChannelEmotes httpClient channelID collectLine collected st
         = ((None, collected2), s2)
         /\ forall emoteIdentifier emoteData,
              TweDlpTui.collectEmoteMetadata document !! emoteIdentifier
              = Some emoteData ->
              emoteCollected httpClient (channelFolder document channelID)
                (emoteIdentifier, emoteData) (collected, st) (collected2, s2)).
  { intros (collected2 & s2 & -> & Hall). split; [reflexivity|exact Hall]. }
  assert (Hst1 : calls st1
                 = (calls st ++ [callDo (pageRequest channelID);
                                 callNewDocument (Body response)])%list).
  { pose proof (fetchDocument_calls httpClient
                  (twitchemotesBaseURL +:+ "/channels/" +:+ channelID) st) as Hcalls.
    cbv zeta in Hcalls. rewrite Hfetch in Hcalls. cbn [fst snd] in Hcalls.
    apply Hcalls. }
  unfold TweDlpTui.downloadChannelEmotes.
  change TweDlpTui.fetchDocument with fetchDocument.
  change TweDlpTui.twitchemotesBaseURL with twitchemotesBaseURL.
  change TweDlpTui.getChannelDisplayName with getChannelDisplayName.
  change TweDlpTui.makeSafeName with makeSafeName.
  rewrite bindL_run. unfold lift at 1. rewrite Hfetch.
  rewrite bindL_run, Hstatus.
  cbn [Nat.eqb negb StatusOK]. fold (channelFolder document channelID).
  rewrite bindL_run. unfold lift at 1. unfold MkdirAll at 1. unfold perform at 1.
  destruct (os_MkdirAll (channelFolder document channelID) (world st1))
    as [failed w1]. cbn [fst] in Hmk. subst failed.
  match goal with
  | |- context [let (_, _) := ?m ?c ?s in _] =>
      assert (Hnone : forall c0 s0, (m c0 s0).1.1 = None);
      [|assert (Hrest : forall emoteIdentifier emoteData,
                  TweDlpTui.collectEmoteMetadata document !! emoteIdentifier
                  = Some emoteData ->
                  forall c0 s0,
                    emoteCollected httpClient (channelFolder document channelID)
                      (emoteIdentifier, emoteData) (c0, s0)
                      ((m c0 s0).1.2, (m c0 s0).2));
        [|specialize (Hnone c s);
          pose proof (fun i d Hl => Hrest i d Hl c s) as Hhere; clear Hrest;
          destruct (m c s) as [[result collected2] s2]]]
  end.
  { do 5 (apply returnsNone_bind; intros _).
    destruct (size (TweDlpTui.collectEmoteMetadata document) =? 0)%nat;
      [reflexivity|].
    apply returnsNone_bind. intros entries. apply returnsNone_bind. intros _.
    reflexivity. }
  { intros emoteIdentifier emoteData Hlookup.
    apply emoteCollected_bind_r; [apply appendsL_collectLine|]. intros _.
    apply emoteCollected_bind_r.
    { destruct (negb (String.eqb (getChannelDisplayName document) ""));
        [apply appendsL_collectLine|apply appendsL_ret]. }
    intros _. apply emoteCollected_bind_r; [apply appendsL_collectLine|]. intros _.
    apply emoteCollected_bind_r; [apply appendsL_collectLine|]. intros _.
    apply emoteCollected_bind_r; [apply appendsL_collectLine|]. intros _.
    destruct (Nat.eqb_spec (size (TweDlpTui.collectEmoteMetadata document)) 0)
      as [Hempty|_].
    { apply map_size_empty_iff in Hempty. rewrite Hempty, lookup_empty in Hlookup.
      discriminate Hlookup. }
    intros c0 s0. rewrite bindL_run. unfold lift at 1. unfold rangeMap at 1.
    revert c0 s0.
    assert (Hloop : forall w c0 s0,
              emoteCollected httpClient (channelFolder document channelID)
                (emoteIdentifier, emoteData) (c0, s0)
                (((forEachL (rangeOrder TweDlpTui.EmoteData w
                               (TweDlpTui.collectEmoteMetadata document))
                     (fun entry : string * TweDlpTui.EmoteData =>
                        let (emoteIdentifier, emoteData) := entry in
                        collectLine
                          (Sprintf "Downloading sizes for emote: %s (%s)"
                             [opString (TweDlpTui.EmoteCode emoteData);
                              opString emoteIdentifier]);;
                        TweDlpTui.downloadEmoteImages httpClient emoteIdentifier
                          emoteData (channelFolder document channelID) collectLine);;
                   mret (@None error)) c0 s0).1.2,
                 ((forEachL (rangeOrder TweDlpTui.EmoteData w
                               (TweDlpTui.collectEmoteMetadata document))
                     (fun entry : string * TweDlpTui.EmoteData =>
                        let (emoteIdentifier, emoteData) := entry in
                        collectLine
                          (Sprintf "Downloading sizes for emote: %s (%s)"
                             [opString (TweDlpTui.EmoteCode emoteData);
                              opString emoteIdentifier]);;
                        TweDlpTui.downloadEmoteImages httpClient emoteIdentifier
                          emoteData (channelFolder document channelID) collectLine);;
                   mret (@None error)) c0 s0).2)).
    { intros w. apply emoteCollected_bind_l; [|intros _; apply appendsL_ret].
      apply (emoteCollected_forEachL _ _ _ _ _ (emoteIdentifier, emoteData)).
      - rewrite (rangeOrder_perm TweDlpTui.EmoteData w
                   (TweDlpTui.collectEmoteMetadata document)).
        apply elem_of_map_to_list, Hlookup.
      - intros [i d]. apply appendsL_bind; [apply appendsL_collectLine|].
        intros _. apply appendsL_downloadEmoteImages.
      - intros c1 s1. rewrite bindL_run. unfold collectLine at 1.
        unfold mret, M_ret.
        exists ((c1 ++ [announcementText (emoteIdentifier, emoteData)])%list, s1),
          [], [], [], [].
        split; [split; [reflexivity|symmetry; apply app_nil_r]|].
        cbv zeta. apply continuesL_refl. }
    intros c0 s0. apply Hloop. }
  cbn [fst snd] in Hnone, Hhere. subst result.
  unfold lift, CloseBody, perform, mret, L_ret, M_ret, mbind, L_bind.
  cbn [fst snd world calls stdout].
  eexists _, _. split; [reflexivity|]. intros emoteIdentifier emoteData Hlookup.
  apply (emoteCollected_before _ _ _ (collected, st)
           (collected,
            mkState w1 (calls st1 ++ [callMkdirAll (channelFolder document channelID)])
              (stdout st1))
           _ []
           ([callDo (pageRequest channelID); callNewDocument (Body response)]
            ++ [callMkdirAll (channelFolder document channelID)])).
  { split; [symmetry; apply app_nil_r|].
    cbn [snd calls]. rewrite Hst1, <- app_assoc. reflexivity. }
  apply (emoteCollected_after _ _ _ _ (collected2, s2) _ []
           [callCloseBody (Body response)]);
    [apply Hhere, Hlookup|].
  split; [symmetry; apply app_nil_r|reflexivity].
Qed.

(** C8: a failure on one size is logged and skipped, and stops nothing, in
    both programs.  For an emote whose folder is made, the download is three
    attempts, at the sizes 1.0, 2.0 and 3.0 in this order, each from the
    world that the attempt before it left, whatever that attempt met: the
    request not built, the request not answered, a status other than 200, the
    file not created or the copy broken off, each reported by the skip notice
    of that failure, or the file written, reported by its name.  The
    command-line program prints the three notices, the terminal-UI program
    passes their texts to its logging function, whether that collects or
    prints them, and both make the same calls and leave the same world; every
    request that could be built was sent.  And a run whose page is fetched
    and whose folder is made returns no error, in both programs, after it has
    announced every emote of the mapping and downloaded its images in this
    way. *)
Theorem download_failures_skip (httpClient : Client World) :
  (forall emoteIdentifier emoteData outputRoot (st : State World),
     let safeEmoteCode := makeSafeName (EmoteCode emoteData) in
     let emoteFolder := filepath_Join outputRoot safeEmoteCode in
     let attempt :=
       sizeAttempt httpClient (BaseURL emoteData) safeEmoteCode emoteFolder in
     (os_MkdirAll emoteFolder (world st)).1 = None ->
     exists n1 n2 n3 c1 c2 c3 w1 w2 w3,
       let newCalls := (callMkdirAll emoteFolder :: c1 ++ c2 ++ c3)%list in
       attempt "1.0" (os_MkdirAll emoteFolder (world st)).2 n1 c1 w1
       /\ attempt "2.0" w1 n2 c2 w2
       /\ attempt "3.0" w2 n3 c3 w3
       /\ downloadEmoteImages httpClient emoteIdentifier emoteData outputRoot st
          = (tt, mkState w3 (calls st ++ newCalls)
                   (stdout st ++ (noticeLine <$> [n1; n2; n3])))
       /\ (forall collected,
             TweDlpTui.downloadEmoteImages httpClient emoteIdentifier
               (sameRecord emoteData) outputRoot collectLine collected st
             = ((tt, (collected ++ (noticeText <$> [n1; n2; n3]))%list),
                mkState w3 (calls st ++ newCalls) (stdout st)))
       /\ TweDlpTui.downloadEmoteImages httpClient emoteIdentifier
            (sameRecord emoteData) outputRoot printLine tt st
          = ((tt, tt),
             mkState w3 (calls st ++ newCalls)
               (stdout st ++ (printed <$> (noticeText <$> [n1; n2; n3]))))
       /\ forall sizeValue parsed,
            sizeValue ∈ emoteSizeList ->
            url_Parse (BaseURL emoteData +:+ "/light/" +:+ sizeValue) = Ok parsed ->
            callDo (assetRequest (BaseURL emoteData +:+ "/light/" +:+ sizeValue))
            ∈ newCalls)
  /\ (forall channelID (st st1 : State World) document response,
        fetchDocument httpClient (twitchemotesBaseURL +:+ "/channels/" +:+ channelID) st
        = (Ok (document, response), st1) ->
        StatusCode response = StatusOK ->
        (os_MkdirAll (channelFolder document channelID) (world st1)).1 = None ->
        let run := downloadChannelEmotes httpClient channelID st in
        (run.1 = None
         /\ forall emoteIdentifier emoteData,
              collectEmoteMetadata document !! emoteIdentifier = Some emoteData ->
              (exists before lines after,
                 stdout run.2
                 = (before ++ announcement (emoteIdentifier, emoteData)
                    :: lines ++ after)%list
                 /\ emoteReport (channelFolder document channelID) emoteData lines)
              /\ emoteDownloaded httpClient (channelFolder document channelID)
                   (emoteIdentifier, emoteData) st run.2)
        /\ forall collected,
             let tui :=
               TweDlpTui.downloadChannelEmotes httpClient channelID collectLine
                 collected st in
             tui.1.1 = None
             /\ forall emoteIdentifier emoteData,
                  TweDlpTui.collectEmoteMetadata document !! emoteIdentifier
                  = Some emoteData ->
                  emoteCollected httpClient (channelFolder document channelID)
                    (emoteIdentifier, emoteData) (collected, st) (tui.1.2, tui.2)).
Proof.
  split.
  - intros emoteIdentifier emoteData outputRoot [w cs out]. cbv zeta. cbn [world].
    destruct (os_MkdirAll
                (filepath_Join outputRoot (makeSafeName (EmoteCode emoteData))) w)
      as [failed w0] eqn:Hmk.
    cbn [fst snd]. intros ->.
    destruct (downloadEmoteImages_attempts httpClient emoteIdentifier emoteData
                outputRoot w w0 Hmk)
      as (n1 & n2 & n3 & c1 & c2 & c3 & w1 & w2 & w3 & Ha1 & Ha2 & Ha3 & Hrun).
    cbv zeta in Hrun. destruct (Hrun cs out) as (Hcli & Hcollect & Hprint).
    exists n1, n2, n3, c1, c2, c3, w1, w2, w3. cbn [calls stdout].
    split; [exact Ha1|]. split; [exact Ha2|]. split; [exact Ha3|].
    split; [exact Hcli|]. split; [exact Hcollect|]. split; [exact Hprint|].
    intros sizeValue parsed Hsize Hparsed. right.
    unfold emoteSizeList in Hsize.
    apply elem_of_cons in Hsize. destruct Hsize as [->|Hsize].
    { apply elem_of_app. left. eapply sizeAttempt_sent; eassumption. }
    apply elem_of_cons in Hsize. destruct Hsize as [->|Hsize].
    { apply elem_of_app. right. apply elem_of_app. left.
      eapply sizeAttempt_sent; eassumption. }
    apply elem_of_cons in Hsize. destruct Hsize as [->|Hsize]; [|inversion Hsize].
    apply elem_of_app. right. apply elem_of_app. right.
    eapply sizeAttempt_sent; eassumption.
  - intros channelID st st1 document response Hfetch Hstatus Hmk. cbv zeta. split.
    + destruct (downloadChannelEmotes_run httpClient channelID st st1 document response
                  Hfetch Hstatus Hmk) as (st' & intro & w & blocks & Hrun & Hout & Hall).
      split; [rewrite Hrun; reflexivity|].
      intros emoteIdentifier emoteData Hlookup. split.
      * rewrite Hrun. cbn [snd].
        assert (Hin : (emoteIdentifier, emoteData)
                      ∈ rangeOrder EmoteData w (collectEmoteMetadata document)).
        { rewrite (rangeOrder_perm EmoteData w (collectEmoteMetadata document)).
          apply elem_of_map_to_list, Hlookup. }
        destruct (Forall2_block _ _ _ _ Hall Hin)
          as (pre & block & post & -> & lines & Hblock & Hreport).
        exists (stdout st1 ++ intro ++ concat pre.*1)%list, lines, (concat post.*1).
        split; [|exact Hreport].
        rewrite Hout, fmap_app, concat_app, fmap_cons, concat_cons, Hblock.
        rewrite <- !app_assoc. reflexivity.
      * eapply downloadChannelEmotes_downloads; eassumption.
    + intros collected.
      apply (downloadChannelEmotes_collects httpClient channelID st st1 document
               response collected Hfetch Hstatus Hmk).
Qed.

End DownloadFailures.

(** The emote of the example, whose second size is missing, and the whole
    run on the sample page of channel 12345. *)
Lemma download_failures_skip_witness :
  let emoteData :=
    TweDlp.mkEmoteData "https://static-cdn.jtvnw.net/emoticons/v2/999/default"
      "default" "PogChamp" in
  let attempt :=
    sizeAttempt (H := plainLibrary) (H0 := sampleSystem) sampleClient
      (TweDlp.BaseURL emoteData) "PogChamp" "channel/PogChamp" in
  let run :=
    TweDlp.downloadChannelEmotes (H := plainLibrary) (H0 := sampleSystem) sampleClient
      "12345" startState in
  (exists n1 n2 n3 c1 c2 c3 w1 w2 w3,
     let newCalls := (Go.callMkdirAll "channel/PogChamp" :: c1 ++ c2 ++ c3)%list in
     attempt "1.0" tt n1 c1 w1 /\ attempt "2.0" w1 n2 c2 w2 /\ attempt "3.0" w2 n3 c3 w3
     /\ TweDlp.downloadEmoteImages (H := plainLibrary) (H0 := sampleSystem) sampleClient
          "999" emoteData "channel" startState
        = (tt, Go.mkState w3 ([] ++ newCalls) ([] ++ (noticeLine <$> [n1; n2; n3])))
     /\ (forall collected,
           TweDlpTui.downloadEmoteImages (H := plainLibrary) (H0 := sampleFmt)
             (H1 := sampleSystem) sampleClient "999" (sameRecord emoteData) "channel"
             collectLine collected startState
           = ((tt, (collected ++ (noticeText (H := sampleFmt) <$> [n1; n2; n3]))%list),
              Go.mkState w3 ([] ++ newCalls) []))
     /\ TweDlpTui.downloadEmoteImages (H := plainLibrary) (H0 := sampleFmt)
          (H1 := sampleSystem) sampleClient "999" (sameRecord emoteData) "channel"
          printLine tt startState
        = ((tt, tt),
           Go.mkState w3 ([] ++ newCalls)
             ([] ++ (printed <$> (noticeText (H := sampleFmt) <$> [n1; n2; n3]))))
     /\ forall sizeValue parsed,
          sizeValue ∈ TweDlp.emoteSizeList ->
          @Go.url_Parse plainLibrary (TweDlp.BaseURL emoteData +:+ "/light/" +:+ sizeValue)
          = Go.Ok parsed ->
          Go.callDo (assetRequest (TweDlp.BaseURL emoteData +:+ "/light/" +:+ sizeValue))
          ∈ newCalls)
  /\ (run.1 = None
      /\ (exists before lines after,
            Go.stdout run.2
            = (before ++ announcement ("999", emoteData) :: lines ++ after)%list
            /\ emoteReport (H := plainLibrary) "12345" emoteData lines)
      /\ emoteDownloaded (H := plainLibrary) (H0 := sampleSystem) sampleClient "12345"
           ("999", emoteData) startState run.2)
  /\ (let tui :=
        TweDlpTui.downloadChannelEmotes (H := plainLibrary) (H0 := sampleFmt)
          (H1 := sampleSystem) sampleClient "12345" collectLine [] startState in
      tui.1.1 = None
      /\ emoteCollected (H := plainLibrary) (H0 := sampleFmt) (H1 := sampleSystem)
           sampleClient "12345" ("999", sameRecord emoteData) ([], startState)
           (tui.1.2, tui.2)).
Proof.
  cbv zeta.
  destruct (download_failures_skip (H := plainLibrary) (H0 := sampleFmt)
              (H1 := sampleSystem) sampleClient) as [Hemote Hrun].
  split.
  - exact (Hemote "999"
             (TweDlp.mkEmoteData "https://static-cdn.jtvnw.net/emoticons/v2/999/default"
                "default" "PogChamp")
             "channel" startState eq_refl).
  - destruct (Hrun "12345" startState
                (Go.mkState tt
                   [Go.callDo (assetRequest "https://twitchemotes.com/channels/12345");
                    Go.callNewDocument 2] [])
                sampleDocument
                (Go.mkResponse "https://twitchemotes.com/channels/12345" 200 "200 OK"
                   "image/png" 2))
      as [[Hnone Hall] Htui]; [vm_compute; reflexivity|reflexivity|reflexivity|].
    split.
    + split; [exact Hnone|]. apply (Hall "999"). vm_compute. reflexivity.
    + destruct (Htui []) as [HnoneTui HallTui].
      split; [exact HnoneTui|]. apply (HallTui "999"). vm_compute. reflexivity.
Defined.
